(** * Nebari infrastructure stage: validation and compilation of the
      multi-provider cluster configuration.

    Shallow embedding of [src/_nebari/stages/infrastructure/__init__.py].
    Python dictionaries whose iteration order is observable (node groups,
    KMS inventory, node selectors) are association lists in insertion order;
    the raw configuration document, which is only probed by key, is a
    [gmap string pyval].  Exceptions are the [Raise] branch of [result]. *)

From Stdlib Require Import ZArith Ascii String List Bool Lia Sorted.
From stdpp Require Import base option list gmap strings.

Local Open Scope string_scope.
Local Open Scope Z_scope.

(** ** Exceptions and fallible computations *)

(** An f-string is kept as the sequence of its literal pieces and of the
    values it interpolates: a string (shown as it is), or a list or a set of
    strings (shown by Python's [repr]). *)
Inductive fragment : Type :=
| Lit (s : string)
| Str (s : string)
| StrList (l : list string)
| StrSet (l : list string).

Definition message : Type := list fragment.

(** The text of a message that interpolates strings only; the text of a
    list or a set is left to [repr]. *)
Fixpoint render (m : message) : option string :=
  match m with
  | [] => Some ""
  | Lit s :: m' | Str s :: m' => String.append s <$> render m'
  | StrList _ :: _ | StrSet _ :: _ => None
  end.

(** The exceptions the stage raises.  [ValidationError] is the one pydantic
    raises when a value does not fit the declared type of a field; it
    carries the model and the field. *)
Inductive exn : Type :=
| ValueError (msg : message)
| KeyError (key : string)
| TypeError (msg : string)
| AttributeError (msg : string)
| IndexError (msg : string)
| ValidationError (model field : string).

Inductive result (A : Type) : Type :=
| Ok (a : A)
| Raise (e : exn).
Arguments Ok {A} a.
Arguments Raise {A} e.

#[export] Instance result_ret : MRet result := fun A a => Ok a.

#[export] Instance result_bind : MBind result := fun A B k c =>
  match c with
  | Ok a => k a
  | Raise e => Raise e
  end.

Definition is_ok {A} (c : result A) : bool :=
  match c with Ok _ => true | Raise _ => false end.

(** Sequential traversal that stops at the first exception, as a Python
    comprehension or loop over a list does. *)
Fixpoint traverse {A B} (f : A → result B) (l : list A) : result (list B) :=
  match l with
  | [] => Ok []
  | x :: l' => y ← f x; ys ← traverse f l'; Ok (y :: ys)
  end.

(** A pydantic field declared with a non-Optional type rejects [None]. *)
Definition required {A} (model field : string) (x : option A) : result A :=
  match x with
  | Some a => Ok a
  | None => Raise (ValidationError model field)
  end.

(** ** Taxonomy *)

(** Modelled from the spec: [schema.ProviderEnum] of [nebari/schema.py],
    which is not part of the sources at hand; its members are local,
    existing, gcp, aws and azure, each with its own name as value. *)
Module schema.

Inductive ProviderEnum : Type := local | existing | gcp | aws | azure.

Definition ProviderEnum_value (p : ProviderEnum) : string :=
  match p with
  | local => "local"
  | existing => "existing"
  | gcp => "gcp"
  | aws => "aws"
  | azure => "azure"
  end.

(** The member of a given name, if any. *)
Definition ProviderEnum_member (name : string) : option ProviderEnum :=
  if String.eqb name "local" then Some local
  else if String.eqb name "existing" then Some existing
  else if String.eqb name "gcp" then Some gcp
  else if String.eqb name "aws" then Some aws
  else if String.eqb name "azure" then Some azure
  else None.

(** Modelled from the spec: [schema.provider_enum_name_map], the name of the
    configuration block of each provider kind; the blocks are the five
    fields of [InputSchema], and which kind reads which block is seen in
    [input_vars]. *)
Definition provider_enum_name_map : list (ProviderEnum * string) :=
  [ (local, "local"); (existing, "existing");
    (gcp, "google_cloud_platform"); (aws, "amazon_web_services");
    (azure, "azure") ].

(** Modelled from the spec: [schema.TaintEffectEnum] of [nebari/schema.py],
    the three effects of a taint. *)
Inductive TaintEffectEnum : Type := NoSchedule | PreferNoSchedule | NoExecute.

Definition TaintEffectEnum_value (e : TaintEffectEnum) : string :=
  match e with
  | NoSchedule => "NoSchedule"
  | PreferNoSchedule => "PreferNoSchedule"
  | NoExecute => "NoExecute"
  end.

End schema.

(** Modelled from the spec: [schema.Taint], a key, a value and an effect. *)
Module Taint.
Record t : Type := mk {
  key : string;
  value : string;
  effect : schema.TaintEffectEnum
}.
End Taint.

(** Modelled from the spec: [SharedFsEnum] of the kubernetes_services stage,
    the kind of shared storage; the stage distinguishes cephfs and efs from
    the rest. *)
Inductive SharedFsEnum : Type := nfs | cephfs | efs.

Definition SharedFsEnum_eqb (a b : SharedFsEnum) : bool :=
  match a, b with
  | nfs, nfs | cephfs, cephfs | efs, efs => true
  | _, _ => false
  end.

(** ** Dictionaries in insertion order *)

Fixpoint dict_get {A} (k : string) (d : list (string * A)) : option A :=
  match d with
  | [] => None
  | (k', v) :: d' => if String.eqb k k' then Some v else dict_get k d'
  end.

Definition dict_keys {A} (d : list (string * A)) : list string := map fst d.

Definition dict_values {A} (d : list (string * A)) : list A := map snd d.

(** ** Node pool model *)

(** [class NodeGroup]: [taints = None] is the unset state. *)
Module NodeGroup.
Record t : Type := mk {
  instance : string;
  min_nodes : Z;
  max_nodes : Z;
  taints : option (list Taint.t)
}.

Definition set_taints (x : option (list Taint.t)) (ng : t) : t :=
  {| instance := instance ng; min_nodes := min_nodes ng;
     max_nodes := max_nodes ng; taints := x |}.
End NodeGroup.

Module GCPGuestAccelerator.
Record t : Type := mk { name : string; count : Z }.
End GCPGuestAccelerator.

(** [class GCPNodeGroup(NodeGroup)] *)
Module GCPNodeGroup.
Record t : Type := mk {
  base : NodeGroup.t;
  preemptible : bool;
  labels : list (string * string);
  guest_accelerators : list GCPGuestAccelerator.t
}.
End GCPNodeGroup.

(** [class AzureNodeGroup(NodeGroup)]: no field of its own. *)
Module AzureNodeGroup.
Record t : Type := mk { base : NodeGroup.t }.
End AzureNodeGroup.

(** [class AWSNodeGroup(NodeGroup)]; its [launch_template] field is
    commented out in the source. *)
Module AWSNodeGroup.
Record t : Type := mk {
  base : NodeGroup.t;
  gpu : bool;
  single_subnet : bool;
  permissions_boundary : option string;
  spot : bool
}.
End AWSNodeGroup.

(** The subclasses of [NodeGroup]: [set_missing_taints_to_default_taints]
    reads and assigns the inherited [taints] attribute of whatever group it
    is given. *)
Class NodeGroupLike (A : Type) : Type := {
  node_group : A → NodeGroup.t;
  assign_taints : option (list Taint.t) → A → A;
  node_group_assign_taints :
    ∀ x a, node_group (assign_taints x a) = NodeGroup.set_taints x (node_group a)
}.

#[export] Instance NodeGroup_like : NodeGroupLike NodeGroup.t :=
  {| node_group := id; assign_taints := NodeGroup.set_taints;
     node_group_assign_taints := fun _ _ => eq_refl |}.

#[export] Instance GCPNodeGroup_like : NodeGroupLike GCPNodeGroup.t :=
  {| node_group := GCPNodeGroup.base;
     assign_taints := fun x a =>
       {| GCPNodeGroup.base := NodeGroup.set_taints x (GCPNodeGroup.base a);
          GCPNodeGroup.preemptible := GCPNodeGroup.preemptible a;
          GCPNodeGroup.labels := GCPNodeGroup.labels a;
          GCPNodeGroup.guest_accelerators := GCPNodeGroup.guest_accelerators a |};
     node_group_assign_taints := fun _ _ => eq_refl |}.

#[export] Instance AzureNodeGroup_like : NodeGroupLike AzureNodeGroup.t :=
  {| node_group := AzureNodeGroup.base;
     assign_taints := fun x a =>
       {| AzureNodeGroup.base := NodeGroup.set_taints x (AzureNodeGroup.base a) |};
     node_group_assign_taints := fun _ _ => eq_refl |}.

#[export] Instance AWSNodeGroup_like : NodeGroupLike AWSNodeGroup.t :=
  {| node_group := AWSNodeGroup.base;
     assign_taints := fun x a =>
       {| AWSNodeGroup.base := NodeGroup.set_taints x (AWSNodeGroup.base a);
          AWSNodeGroup.gpu := AWSNodeGroup.gpu a;
          AWSNodeGroup.single_subnet := AWSNodeGroup.single_subnet a;
          AWSNodeGroup.permissions_boundary := AWSNodeGroup.permissions_boundary a;
          AWSNodeGroup.spot := AWSNodeGroup.spot a |};
     node_group_assign_taints := fun _ _ => eq_refl |}.

Definition DEFAULT_GENERAL_NODE_GROUP_TAINTS : list Taint.t := [].

Definition DEFAULT_NODE_GROUP_TAINTS : list Taint.t :=
  [ {| Taint.key := "dedicated"; Taint.value := "nebari";
       Taint.effect := schema.NoSchedule |} ].

(** The body of the loop of [set_missing_taints_to_default_taints], for one
    item of the dictionary. *)
Definition default_taints_of `{NodeGroupLike A}
    (node_group_name : string) (ng : A) : A :=
  match NodeGroup.taints (node_group ng) with
  | None =>
      if String.eqb node_group_name "general"
      then assign_taints (Some DEFAULT_GENERAL_NODE_GROUP_TAINTS) ng
      else assign_taints (Some DEFAULT_NODE_GROUP_TAINTS) ng
  | Some _ => ng
  end.

(** [set_missing_taints_to_default_taints]: the loop assigns to the groups
    in place and the dictionary itself is returned, so keys and order
    stay. *)
Definition set_missing_taints_to_default_taints `{NodeGroupLike A}
    (node_groups : list (string * A)) : list (string * A) :=
  map (fun item => (item.1, default_taints_of item.1 item.2)) node_groups.

(** ** AMI type *)

Inductive AWSAmiTypes : Type := AL2_x86_64 | AL2_x86_64_GPU | CUSTOM.

Definition AWSAmiTypes_value (x : AWSAmiTypes) : string :=
  match x with
  | AL2_x86_64 => "AL2_x86_64"
  | AL2_x86_64_GPU => "AL2_x86_64_GPU"
  | CUSTOM => "CUSTOM"
  end.

(** Validation of a string against the enumeration, as pydantic does for a
    field of type [Optional[AWSAmiTypes]]. *)
Definition AWSAmiTypes_of_string (s : string) : option AWSAmiTypes :=
  if String.eqb s "AL2_x86_64" then Some AL2_x86_64
  else if String.eqb s "AL2_x86_64_GPU" then Some AL2_x86_64_GPU
  else if String.eqb s "CUSTOM" then Some CUSTOM
  else None.

Module AWSNodeLaunchTemplate.
Record t : Type := mk {
  pre_bootstrap_command : option string;
  ami_id : option string
}.
End AWSNodeLaunchTemplate.

(** Truth value of an [Optional[str]]: [None] and the empty string are
    false. *)
Definition truthy_opt_str (s : option string) : bool :=
  match s with
  | Some s => negb (String.eqb s "")
  | None => false
  end.

(** [construct_aws_ami_type]: a model instance is always true, so
    [launch_template and getattr(launch_template, "ami_id", None)] is the
    truth value of its [ami_id] when there is a template. *)
Definition construct_aws_ami_type
    (gpu_enabled : bool) (launch_template : option AWSNodeLaunchTemplate.t) : string :=
  if match launch_template with
     | Some x => truthy_opt_str (AWSNodeLaunchTemplate.ami_id x)
     | None => false
     end
  then "CUSTOM"
  else if gpu_enabled then "AL2_x86_64_GPU"
  else "AL2_x86_64".

(** ** Strings as Python uses them *)

(** [str(x)] for the value of a [kubernetes_version] key: [None] is the
    Python [None], [Some s] a value that [str] shows as [s]. *)
Definition py_str (x : option string) : string :=
  match x with
  | None => "None"
  | Some s => s
  end.

(** [needle in hay] on strings. *)
Fixpoint str_contains (needle hay : string) : bool :=
  String.prefix needle hay ||
  match hay with
  | EmptyString => false
  | String _ hay' => str_contains needle hay'
  end.

(** [x in l] on a list of strings. *)
Definition str_in (x : string) (l : list string) : bool :=
  existsb (String.eqb x) l.

(** [l[-1]] *)
Definition last_item {A} (l : list A) : result A :=
  match last l with
  | Some x => Ok x
  | None => Raise (IndexError "list index out of range")
  end.

(** [d[key]] on a raw dictionary whose key may be missing. *)
Definition getitem {A} (key : string) (x : option A) : result A :=
  match x with
  | Some a => Ok a
  | None => Raise (KeyError key)
  end.

(** ** Kubernetes version checks *)

Definition invalid_kubernetes_version (shown : string) (available : list string) : exn :=
  ValueError
    [ Lit "
Invalid `kubernetes-version` provided: "; Str shown;
      Lit ".
Please select from one of the following supported Kubernetes versions: ";
      StrList available;
      Lit " or omit flag to use latest Kubernetes version available." ].

(** [GoogleCloudPlatformProvider._check_input], the version step: some
    available version starts with [str(data["kubernetes_version"])]. *)
Definition gcp_check_kubernetes_version
    (available_kubernetes_versions : list string)
    (kubernetes_version : option string) : result unit :=
  if existsb (fun v => String.prefix (py_str kubernetes_version) v)
       available_kubernetes_versions
  then Ok tt
  else Raise (invalid_kubernetes_version (py_str kubernetes_version)
                available_kubernetes_versions).

(** [AzureProvider._validate_kubernetes_version] *)
Definition _validate_kubernetes_version
    (available_kubernetes_versions : list string)
    (value : option string) : result string :=
  match value with
  | None => last_item available_kubernetes_versions
  | Some v =>
      if negb (str_in v available_kubernetes_versions)
      then Raise (invalid_kubernetes_version v available_kubernetes_versions)
      else Ok v
  end.

(** [AmazonWebServicesProvider._check_input], the version step; the result
    is the value of [data["kubernetes_version"]] afterwards. *)
Definition aws_check_kubernetes_version
    (available_kubernetes_versions : list string)
    (kubernetes_version : option string) : result string :=
  if (length available_kubernetes_versions =? 0)%nat
  then Raise (ValueError
                [Lit "Request to AWS for available Kubernetes versions failed."])
  else
    match kubernetes_version with
    | None => last_item available_kubernetes_versions
    | Some v =>
        if negb (str_in v available_kubernetes_versions)
        then Raise (invalid_kubernetes_version v available_kubernetes_versions)
        else Ok v
    end.

(** ** Azure resource group name *)

(** A Python [str] is a sequence of code points, and [len], the classes of
    a pattern and indexing count in code points; the texts of this
    development are held as their UTF-8 bytes. *)

(** The code points of a text held as its UTF-8 bytes: a byte below 128 is a
    code point, a lead byte announces one, two or three continuation bytes,
    each of which adds six bits. *)
Fixpoint code_points_from (pending : nat) (acc : N) (s : string) : list N :=
  match s with
  | EmptyString => []
  | String b s' =>
      let n := N_of_ascii b in
      match pending with
      | O =>
          if (n <? 128)%N then n :: code_points_from 0 0 s'
          else if (n <? 224)%N then code_points_from 1 (n - 192) s'
          else if (n <? 240)%N then code_points_from 2 (n - 224) s'
          else code_points_from 3 (n - 240) s'
      | S k =>
          let acc' := (acc * 64 + n mod 64)%N in
          match k with
          | O => acc' :: code_points_from 0 0 s'
          | S _ => code_points_from k acc' s'
          end
      end
  end.

Definition code_points (s : string) : list N := code_points_from 0 0 s.

(** [len(s)] of a Python [str]: the number of its code points. *)
Definition py_len (s : string) : nat := length (code_points s).

(** The letters and digits of ASCII: below 128 [str.isalnum] is true of
    these code points and of no other. *)
Definition ascii_isalnum (c : N) : bool :=
  ((48 <=? c) && (c <=? 57) || (65 <=? c) && (c <=? 90)
   || (97 <=? c) && (c <=? 122))%N.

Section resource_group_name.

(** [str.isalnum] of the one code point, from the Unicode database: what
    [\w] of a pattern that is a [str] adds the underscore to. *)
Variable isalnum : N → bool.

(** [\w] *)
Definition is_word (c : N) : bool := isalnum c || (c =? 95)%N.

(** The class [[\w\-\.\(\)]]. *)
Definition in_class (c : N) : bool :=
  is_word c || (c =? 45)%N || (c =? 46)%N || (c =? 40)%N || (c =? 41)%N.

(** What may follow the first character of the class: more of them, then
    [$], which is the end of the string or a newline that ends it. *)
Fixpoint class_run (l : list N) : bool :=
  match l with
  | [] => true
  | c :: l' =>
      if in_class c then class_run l'
      else (c =? 10)%N && match l' with [] => true | _ => false end
  end.

(** [re.match(r"^[\w\-\.\(\)]+$", value)] *)
Definition re_match_resource_group_name (value : string) : bool :=
  match code_points value with
  | [] => false
  | c :: l' => in_class c && class_run l'
  end.

Definition resource_group_length_error (suffix : string) : exn :=
  ValueError
    [ Lit "Azure Resource Group name must be between 1 and 90 characters long, when combined with the suffix `";
      Str suffix; Lit "`." ].

Definition resource_group_characters_error : exn :=
  ValueError
    [ Lit "Azure Resource Group name can only contain alphanumerics, underscores, parentheses, hyphens, and periods." ].

Definition resource_group_period_error : exn :=
  ValueError [ Lit "Azure Resource Group name can't end with a period." ].

(** [AzureProvider._validate_resource_group_name]; the suffix is
    [AZURE_NODE_RESOURCE_GROUP_SUFFIX] of [_nebari.utils]. *)
Definition _validate_resource_group_name
    (AZURE_NODE_RESOURCE_GROUP_SUFFIX : string)
    (value : option string) : result (option string) :=
  match value with
  | None => Ok None
  | Some v =>
      let length :=
        Z.of_nat (py_len v) + Z.of_nat (py_len AZURE_NODE_RESOURCE_GROUP_SUFFIX) in
      if (length <? 1) || (length >? 90)
      then Raise (resource_group_length_error AZURE_NODE_RESOURCE_GROUP_SUFFIX)
      else if negb (re_match_resource_group_name v)
      then Raise resource_group_characters_error
      else match last (code_points v) with
           | None => Raise (IndexError "string index out of range")
           | Some c =>
               if (c =? 46)%N
               then Raise resource_group_period_error
               else Ok (Some v)
           end
  end.

End resource_group_name.

(** ** AWS KMS key *)

(** An entry of [amazon_web_services.kms_key_arns(region)]. *)
Module KmsKeyInfo.
Record t : Type := mk {
  Arn : string;
  KeyManager : string;
  KeySpec : string;
  KeyUsage : string
}.
End KmsKeyInfo.

Definition kms_not_available (arn : string)
    (available_kms_keys : list (string * KmsKeyInfo.t)) : exn :=
  ValueError
    [ Lit "Amazon Web Services KMS Key with ARN "; Str arn;
      Lit " not one of available/enabled keys=";
      StrList
        (map KmsKeyInfo.Arn
           (List.filter
              (fun v => String.eqb (KmsKeyInfo.KeyManager v) "CUSTOMER"
                        && String.eqb (KmsKeyInfo.KeySpec v) "SYMMETRIC_DEFAULT")
              (dict_values available_kms_keys))) ].

Definition kms_not_customer_managed (key_id : string) : exn :=
  ValueError
    [ Lit "Amazon Web Services KMS Key with ID "; Str key_id;
      Lit " is not a customer managed key" ].

Definition kms_mac_usage (key_id : string) : exn :=
  ValueError
    [ Lit "Amazon Web Services KMS Key with ID "; Str key_id;
      Lit " does not have KeyUsage set to 'Encrypt and decrypt' data" ].

Definition kms_wrong_usage (key_id : string) : exn :=
  ValueError
    [ Lit "Amazon Web Services KMS Key with ID "; Str key_id;
      Lit " is not of type Symmetric, and KeyUsage not set to 'Encrypt and decrypt' data" ].

Definition kms_not_symmetric (key_id : string) : exn :=
  ValueError
    [ Lit "Amazon Web Services KMS Key with ID "; Str key_id;
      Lit " is not of type Symmetric" ].

(** The candidates: [[id for id in available_kms_keys.keys() if id in arn]] *)
Definition kms_candidates
    (available_kms_keys : list (string * KmsKeyInfo.t)) (arn : string) : list string :=
  List.filter (fun id => str_contains id arn) (dict_keys available_kms_keys).

(** [AmazonWebServicesProvider._check_input], the KMS step.  [eks_kms_arn]
    is [None] when the key is missing from the data, [Some None] when it is
    there with the value [None]. *)
Definition aws_check_kms_key
    (available_kms_keys : list (string * KmsKeyInfo.t))
    (eks_kms_arn : option (option string)) : result unit :=
  match eks_kms_arn with
  | Some (Some arn) =>
      match kms_candidates available_kms_keys arn with
      | [key_id] =>
          key ← getitem key_id (dict_get key_id available_kms_keys);
          if negb (String.eqb (KmsKeyInfo.Arn key) arn)
          then Raise (kms_not_available arn available_kms_keys)
          else if negb (String.eqb (KmsKeyInfo.KeyManager key) "CUSTOMER")
          then Raise (kms_not_customer_managed key_id)
          else if negb (String.eqb (KmsKeyInfo.KeySpec key) "SYMMETRIC_DEFAULT")
          then
            if String.eqb (KmsKeyInfo.KeyUsage key) "GENERATE_VERIFY_MAC"
            then Raise (kms_mac_usage key_id)
            else if negb (String.eqb (KmsKeyInfo.KeyUsage key) "ENCRYPT_DECRYPT")
            then Raise (kms_wrong_usage key_id)
            else Raise (kms_not_symmetric key_id)
          else Ok tt
      | _ => Raise (kms_not_available arn available_kms_keys)
      end
  | _ => Ok tt
  end.

(** ** Provider configuration models *)

Module KeyValueDict.
Record t : Type := mk { key : string; value : string }.
End KeyValueDict.

Definition default_node_selectors : list (string * KeyValueDict.t) :=
  [ ("general", {| KeyValueDict.key := "kubernetes.io/os"; KeyValueDict.value := "linux" |});
    ("user", {| KeyValueDict.key := "kubernetes.io/os"; KeyValueDict.value := "linux" |});
    ("worker", {| KeyValueDict.key := "kubernetes.io/os"; KeyValueDict.value := "linux" |}) ].

Module LocalProvider.
Record t : Type := mk {
  kube_context : option string;
  node_selectors : list (string * KeyValueDict.t)
}.
(** [LocalProvider()] *)
Definition default : t :=
  {| kube_context := None; node_selectors := default_node_selectors |}.
End LocalProvider.

Module ExistingProvider.
Record t : Type := mk {
  kube_context : option string;
  node_selectors : list (string * KeyValueDict.t)
}.
(** [ExistingProvider()] *)
Definition default : t :=
  {| kube_context := None; node_selectors := default_node_selectors |}.
End ExistingProvider.

Module GCPIPAllocationPolicy.
Record t : Type := mk {
  cluster_secondary_range_name : string;
  services_secondary_range_name : string;
  cluster_ipv4_cidr_block : string;
  services_ipv4_cidr_block : string
}.
End GCPIPAllocationPolicy.

Module GCPCIDRBlock.
Record t : Type := mk { cidr_block : string; display_name : string }.
End GCPCIDRBlock.

Module GCPPrivateClusterConfig.
Record t : Type := mk {
  enable_private_nodes : bool;
  enable_private_endpoint : bool;
  master_ipv4_cidr_block : string
}.
End GCPPrivateClusterConfig.

Module GoogleCloudPlatformProvider.
Record t : Type := mk {
  region : string;
  project : string;
  kubernetes_version : string;
  availability_zones : option (list string);
  release_channel : string;
  node_groups : list (string * GCPNodeGroup.t);
  tags : option (list string);
  networking_mode : string;
  network : string;
  subnetwork : option string;
  ip_allocation_policy : option GCPIPAllocationPolicy.t;
  master_authorized_networks_config : option GCPCIDRBlock.t;
  private_cluster_config : option GCPPrivateClusterConfig.t
}.
End GoogleCloudPlatformProvider.

Module AzureProvider.
Record t : Type := mk {
  region : string;
  kubernetes_version : option string;
  storage_account_postfix : string;
  authorized_ip_ranges : option (list string);
  resource_group_name : option string;
  node_groups : list (string * AzureNodeGroup.t);
  vnet_subnet_id : option string;
  private_cluster_enabled : bool;
  tags : option (list (string * string));
  network_profile : option (list (string * string));
  max_pods : option Z;
  workload_identity_enabled : bool;
  azure_policy_enabled : option bool
}.
End AzureProvider.

(** [Literal["private", "public", "public_and_private"]] *)
Inductive EksEndpointAccess : Type := private | public | public_and_private.

Module AmazonWebServicesProvider.
Record t : Type := mk {
  region : string;
  kubernetes_version : string;
  availability_zones : option (list string);
  node_groups : list (string * AWSNodeGroup.t);
  eks_endpoint_access : option EksEndpointAccess;
  eks_public_access_cidrs : option (list string);
  eks_kms_arn : option string;
  existing_subnet_ids : option (list string);
  existing_security_group_id : option string;
  vpc_cidr_block : string;
  permissions_boundary : option string;
  tags : option (list (string * string))
}.
End AmazonWebServicesProvider.

Definition new_node_group (instance : string) (min_nodes max_nodes : Z) : NodeGroup.t :=
  {| NodeGroup.instance := instance; NodeGroup.min_nodes := min_nodes;
     NodeGroup.max_nodes := max_nodes; NodeGroup.taints := None |}.

Definition new_gcp_node_group (instance : string) (min_nodes max_nodes : Z) : GCPNodeGroup.t :=
  {| GCPNodeGroup.base := new_node_group instance min_nodes max_nodes;
     GCPNodeGroup.preemptible := false; GCPNodeGroup.labels := [];
     GCPNodeGroup.guest_accelerators := [] |}.

Definition new_aws_node_group (instance : string) (min_nodes max_nodes : Z) : AWSNodeGroup.t :=
  {| AWSNodeGroup.base := new_node_group instance min_nodes max_nodes;
     AWSNodeGroup.gpu := false; AWSNodeGroup.single_subnet := false;
     AWSNodeGroup.permissions_boundary := None; AWSNodeGroup.spot := false |}.

Definition DEFAULT_GCP_NODE_GROUPS : list (string * GCPNodeGroup.t) :=
  [ ("general", new_gcp_node_group "e2-standard-8" 1 1);
    ("user", new_gcp_node_group "e2-standard-4" 0 5);
    ("worker", new_gcp_node_group "e2-standard-4" 0 5) ].

Definition DEFAULT_AZURE_NODE_GROUPS : list (string * AzureNodeGroup.t) :=
  [ ("general", {| AzureNodeGroup.base := new_node_group "Standard_D8_v3" 1 1 |});
    ("user", {| AzureNodeGroup.base := new_node_group "Standard_D4_v3" 0 5 |});
    ("worker", {| AzureNodeGroup.base := new_node_group "Standard_D4_v3" 0 5 |}) ].

Definition DEFAULT_AWS_NODE_GROUPS : list (string * AWSNodeGroup.t) :=
  [ ("general", new_aws_node_group "m5.2xlarge" 1 1);
    ("user", new_aws_node_group "m5.xlarge" 0 5);
    ("worker", new_aws_node_group "m5.xlarge" 0 5) ].

(** ** Raw documents *)

(** A value of the raw configuration document, as the YAML loader and the
    validator leave it: scalars, lists, mappings, and the two models
    [check_provider] may put in. *)
#[warnings="-register-all"]
Inductive pyval : Type :=
| VNone
| VBool (b : bool)
| VInt (z : Z)
| VStr (s : string)
| VList (l : list pyval)
| VDict (d : list (string * pyval))
| VLocalProvider (m : LocalProvider.t)
| VExistingProvider (m : ExistingProvider.t).

(** Truth value of a Python object; a model instance is true. *)
Definition truthy (v : pyval) : bool :=
  match v with
  | VNone => false
  | VBool b => b
  | VInt z => negb (z =? 0)
  | VStr s => negb (String.eqb s "")
  | VList l => match l with [] => false | _ => true end
  | VDict d => match d with [] => false | _ => true end
  | VLocalProvider _ | VExistingProvider _ => true
  end.

(** [AWSNodeGroup.check_launch_template] *)
Definition check_launch_template (values : gmap string pyval)
    : result (gmap string pyval) :=
  match values !! "launch_template" with
  | Some _ =>
      Raise (ValueError
        [ Lit "The 'launch_template' field is currently unavailable and has been removed from the configuration schema.
Please omit this field until it is reintroduced in a future update." ])
  | None => Ok values
  end.

(** ** Provider selection *)

(** [provider_name_abbreviation_map]: block name to kind name, in the order
    of [schema.provider_enum_name_map]. *)
Definition provider_name_abbreviation_map : list (string * string) :=
  map (fun kv => (kv.2, schema.ProviderEnum_value kv.1)) schema.provider_enum_name_map.

(** [schema.provider_enum_name_map[provider]] for a kind given by name. *)
Definition provider_enum_name_map_get (provider : string) : result string :=
  getitem provider
    (snd <$> List.find (fun kv => String.eqb (schema.ProviderEnum_value kv.1) provider)
               schema.provider_enum_name_map).

(** [provider_enum_model_map[provider]()] for the two kinds the validator
    builds a model for. *)
Definition provider_enum_model_map_new (provider : string) : pyval :=
  if String.eqb provider "local" then VLocalProvider LocalProvider.default
  else VExistingProvider ExistingProvider.default.

(** What [warnings.warn] is given. *)
Definition extra_provider_warning (provider : string) (extra : list string) : message :=
  [ Lit "Provider is set to "; Str provider;
    Lit ",  but configuration defined for other providers: "; StrSet extra ].

(** The comprehension of the second branch of [check_provider]: the blocks
    whose key is in the document, in the order of the name map. *)
Definition present_blocks (data : gmap string pyval) : list string :=
  List.filter (fun p => bool_decide (is_Some (data !! p)))
    (dict_keys provider_name_abbreviation_map).

(** The comprehension of its first branch: the blocks that are in the
    document with a true value. *)
Definition truthy_blocks (data : gmap string pyval) : list string :=
  List.filter
    (fun p => match data !! p with Some v => truthy v | None => false end)
    (dict_keys provider_name_abbreviation_map).

Section check_provider.

(** [hasattr(schema.ProviderEnum, name)]: true of the five member names, and
    of whatever else is an attribute of the class. *)
Variable hasattr_ProviderEnum : string → bool.

(** [InputSchema.check_provider]: the document it returns and the warnings
    it emits. *)
Definition check_provider (data : gmap string pyval)
    : result (gmap string pyval * list message) :=
  match data !! "provider" with
  | Some (VStr provider) =>
      if hasattr_ProviderEnum provider then
        let data' :=
          if str_in provider ["local"; "existing"]
             && negb (bool_decide (is_Some (data !! provider)))
          then <[provider := provider_enum_model_map_new provider]> data
          else data in
        let set_providers := truthy_blocks data' in
        expected_provider_config ← provider_enum_name_map_get provider;
        let extra_provider_config :=
          List.filter (fun p => negb (String.eqb p expected_provider_config))
            set_providers in
        match extra_provider_config with
        | [] => Ok (data', [])
        | _ => Ok (data', [extra_provider_warning provider extra_provider_config])
        end
      else
        Raise (ValueError
          [ Lit "'"; Str provider;
            Lit "' is not a valid enumeration member; permitted: local, existing, aws, gcp, azure" ])
  | Some _ => Raise (TypeError "attribute name must be string")
  | None =>
      let set_providers := present_blocks data in
      match set_providers with
      | [] => Ok (<["provider" := VStr (schema.ProviderEnum_value schema.local)]> data, [])
      | [p] =>
          abbreviation ← getitem p (dict_get p provider_name_abbreviation_map);
          Ok (<["provider" := VStr abbreviation]> data, [])
      | _ => Raise (ValueError [Lit "Multiple providers set: "; StrList set_providers])
      end
  end.

End check_provider.

(** ** The validated configuration *)

(** [schema.Main] joined with [InputSchema]: the discriminator, the five
    optional blocks, and the values of the cluster context the stage reads
    ([escaped_project_name] is a property of [schema.Main], [storage_type]
    is [config.storage.type]). *)
Module Main.
Record t : Type := mk {
  provider : schema.ProviderEnum;
  project_name : string;
  escaped_project_name : string;
  namespace : string;
  storage_type : SharedFsEnum;
  local : option LocalProvider.t;
  existing : option ExistingProvider.t;
  google_cloud_platform : option GoogleCloudPlatformProvider.t;
  amazon_web_services : option AmazonWebServicesProvider.t;
  azure : option AzureProvider.t
}.
End Main.

(** Reading an attribute of a block that may be [None]. *)
Definition getattr {A} (attribute : string) (x : option A) : result A :=
  match x with
  | Some a => Ok a
  | None =>
      Raise (AttributeError
               ("'NoneType' object has no attribute '" +:+ attribute +:+ "'"))
  end.

(** ** Node selectors *)



(** ** Compiled variables *)

Module LocalInputVars.
Record t : Type := mk {
  kubeconfig_filename : string;
  kube_context : option string
}.
End LocalInputVars.

Module ExistingInputVars.
Record t : Type := mk { kube_context : string }.
End ExistingInputVars.

(** A taint as the GCP and AWS variables carry it. *)
Module TaintDict.
Record t : Type := mk { key : string; value : string; effect : string }.
End TaintDict.

Module GCPNodeGroupInputVars.
Record t : Type := mk {
  name : string;
  instance_type : string;
  min_size : Z;
  max_size : Z;
  node_taints : list TaintDict.t;
  labels : list (string * string);
  preemptible : bool;
  guest_accelerators : list GCPGuestAccelerator.t
}.
End GCPNodeGroupInputVars.

Inductive GCPNodeGroupImageTypeEnum : Type := UBUNTU_CONTAINERD | COS_CONTAINERD.

Module GCPInputVars.
Record t : Type := mk {
  name : string;
  environment : string;
  region : string;
  project_id : string;
  availability_zones : list string;
  node_groups : list GCPNodeGroupInputVars.t;
  kubeconfig_filename : string;
  tags : list string;
  kubernetes_version : string;
  release_channel : string;
  networking_mode : string;
  network : string;
  subnetwork : option string;
  ip_allocation_policy : option (list (string * string));
  master_authorized_networks_config : option (list (string * string));
  private_cluster_config : option GCPPrivateClusterConfig.t;
  node_group_image_type : GCPNodeGroupImageTypeEnum
}.
End GCPInputVars.

Module AzureNodeGroupInputVars.
Record t : Type := mk {
  instance : string;
  min_nodes : Z;
  max_nodes : Z;
  node_taints : list string
}.
End AzureNodeGroupInputVars.

Module AzureInputVars.
Record t : Type := mk {
  name : string;
  environment : string;
  region : string;
  authorized_ip_ranges : list string;
  kubeconfig_filename : string;
  kubernetes_version : string;
  node_groups : list (string * AzureNodeGroupInputVars.t);
  resource_group_name : string;
  node_resource_group_name : string;
  vnet_subnet_id : option string;
  private_cluster_enabled : bool;
  tags : list (string * string);
  max_pods : option Z;
  network_profile : option (list (string * string));
  azure_policy_enabled : option bool;
  workload_identity_enabled : bool
}.
End AzureInputVars.

Module AWSNodeGroupInputVars.
Record t : Type := mk {
  name : string;
  instance_type : string;
  gpu : bool;
  min_size : Z;
  desired_size : Z;
  max_size : Z;
  single_subnet : bool;
  permissions_boundary : option string;
  spot : bool;
  ami_type : option AWSAmiTypes;
  launch_template : option AWSNodeLaunchTemplate.t;
  node_taints : list TaintDict.t
}.
End AWSNodeGroupInputVars.

Module AWSInputVars.
Record t : Type := mk {
  name : string;
  environment : string;
  existing_security_group_id : option string;
  existing_subnet_ids : option (list string);
  region : string;
  kubernetes_version : string;
  eks_endpoint_access : option EksEndpointAccess;
  eks_kms_arn : option string;
  eks_public_access_cidrs : option (list string);
  node_groups : list AWSNodeGroupInputVars.t;
  availability_zones : list string;
  vpc_cidr_block : string;
  permissions_boundary : option string;
  kubeconfig_filename : string;
  tags : list (string * string);
  efs_enabled : bool
}.
End AWSInputVars.

(** What [input_vars] returns, before [model_dump()]. *)
Inductive InputVars : Type :=
| LocalVars (v : LocalInputVars.t)
| ExistingVars (v : ExistingInputVars.t)
| GCPVars (v : GCPInputVars.t)
| AzureVars (v : AzureInputVars.t)
| AWSVars (v : AWSInputVars.t).

(** Iterating over the value of [taints] in a [convert_taints] validator. *)
Definition iter_taints (value : option (list Taint.t)) : result (list Taint.t) :=
  match value with
  | Some l => Ok l
  | None => Raise (TypeError "'NoneType' object is not iterable")
  end.

Definition taint_effect_upper (e : schema.TaintEffectEnum) : string :=
  match e with
  | schema.NoSchedule => "NO_SCHEDULE"
  | schema.PreferNoSchedule => "PREFER_NO_SCHEDULE"
  | schema.NoExecute => "NO_EXECUTE"
  end.

(** [GCPNodeGroupInputVars.convert_taints] and
    [AWSNodeGroupInputVars.convert_taints] *)
Definition convert_taints (value : option (list Taint.t)) : result (list TaintDict.t) :=
  l ← iter_taints value;
  Ok (map (fun taint =>
             {| TaintDict.key := Taint.key taint;
                TaintDict.value := Taint.value taint;
                TaintDict.effect := taint_effect_upper (Taint.effect taint) |}) l).

(** [AzureNodeGroupInputVars.convert_taints] *)
Definition azure_convert_taints (value : option (list Taint.t)) : result (list string) :=
  l ← iter_taints value;
  Ok (map (fun taint =>
             Taint.key taint +:+ "=" +:+ Taint.value taint +:+ ":"
             +:+ schema.TaintEffectEnum_value (Taint.effect taint)) l).

(** A field of type [Optional[Dict[str, str]]] given an optional model
    instance: [None] passes, an instance is not a dictionary. *)
Definition dict_field {A} (model field : string) (x : option A)
    : result (option (list (string * string))) :=
  match x with
  | None => Ok None
  | Some _ => Raise (ValidationError model field)
  end.

(** The [GCPNodeGroupInputVars(...)] of the comprehension. *)
Definition gcp_node_group_input_vars (item : string * GCPNodeGroup.t)
    : result GCPNodeGroupInputVars.t :=
  let (name, ng) := item in
  node_taints ← convert_taints (NodeGroup.taints (GCPNodeGroup.base ng));
  Ok {| GCPNodeGroupInputVars.name := name;
        GCPNodeGroupInputVars.instance_type := NodeGroup.instance (GCPNodeGroup.base ng);
        GCPNodeGroupInputVars.min_size := NodeGroup.min_nodes (GCPNodeGroup.base ng);
        GCPNodeGroupInputVars.max_size := NodeGroup.max_nodes (GCPNodeGroup.base ng);
        GCPNodeGroupInputVars.node_taints := node_taints;
        GCPNodeGroupInputVars.labels := GCPNodeGroup.labels ng;
        GCPNodeGroupInputVars.preemptible := GCPNodeGroup.preemptible ng;
        GCPNodeGroupInputVars.guest_accelerators := GCPNodeGroup.guest_accelerators ng |}.

(** The [AzureNodeGroupInputVars(...)] of the comprehension. *)
Definition azure_node_group_input_vars (item : string * AzureNodeGroup.t)
    : result (string * AzureNodeGroupInputVars.t) :=
  let (name, ng) := item in
  node_taints ← azure_convert_taints (NodeGroup.taints (AzureNodeGroup.base ng));
  Ok (name,
      {| AzureNodeGroupInputVars.instance := NodeGroup.instance (AzureNodeGroup.base ng);
         AzureNodeGroupInputVars.min_nodes := NodeGroup.min_nodes (AzureNodeGroup.base ng);
         AzureNodeGroupInputVars.max_nodes := NodeGroup.max_nodes (AzureNodeGroup.base ng);
         AzureNodeGroupInputVars.node_taints := node_taints |}).

(** The [AWSNodeGroupInputVars(...)] of the comprehension: the launch
    template is the constant [None], in the record and in the call of
    [construct_aws_ami_type]. *)
Definition aws_node_group_input_vars (item : string * AWSNodeGroup.t)
    : result AWSNodeGroupInputVars.t :=
  let (name, ng) := item in
  ami_type ← required "AWSNodeGroupInputVars" "ami_type"
               (AWSAmiTypes_of_string
                  (construct_aws_ami_type (AWSNodeGroup.gpu ng) None));
  node_taints ← convert_taints (NodeGroup.taints (AWSNodeGroup.base ng));
  Ok {| AWSNodeGroupInputVars.name := name;
        AWSNodeGroupInputVars.instance_type := NodeGroup.instance (AWSNodeGroup.base ng);
        AWSNodeGroupInputVars.gpu := AWSNodeGroup.gpu ng;
        AWSNodeGroupInputVars.min_size := NodeGroup.min_nodes (AWSNodeGroup.base ng);
        AWSNodeGroupInputVars.desired_size := NodeGroup.min_nodes (AWSNodeGroup.base ng);
        AWSNodeGroupInputVars.max_size := NodeGroup.max_nodes (AWSNodeGroup.base ng);
        AWSNodeGroupInputVars.single_subnet := AWSNodeGroup.single_subnet ng;
        AWSNodeGroupInputVars.permissions_boundary := AWSNodeGroup.permissions_boundary ng;
        AWSNodeGroupInputVars.spot := AWSNodeGroup.spot ng;
        AWSNodeGroupInputVars.ami_type := Some ami_type;
        AWSNodeGroupInputVars.launch_template := None;
        AWSNodeGroupInputVars.node_taints := node_taints |}.

Section input_vars.

(** The value of [get_kubeconfig_filename()], the default of every
    [kubeconfig_filename] field. *)
Variable kubeconfig_filename : string.

(** [construct_azure_resource_group_name] of [_nebari.utils], by project
    name, namespace, base name and the [suffix] keyword when it is given. *)
Variable construct_azure_resource_group_name :
  string → string → option string → option string → string.

Variable AZURE_NODE_RESOURCE_GROUP_SUFFIX : string.

(** [KubernetesInfrastructureStage.input_vars].  The arguments of each
    constructor are evaluated first, in the order they are written, then the
    fields are validated in the order the model declares them; the match on
    the five members leaves the final [raise ValueError] without a case. *)
Definition input_vars (config : Main.t) : result InputVars :=
  match Main.provider config with
  | schema.local =>
      block ← getattr "kube_context" (Main.local config);
      Ok (LocalVars
            {| LocalInputVars.kubeconfig_filename := kubeconfig_filename;
               LocalInputVars.kube_context := LocalProvider.kube_context block |})
  | schema.existing =>
      block ← getattr "kube_context" (Main.existing config);
      kube_context ← required "ExistingInputVars" "kube_context"
                       (ExistingProvider.kube_context block);
      Ok (ExistingVars {| ExistingInputVars.kube_context := kube_context |})
  | schema.gcp =>
      block ← getattr "region" (Main.google_cloud_platform config);
      node_groups ← traverse gcp_node_group_input_vars
                      (GoogleCloudPlatformProvider.node_groups block);
      availability_zones ← required "GCPInputVars" "availability_zones"
                             (GoogleCloudPlatformProvider.availability_zones block);
      tags ← required "GCPInputVars" "tags" (GoogleCloudPlatformProvider.tags block);
      ip_allocation_policy ← dict_field "GCPInputVars" "ip_allocation_policy"
                               (GoogleCloudPlatformProvider.ip_allocation_policy block);
      master_authorized_networks_config ←
        dict_field "GCPInputVars" "master_authorized_networks_config"
          (GoogleCloudPlatformProvider.master_authorized_networks_config block);
      Ok (GCPVars
            {| GCPInputVars.name := Main.escaped_project_name config;
               GCPInputVars.environment := Main.namespace config;
               GCPInputVars.region := GoogleCloudPlatformProvider.region block;
               GCPInputVars.project_id := GoogleCloudPlatformProvider.project block;
               GCPInputVars.availability_zones := availability_zones;
               GCPInputVars.node_groups := node_groups;
               GCPInputVars.kubeconfig_filename := kubeconfig_filename;
               GCPInputVars.tags := tags;
               GCPInputVars.kubernetes_version :=
                 GoogleCloudPlatformProvider.kubernetes_version block;
               GCPInputVars.release_channel :=
                 GoogleCloudPlatformProvider.release_channel block;
               GCPInputVars.networking_mode :=
                 GoogleCloudPlatformProvider.networking_mode block;
               GCPInputVars.network := GoogleCloudPlatformProvider.network block;
               GCPInputVars.subnetwork := GoogleCloudPlatformProvider.subnetwork block;
               GCPInputVars.ip_allocation_policy := ip_allocation_policy;
               GCPInputVars.master_authorized_networks_config :=
                 master_authorized_networks_config;
               GCPInputVars.private_cluster_config :=
                 GoogleCloudPlatformProvider.private_cluster_config block;
               GCPInputVars.node_group_image_type :=
                 if SharedFsEnum_eqb (Main.storage_type config) cephfs
                 then UBUNTU_CONTAINERD else COS_CONTAINERD |})
  | schema.azure =>
      block ← getattr "region" (Main.azure config);
      node_groups ← traverse azure_node_group_input_vars
                      (AzureProvider.node_groups block);
      authorized_ip_ranges ← required "AzureInputVars" "authorized_ip_ranges"
                               (AzureProvider.authorized_ip_ranges block);
      kubernetes_version ← required "AzureInputVars" "kubernetes_version"
                             (AzureProvider.kubernetes_version block);
      tags ← required "AzureInputVars" "tags" (AzureProvider.tags block);
      Ok (AzureVars
            {| AzureInputVars.name := Main.escaped_project_name config;
               AzureInputVars.environment := Main.namespace config;
               AzureInputVars.region := AzureProvider.region block;
               AzureInputVars.authorized_ip_ranges := authorized_ip_ranges;
               AzureInputVars.kubeconfig_filename := kubeconfig_filename;
               AzureInputVars.kubernetes_version := kubernetes_version;
               AzureInputVars.node_groups := node_groups;
               AzureInputVars.resource_group_name :=
                 construct_azure_resource_group_name
                   (Main.project_name config) (Main.namespace config)
                   (AzureProvider.resource_group_name block) None;
               AzureInputVars.node_resource_group_name :=
                 construct_azure_resource_group_name
                   (Main.project_name config) (Main.namespace config)
                   (AzureProvider.resource_group_name block)
                   (Some AZURE_NODE_RESOURCE_GROUP_SUFFIX);
               AzureInputVars.vnet_subnet_id := AzureProvider.vnet_subnet_id block;
               AzureInputVars.private_cluster_enabled :=
                 AzureProvider.private_cluster_enabled block;
               AzureInputVars.tags := tags;
               AzureInputVars.max_pods := AzureProvider.max_pods block;
               AzureInputVars.network_profile := AzureProvider.network_profile block;
               AzureInputVars.azure_policy_enabled :=
                 AzureProvider.azure_policy_enabled block;
               AzureInputVars.workload_identity_enabled :=
                 AzureProvider.workload_identity_enabled block |})
  | schema.aws =>
      block ← getattr "eks_endpoint_access" (Main.amazon_web_services config);
      node_groups ← traverse aws_node_group_input_vars
                      (AmazonWebServicesProvider.node_groups block);
      availability_zones ← required "AWSInputVars" "availability_zones"
                             (AmazonWebServicesProvider.availability_zones block);
      tags ← required "AWSInputVars" "tags" (AmazonWebServicesProvider.tags block);
      Ok (AWSVars
            {| AWSInputVars.name := Main.escaped_project_name config;
               AWSInputVars.environment := Main.namespace config;
               AWSInputVars.existing_security_group_id :=
                 AmazonWebServicesProvider.existing_security_group_id block;
               AWSInputVars.existing_subnet_ids :=
                 AmazonWebServicesProvider.existing_subnet_ids block;
               AWSInputVars.region := AmazonWebServicesProvider.region block;
               AWSInputVars.kubernetes_version :=
                 AmazonWebServicesProvider.kubernetes_version block;
               AWSInputVars.eks_endpoint_access :=
                 AmazonWebServicesProvider.eks_endpoint_access block;
               AWSInputVars.eks_kms_arn := AmazonWebServicesProvider.eks_kms_arn block;
               AWSInputVars.eks_public_access_cidrs :=
                 AmazonWebServicesProvider.eks_public_access_cidrs block;
               AWSInputVars.node_groups := node_groups;
               AWSInputVars.availability_zones := availability_zones;
               AWSInputVars.vpc_cidr_block :=
                 AmazonWebServicesProvider.vpc_cidr_block block;
               AWSInputVars.permissions_boundary :=
                 AmazonWebServicesProvider.permissions_boundary block;
               AWSInputVars.kubeconfig_filename := kubeconfig_filename;
               AWSInputVars.tags := tags;
               AWSInputVars.efs_enabled :=
                 SharedFsEnum_eqb (Main.storage_type config) efs |})
  end.

End input_vars.

(** ** Taint strings *)

(** An item of the list [validate_taint_strings] returns: a string it has
    parsed, or whatever else the item was, left for the field's own
    validation. *)
Inductive taint_item : Type :=
| ParsedTaint (taint : Taint.t)
| OtherTaint (taint : pyval).

Section validate_taint_strings.

(** [schema.Taint.from_string] of [nebari/schema.py]. *)
Variable Taint_from_string : string → result Taint.t.

Definition validate_taint_item (taint : pyval) : result taint_item :=
  match taint with
  | VStr s => parsed_taint ← Taint_from_string s; Ok (ParsedTaint parsed_taint)
  | _ => Ok (OtherTaint taint)
  end.

(** [NodeGroup.validate_taint_strings] *)
Definition validate_taint_strings (taints : option (list pyval))
    : result (option (list taint_item)) :=
  match taints with
  | None => Ok None
  | Some l => return_value ← traverse validate_taint_item l; Ok (Some return_value)
  end.

End validate_taint_strings.

(** ** Credentials of the kubernetes provider *)

Definition credential_mapping : list (string * string) :=
  [ ("config_path", "KUBE_CONFIG_PATH");
    ("config_context", "KUBE_CTX");
    ("username", "KUBE_USER");
    ("password", "KUBE_PASSWORD");
    ("client_certificate", "KUBE_CLIENT_CERT_DATA");
    ("client_key", "KUBE_CLIENT_KEY_DATA");
    ("cluster_ca_certificate", "KUBE_CLUSTER_CA_CERT_DATA");
    ("host", "KUBE_HOST");
    ("token", "KUBE_TOKEN") ].

(** The [credentials] of [kubernetes_provider_context], which it hands to
    [modified_environ]: the condition of the comprehension is tested before
    the key is looked up, so an entry whose value is [None] is passed over
    whatever its key. *)
Fixpoint kubernetes_provider_credentials
    (kubernetes_credentials : list (string * option string))
    : result (list (string * string)) :=
  match kubernetes_credentials with
  | [] => Ok []
  | (k, None) :: rest => kubernetes_provider_credentials rest
  | (k, Some v) :: rest =>
      name ← getitem k (dict_get k credential_mapping);
      credentials ← kubernetes_provider_credentials rest;
      Ok ((name, v) :: credentials)
  end.

(** ** Autoscaling groups *)

Section asg.

(** [amazon_web_services.aws_get_asg_node_group_mapping], by project name,
    namespace and region. *)
Variable aws_get_asg_node_group_mapping :
  string → string → string → result (list (string * string)).

(** [_calculate_asg_node_group_map] *)
Definition _calculate_asg_node_group_map (config : Main.t)
    : result (list (string * string)) :=
  match Main.provider config with
  | schema.aws =>
      block ← getattr "region" (Main.amazon_web_services config);
      aws_get_asg_node_group_mapping (Main.project_name config)
        (Main.namespace config) (AmazonWebServicesProvider.region block)
  | _ => Ok []
  end.

(** The body of [post_deploy]: the arguments of the call of
    [amazon_web_services.set_asg_tags] it makes, if it makes one. *)
Definition post_deploy (config : Main.t)
    : result (option (list (string * string) * string)) :=
  asg_node_group_map ← _calculate_asg_node_group_map config;
  match asg_node_group_map with
  | [] => Ok None
  | _ =>
      block ← getattr "region" (Main.amazon_web_services config);
      Ok (Some (asg_node_group_map, AmazonWebServicesProvider.region block))
  end.

End asg.

(** ** Raw provider blocks and the inventories *)

(** A node group of a raw block: a mapping, which may lack the [instance]
    key, or a model instance, which has the attribute. *)
Inductive raw_node_group : Type :=
| RawMapping (instance : option string)
| RawModel (instance : string).

(** The [instance] of the loops of the two [_check_input]:
    [node_group["instance"]] if it has [__getitem__], else
    [node_group.instance]. *)
Definition raw_instance (ng : raw_node_group) : result string :=
  match ng with
  | RawMapping i => getitem "instance" i
  | RawModel i => Ok i
  end.

(** [google_cloud] of [_nebari.provider.cloud]: what the validator asks
    of it. *)
Module google_cloud.
Record t : Type := mk {
  regions : list string;
  kubernetes_versions : string → list string;
  instances : string → list string
}.
End google_cloud.

(** The raw block of GCP, by the keys [_check_input] reads; [None] is a
    missing key. *)
Module gcp_data.
Record t : Type := mk {
  region : option string;
  kubernetes_version : option (option string);
  node_groups : option (list (string * raw_node_group))
}.
End gcp_data.




(** [amazon_web_services] of [_nebari.provider.cloud]; [check_credentials]
    is its outcome. *)
Module amazon_web_services.
Record t : Type := mk {
  check_credentials : result unit;
  regions : string → list string;
  kubernetes_versions : string → list string;
  zones : string → list string;
  instances : string → list string;
  kms_key_arns : string → list (string * KmsKeyInfo.t)
}.
End amazon_web_services.

(** The raw block of AWS, by the keys [_check_input] reads and writes;
    [None] is a missing key, [Some None] a key with the value [None]. *)
Module aws_data.
Record t : Type := mk {
  region : option string;
  kubernetes_version : option (option string);
  availability_zones : option (option (list string));
  node_groups : option (list (string * raw_node_group));
  eks_kms_arn : option (option string)
}.
End aws_data.

(** [sorted] on strings. *)
Fixpoint insert_sorted (x : string) (l : list string) : list string :=
  match l with
  | [] => [x]
  | y :: l' => if String.leb x y then x :: l else y :: insert_sorted x l'
  end.

Definition sorted (l : list string) : list string := foldr insert_sorted [] l.

Definition aws_zone_error (zone : string) (available : list string) : exn :=
  ValueError
    [ Lit "Amazon Web Services availability zone="; Str zone;
      Lit " is not one of "; StrList available ].

(** The zone step: the value of [data["availability_zones"]] afterwards. *)
Definition aws_check_availability_zones (available_zones : list string)
    (availability_zones : option (option (list string))) : result (list string) :=
  match availability_zones with
  | None => Ok (take 2 (sorted available_zones))
  | Some None => Raise (TypeError "'NoneType' object is not iterable")
  | Some (Some zones) =>
      traverse (fun zone =>
                  if negb (str_in zone available_zones)
                  then Raise (aws_zone_error zone available_zones)
                  else Ok tt) zones;;
      Ok zones
  end.

(** The instance step: the message is built from [node_group.instance],
    which a mapping does not have. *)
Definition aws_check_instance (available_instances : list string)
    (item : string * raw_node_group) : result unit :=
  instance ← raw_instance item.2;
  if negb (str_in instance available_instances)
  then match item.2 with
       | RawMapping _ =>
           Raise (AttributeError "'dict' object has no attribute 'instance'")
       | RawModel i =>
           Raise (ValueError
                    [ Lit "Amazon Web Services instance "; Str i;
                      Lit " not one of available instance types=";
                      StrList available_instances ])
       end
  else Ok tt.

(** [AmazonWebServicesProvider._check_input]: the data it returns has the
    version and the zones it has settled on. *)
Definition aws_check_input (inventory : amazon_web_services.t) (data : aws_data.t)
    : result aws_data.t :=
  amazon_web_services.check_credentials inventory;;
  region ← getitem "region" (aws_data.region data);
  if negb (str_in region (amazon_web_services.regions inventory region))
  then Raise (ValueError
                [ Lit "Amazon Web Services region="; Str region;
                  Lit " is not one of ";
                  StrList (amazon_web_services.regions inventory region) ])
  else
    let available_kubernetes_versions :=
      amazon_web_services.kubernetes_versions inventory region in
    if (length available_kubernetes_versions =? 0)%nat
    then Raise (ValueError
                  [Lit "Request to AWS for available Kubernetes versions failed."])
    else
      kubernetes_version ← getitem "kubernetes_version"
                             (aws_data.kubernetes_version data);
      version ← aws_check_kubernetes_version available_kubernetes_versions
                  kubernetes_version;
      zones ← aws_check_availability_zones
                (amazon_web_services.zones inventory region)
                (aws_data.availability_zones data);
      match aws_data.node_groups data with
      | Some node_groups =>
          traverse (aws_check_instance
                      (amazon_web_services.instances inventory region))
            node_groups
      | None => Ok []
      end;;
      aws_check_kms_key (amazon_web_services.kms_key_arns inventory region)
        (aws_data.eks_kms_arn data);;
      Ok {| aws_data.region := aws_data.region data;
            aws_data.kubernetes_version := Some (Some version);
            aws_data.availability_zones := Some (Some zones);
            aws_data.node_groups := aws_data.node_groups data;
            aws_data.eks_kms_arn := aws_data.eks_kms_arn data |}.

(** ** State imports and backend objects *)

Section state_imports.

(** [construct_azure_resource_group_name] of [_nebari.utils], as for
    [input_vars]. *)
Variable construct_azure_resource_group_name :
  string → string → option string → option string → string.

(** [KubernetesInfrastructureStage.state_imports], given [os.environ]; a
    kind other than azure falls off the end of the function, which is
    [None]. *)
Definition state_imports (environ : gmap string string) (config : Main.t)
    : result (option (list (string * string))) :=
  match Main.provider config with
  | schema.azure =>
      block ← getattr "resource_group_name" (Main.azure config);
      match AzureProvider.resource_group_name block with
      | None => Ok (Some [])
      | Some _ =>
          subscription_id ← getitem "ARM_SUBSCRIPTION_ID"
                              (environ !! "ARM_SUBSCRIPTION_ID");
          let resource_group_name :=
            construct_azure_resource_group_name (Main.project_name config)
              (Main.namespace config) (AzureProvider.resource_group_name block)
              None in
          Ok (Some [ ("azurerm_resource_group.resource_group",
                      "/subscriptions/" +:+ subscription_id
                      +:+ "/resourceGroups/" +:+ resource_group_name) ])
      end
  | _ => Ok None
  end.

End state_imports.

(** What [tf_objects] is made of: a provider of the backend with its
    settings, and the state of the stage. *)
Inductive tf_object : Type :=
| Provider (name : string) (settings : list (string * string))
| NebariTerraformState (stage : string) (config : Main.t).

(** [KubernetesInfrastructureStage.name] *)
Definition stage_name : string := "02-infrastructure".

(** [KubernetesInfrastructureStage.tf_objects] *)
Definition tf_objects (config : Main.t) : result (list tf_object) :=
  match Main.provider config with
  | schema.gcp =>
      block ← getattr "project" (Main.google_cloud_platform config);
      Ok [ Provider "google"
             [ ("project", GoogleCloudPlatformProvider.project block);
               ("region", GoogleCloudPlatformProvider.region block) ];
           NebariTerraformState stage_name config ]
  | schema.azure => Ok [ NebariTerraformState stage_name config ]
  | schema.aws =>
      block ← getattr "region" (Main.amazon_web_services config);
      Ok [ Provider "aws" [ ("region", AmazonWebServicesProvider.region block) ];
           NebariTerraformState stage_name config ]
  | _ => Ok []
  end.

(** [KubernetesInfrastructureStage.stage_prefix], as the path's parts. *)
Definition stage_prefix (config : Main.t) : list string :=
  [ "stages"; stage_name; schema.ProviderEnum_value (Main.provider config) ].

(** ** Sample inputs *)

(** The least [hasattr] there can be: true of the five member names and of
    nothing else. *)
Definition ProviderEnum_hasattr_members (name : string) : bool :=
  bool_decide (is_Some (schema.ProviderEnum_member name)).

(** A [construct_azure_resource_group_name]: the base name when there is
    one, the project name and the namespace otherwise, then the suffix. *)
Definition sample_construct_azure_resource_group_name
    (project_name namespace : string) (base_resource_group_name suffix : option string)
    : string :=
  match base_resource_group_name with
  | Some base => base +:+ default "" suffix
  | None => project_name +:+ "-" +:+ namespace +:+ default "" suffix
  end.

(** A [str.isalnum]: ASCII and the letter e with an acute accent. *)
Definition sample_isalnum (c : N) : bool := ascii_isalnum c || (c =? 233)%N.

(** A key made for MAC generation, asked for by its own ARN. *)
Definition mac_key_inventory : list (string * KmsKeyInfo.t) :=
  [ ("1234abcd",
     {| KmsKeyInfo.Arn := "arn:aws:kms:us-west-2:111122223333:key/1234abcd";
        KmsKeyInfo.KeyManager := "CUSTOMER";
        KmsKeyInfo.KeySpec := "HMAC_256";
        KmsKeyInfo.KeyUsage := "GENERATE_VERIFY_MAC" |}) ].

(** An existing cluster with one selector of the user's own. *)
Definition sample_existing_config : Main.t :=
  {| Main.provider := schema.existing; Main.project_name := "demo";
     Main.escaped_project_name := "demo"; Main.namespace := "dev";
     Main.storage_type := nfs; Main.local := None;
     Main.existing :=
       Some {| ExistingProvider.kube_context := Some "kind";
               ExistingProvider.node_selectors :=
                 [ ("general",
                    {| KeyValueDict.key := "pool"; KeyValueDict.value := "main" |}) ] |};
     Main.google_cloud_platform := None; Main.amazon_web_services := None;
     Main.azure := None |}.

(** What validation makes of the document that names the kind existing
    and nothing else: the block is [ExistingProvider()]. *)
Definition existing_default_config : Main.t :=
  {| Main.provider := schema.existing; Main.project_name := "demo";
     Main.escaped_project_name := "demo"; Main.namespace := "dev";
     Main.storage_type := nfs; Main.local := None;
     Main.existing := Some ExistingProvider.default;
     Main.google_cloud_platform := None; Main.amazon_web_services := None;
     Main.azure := None |}.

(** What validation makes of the empty document: the kind is local and
    there is no block. *)
Definition empty_document_config : Main.t :=
  {| Main.provider := schema.local; Main.project_name := "demo";
     Main.escaped_project_name := "demo"; Main.namespace := "dev";
     Main.storage_type := nfs; Main.local := None; Main.existing := None;
     Main.google_cloud_platform := None; Main.amazon_web_services := None;
     Main.azure := None |}.

(** An AWS configuration with the default node groups, after validation. *)
Definition sample_aws_config : Main.t :=
  {| Main.provider := schema.aws; Main.project_name := "demo";
     Main.escaped_project_name := "demo"; Main.namespace := "dev";
     Main.storage_type := efs; Main.local := None; Main.existing := None;
     Main.google_cloud_platform := None;
     Main.amazon_web_services :=
       Some {| AmazonWebServicesProvider.region := "us-west-2";
               AmazonWebServicesProvider.kubernetes_version := "1.29";
               AmazonWebServicesProvider.availability_zones :=
                 Some ["us-west-2a"; "us-west-2b"];
               AmazonWebServicesProvider.node_groups :=
                 set_missing_taints_to_default_taints DEFAULT_AWS_NODE_GROUPS;
               AmazonWebServicesProvider.eks_endpoint_access := Some public;
               AmazonWebServicesProvider.eks_public_access_cidrs := Some ["0.0.0.0/0"];
               AmazonWebServicesProvider.eks_kms_arn := None;
               AmazonWebServicesProvider.existing_subnet_ids := None;
               AmazonWebServicesProvider.existing_security_group_id := None;
               AmazonWebServicesProvider.vpc_cidr_block := "10.10.0.0/16";
               AmazonWebServicesProvider.permissions_boundary := None;
               AmazonWebServicesProvider.tags := Some [] |};
     Main.azure := None |}.

(** An AWS configuration whose node groups have not been through the
    defaulting of taints. *)
Definition aws_unset_taints_config : Main.t :=
  {| Main.provider := schema.aws; Main.project_name := "demo";
     Main.escaped_project_name := "demo"; Main.namespace := "dev";
     Main.storage_type := efs; Main.local := None; Main.existing := None;
     Main.google_cloud_platform := None;
     Main.amazon_web_services :=
       Some {| AmazonWebServicesProvider.region := "us-west-2";
               AmazonWebServicesProvider.kubernetes_version := "1.29";
               AmazonWebServicesProvider.availability_zones :=
                 Some ["us-west-2a"; "us-west-2b"];
               AmazonWebServicesProvider.node_groups :=
                 [ ("general", new_aws_node_group "m5.2xlarge" 1 1) ];
               AmazonWebServicesProvider.eks_endpoint_access := Some public;
               AmazonWebServicesProvider.eks_public_access_cidrs := Some ["0.0.0.0/0"];
               AmazonWebServicesProvider.eks_kms_arn := None;
               AmazonWebServicesProvider.existing_subnet_ids := None;
               AmazonWebServicesProvider.existing_security_group_id := None;
               AmazonWebServicesProvider.vpc_cidr_block := "10.10.0.0/16";
               AmazonWebServicesProvider.permissions_boundary := None;
               AmazonWebServicesProvider.tags := Some [] |};
     Main.azure := None |}.

(** A document that names aws, has its block, and an empty local block. *)
Definition aws_with_empty_local : gmap string pyval :=
  <["local" := VDict []]>
    (<["amazon_web_services" := VDict [("region", VStr "us-west-2")]]>
       {[ "provider" := VStr "aws" ]}).

(** * Properties *)

(** ** Helper lemmas *)

(** Case analysis on the first computation of a sequence. *)
Ltac bind_cases :=
  repeat match goal with
         | |- context [mbind _ ?c] => destruct c eqn:?; simpl
         end.

Lemma str_in_spec (x : string) (l : list string) : str_in x l = true ↔ x ∈ l.
Proof.
  unfold str_in. rewrite existsb_exists, list_elem_of_In. split.
  - intros (y & Hy & Heq). apply String.eqb_eq in Heq. by subst.
  - intros Hx. exists x. split; [done | apply String.eqb_refl].
Qed.

Lemma str_in_false (x : string) (l : list string) : str_in x l = false ↔ x ∉ l.
Proof.
  rewrite <- str_in_spec. destruct (str_in x l); split; congruence.
Qed.

Lemma append_cancel_l (s a b : string) : s +:+ a = s +:+ b → a = b.
Proof.
  induction s as [| c s IH]; simpl; [done |].
  intros Heq. injection Heq as Heq. by apply IH.
Qed.

Lemma dict_get_of_key {A} (k : string) (d : list (string * A)) :
  k ∈ dict_keys d → is_Some (dict_get k d).
Proof.
  unfold dict_keys. induction d as [| [k' v] d IH]; simpl.
  - intros Hk. by apply elem_of_nil in Hk.
  - intros Hk. destruct (String.eqb_spec k k') as [-> | Hne]; [by eexists |].
    apply elem_of_cons in Hk as [-> | Hk]; [done | by apply IH].
Qed.

Lemma traverse_Forall2 {A B} (f : A → result B) (P : A → B → Prop) (l : list A) :
  (∀ x, x ∈ l → ∃ y, f x = Ok y ∧ P x y) →
  ∃ ys, traverse f l = Ok ys ∧ Forall2 P l ys.
Proof.
  induction l as [| x l IH]; intros Hall; simpl.
  - exists []. split; [done | constructor].
  - destruct (Hall x) as (y & Hy & HP); [apply elem_of_cons; by left |].
    destruct IH as (ys & Hys & HF).
    { intros z Hz. apply Hall, elem_of_cons. by right. }
    exists (y :: ys). rewrite Hy. simpl. rewrite Hys. simpl.
    split; [done | by constructor].
Qed.

Lemma traverse_Ok_Forall {A B} (f : A → result B) (Q : B → Prop) (l : list A) (ys : list B) :
  (∀ x y, f x = Ok y → Q y) → traverse f l = Ok ys → Forall Q ys.
Proof.
  intros Hf. revert ys. induction l as [| x l IH]; simpl; intros ys Heq.
  - injection Heq as <-. constructor.
  - destruct (f x) as [y |] eqn:Hy; simpl in Heq; [| done].
    destruct (traverse f l) as [ys' |] eqn:Hys; simpl in Heq; [| done].
    injection Heq as <-. constructor; [by eapply Hf | by apply IH].
Qed.

(** After defaulting, every group has its taints set. *)
Lemma default_taints_of_is_Some `{NodeGroupLike A} (name : string) (ng : A) :
  is_Some (NodeGroup.taints (node_group (default_taints_of name ng))).
Proof.
  unfold default_taints_of.
  destruct (NodeGroup.taints (node_group ng)) as [x |] eqn:Hx.
  - rewrite Hx. by eexists.
  - destruct (String.eqb name "general");
      rewrite node_group_assign_taints; simpl; by eexists.
Qed.

Lemma elem_of_set_missing_taints `{NodeGroupLike A} (item : string * A)
    (node_groups : list (string * A)) :
  item ∈ set_missing_taints_to_default_taints node_groups →
  is_Some (NodeGroup.taints (node_group item.2)).
Proof.
  unfold set_missing_taints_to_default_taints. intros Hin.
  apply list_elem_of_fmap in Hin as ([k ng] & -> & _). simpl.
  apply default_taints_of_is_Some.
Qed.

(** ** C4: AMI type *)

(** C4. [construct_aws_ami_type] returns "CUSTOM" whenever a launch template
    is given and carries a non-empty [ami_id], whatever the GPU flag;
    otherwise it returns "AL2_x86_64_GPU" when the GPU flag is set and
    "AL2_x86_64" when it is not. *)
Theorem construct_aws_ami_type_precedence :
  ∀ (gpu_enabled : bool) (launch_template : option AWSNodeLaunchTemplate.t),
    let carries_ami :=
      ∃ x ami, launch_template = Some x
               ∧ AWSNodeLaunchTemplate.ami_id x = Some ami ∧ ami ≠ "" in
    (carries_ami → construct_aws_ami_type gpu_enabled launch_template = "CUSTOM")
    ∧ (¬ carries_ami →
       construct_aws_ami_type gpu_enabled launch_template
       = if gpu_enabled then "AL2_x86_64_GPU" else "AL2_x86_64").
Proof.
  intros gpu_enabled launch_template carries_ami. subst carries_ami.
  unfold construct_aws_ami_type, truthy_opt_str. split.
  - intros (x & ami & -> & -> & Hne).
    destruct (String.eqb_spec ami ""); [done | reflexivity].
  - intros Hnot. destruct launch_template as [x |]; [| done].
    destruct (AWSNodeLaunchTemplate.ami_id x) as [ami |] eqn:Hami; [| done].
    destruct (String.eqb_spec ami "") as [-> | Hne]; [done |].
    exfalso. apply Hnot. by exists x, ami.
Qed.

Lemma construct_aws_ami_type_precedence_witness :
  construct_aws_ami_type true
    (Some {| AWSNodeLaunchTemplate.pre_bootstrap_command := None;
             AWSNodeLaunchTemplate.ami_id := Some "ami-1" |}) = "CUSTOM"
  ∧ construct_aws_ami_type true None = "AL2_x86_64_GPU".
Proof.
  split.
  - apply (proj1 (construct_aws_ami_type_precedence true _)).
    eexists _, "ami-1". repeat split. discriminate.
  - apply (proj2 (construct_aws_ami_type_precedence true None)).
    intros (x & ami & Hx & _). discriminate.
Defined.

(** ** C5: default taints *)

(** C5. [set_missing_taints_to_default_taints] keeps the names and their
    order; a group whose taints are unset comes back with the empty list of
    taints when its name is "general" and with the single taint
    dedicated=nebari:NoSchedule otherwise, its instance and its bounds
    unchanged; a group whose taints are set, be it to the empty list, is
    returned as it was. *)
Theorem set_missing_taints_to_default_taints_spec :
  ∀ (A : Type) (H : NodeGroupLike A) (node_groups : list (string * A)),
    Forall2
      (fun before after =>
         after.1 = before.1
         ∧ (NodeGroup.taints (node_group before.2) = None →
            NodeGroup.taints (node_group after.2)
            = Some (if decide (before.1 = "general") then []
                    else [ {| Taint.key := "dedicated"; Taint.value := "nebari";
                              Taint.effect := schema.NoSchedule |} ])
            ∧ NodeGroup.instance (node_group after.2)
              = NodeGroup.instance (node_group before.2)
            ∧ NodeGroup.min_nodes (node_group after.2)
              = NodeGroup.min_nodes (node_group before.2)
            ∧ NodeGroup.max_nodes (node_group after.2)
              = NodeGroup.max_nodes (node_group before.2))
         ∧ (∀ x, NodeGroup.taints (node_group before.2) = Some x →
            after.2 = before.2))
      node_groups (set_missing_taints_to_default_taints node_groups).
Proof.
  intros A H node_groups. unfold set_missing_taints_to_default_taints.
  induction node_groups as [| [name ng] l IH]; simpl; constructor; [| exact IH].
  simpl. unfold default_taints_of. split; [done |]. split.
  - intros ->. destruct (String.eqb_spec name "general") as [-> | Hne].
    + rewrite node_group_assign_taints. by rewrite decide_True.
    + rewrite node_group_assign_taints. by rewrite decide_False.
  - intros x ->. done.
Qed.

Lemma set_missing_taints_to_default_taints_spec_witness :
  Forall2
    (fun before after =>
       after.1 = before.1
       ∧ (NodeGroup.taints (AWSNodeGroup.base before.2) = None →
          NodeGroup.taints (AWSNodeGroup.base after.2)
          = Some (if decide (before.1 = "general") then []
                  else [ {| Taint.key := "dedicated"; Taint.value := "nebari";
                            Taint.effect := schema.NoSchedule |} ])
          ∧ NodeGroup.instance (AWSNodeGroup.base after.2)
            = NodeGroup.instance (AWSNodeGroup.base before.2)
          ∧ NodeGroup.min_nodes (AWSNodeGroup.base after.2)
            = NodeGroup.min_nodes (AWSNodeGroup.base before.2)
          ∧ NodeGroup.max_nodes (AWSNodeGroup.base after.2)
            = NodeGroup.max_nodes (AWSNodeGroup.base before.2))
       ∧ (∀ x, NodeGroup.taints (AWSNodeGroup.base before.2) = Some x →
          after.2 = before.2))
    [ ("general", new_aws_node_group "m5.2xlarge" 1 1);
      ("user",
       {| AWSNodeGroup.base :=
            {| NodeGroup.instance := "m5.xlarge"; NodeGroup.min_nodes := 0;
               NodeGroup.max_nodes := 5; NodeGroup.taints := Some [] |};
          AWSNodeGroup.gpu := false; AWSNodeGroup.single_subnet := false;
          AWSNodeGroup.permissions_boundary := None; AWSNodeGroup.spot := false |});
      ("worker", new_aws_node_group "m5.xlarge" 0 5) ]
    [ ("general",
       {| AWSNodeGroup.base :=
            {| NodeGroup.instance := "m5.2xlarge"; NodeGroup.min_nodes := 1;
               NodeGroup.max_nodes := 1; NodeGroup.taints := Some [] |};
          AWSNodeGroup.gpu := false; AWSNodeGroup.single_subnet := false;
          AWSNodeGroup.permissions_boundary := None; AWSNodeGroup.spot := false |});
      ("user",
       {| AWSNodeGroup.base :=
            {| NodeGroup.instance := "m5.xlarge"; NodeGroup.min_nodes := 0;
               NodeGroup.max_nodes := 5; NodeGroup.taints := Some [] |};
          AWSNodeGroup.gpu := false; AWSNodeGroup.single_subnet := false;
          AWSNodeGroup.permissions_boundary := None; AWSNodeGroup.spot := false |});
      ("worker",
       {| AWSNodeGroup.base :=
            {| NodeGroup.instance := "m5.xlarge"; NodeGroup.min_nodes := 0;
               NodeGroup.max_nodes := 5;
               NodeGroup.taints :=
                 Some [ {| Taint.key := "dedicated"; Taint.value := "nebari";
                           Taint.effect := schema.NoSchedule |} ] |};
          AWSNodeGroup.gpu := false; AWSNodeGroup.single_subnet := false;
          AWSNodeGroup.permissions_boundary := None; AWSNodeGroup.spot := false |}) ].
Proof.
  exact (set_missing_taints_to_default_taints_spec AWSNodeGroup.t _
    [ ("general", new_aws_node_group "m5.2xlarge" 1 1);
      ("user",
       {| AWSNodeGroup.base :=
            {| NodeGroup.instance := "m5.xlarge"; NodeGroup.min_nodes := 0;
               NodeGroup.max_nodes := 5; NodeGroup.taints := Some [] |};
          AWSNodeGroup.gpu := false; AWSNodeGroup.single_subnet := false;
          AWSNodeGroup.permissions_boundary := None; AWSNodeGroup.spot := false |});
      ("worker", new_aws_node_group "m5.xlarge" 0 5) ]).
Defined.

(** ** C3: AWS KMS key *)

Lemma kms_messages_distinct (key_id : string) :
  ∃ mac usage spec,
    render [ Lit "Amazon Web Services KMS Key with ID "; Str key_id;
             Lit " does not have KeyUsage set to 'Encrypt and decrypt' data" ] = Some mac
    ∧ render [ Lit "Amazon Web Services KMS Key with ID "; Str key_id;
               Lit " is not of type Symmetric, and KeyUsage not set to 'Encrypt and decrypt' data" ]
      = Some usage
    ∧ render [ Lit "Amazon Web Services KMS Key with ID "; Str key_id;
               Lit " is not of type Symmetric" ] = Some spec
    ∧ mac ≠ usage ∧ mac ≠ spec ∧ usage ≠ spec.
Proof.
  eexists _, _, _. repeat split; try reflexivity.
  all: intros Heq; apply append_cancel_l, append_cancel_l in Heq; discriminate.
Qed.

(** C3. The KMS step runs only when an ARN is supplied.  It fails with the
    not-available error when the key ids contained in the ARN are none or
    several, or when the one key's Arn is not the ARN asked for; with the
    not-customer-managed error when the key is not managed by the customer;
    and, when the key's KeySpec is not SYMMETRIC_DEFAULT, with one of three
    errors of pairwise different text: the MAC one when KeyUsage is
    GENERATE_VERIFY_MAC, the wrong-usage one when KeyUsage is neither that
    nor ENCRYPT_DECRYPT, and the not-symmetric one otherwise. *)
Theorem aws_check_kms_key_spec :
  ∀ (available_kms_keys : list (string * KmsKeyInfo.t)) (arn : string),
    let r := aws_check_kms_key available_kms_keys (Some (Some arn)) in
    aws_check_kms_key available_kms_keys None = Ok tt
    ∧ aws_check_kms_key available_kms_keys (Some None) = Ok tt
    ∧ (length (kms_candidates available_kms_keys arn) ≠ 1%nat →
       r = Raise (kms_not_available arn available_kms_keys))
    ∧ (∀ key_id, kms_candidates available_kms_keys arn = [key_id] →
       ∃ key, dict_get key_id available_kms_keys = Some key
         ∧ (KmsKeyInfo.Arn key ≠ arn →
            r = Raise (kms_not_available arn available_kms_keys))
         ∧ (KmsKeyInfo.Arn key = arn → KmsKeyInfo.KeyManager key ≠ "CUSTOMER" →
            r = Raise (kms_not_customer_managed key_id))
         ∧ (KmsKeyInfo.Arn key = arn → KmsKeyInfo.KeyManager key = "CUSTOMER" →
            KmsKeyInfo.KeySpec key ≠ "SYMMETRIC_DEFAULT" →
            (KmsKeyInfo.KeyUsage key = "GENERATE_VERIFY_MAC" →
             r = Raise (kms_mac_usage key_id))
            ∧ (KmsKeyInfo.KeyUsage key ≠ "GENERATE_VERIFY_MAC" →
               KmsKeyInfo.KeyUsage key ≠ "ENCRYPT_DECRYPT" →
               r = Raise (kms_wrong_usage key_id))
            ∧ (KmsKeyInfo.KeyUsage key = "ENCRYPT_DECRYPT" →
               r = Raise (kms_not_symmetric key_id)))
         ∧ (KmsKeyInfo.Arn key = arn → KmsKeyInfo.KeyManager key = "CUSTOMER" →
            KmsKeyInfo.KeySpec key = "SYMMETRIC_DEFAULT" → r = Ok tt))
    ∧ (∀ key_id, ∃ mac usage spec,
         kms_mac_usage key_id = ValueError mac
         ∧ kms_wrong_usage key_id = ValueError usage
         ∧ kms_not_symmetric key_id = ValueError spec
         ∧ ∃ mac_text usage_text spec_text,
             render mac = Some mac_text ∧ render usage = Some usage_text
             ∧ render spec = Some spec_text
             ∧ mac_text ≠ usage_text ∧ mac_text ≠ spec_text
             ∧ usage_text ≠ spec_text).
Proof.
  intros available_kms_keys arn r. subst r.
  split; [done |]. split; [done |]. split; [| split].
  - intros Hlen. unfold aws_check_kms_key.
    destruct (kms_candidates available_kms_keys arn) as [| k [| k' l]]; done.
  - intros key_id Hcand.
    destruct (dict_get_of_key key_id available_kms_keys) as [key Hkey].
    { assert (Hin : key_id ∈ kms_candidates available_kms_keys arn)
        by (rewrite Hcand; apply list_elem_of_here).
      unfold kms_candidates in Hin. apply list_elem_of_In in Hin.
      apply filter_In in Hin as [Hin _]. by apply list_elem_of_In. }
    exists key. split; [done |].
    unfold aws_check_kms_key. rewrite Hcand, Hkey. simpl.
    repeat split.
    + intros Hne. by destruct (String.eqb_spec (KmsKeyInfo.Arn key) arn).
    + intros Harn Hne.
      destruct (String.eqb_spec (KmsKeyInfo.Arn key) arn); [| done].
      by destruct (String.eqb_spec (KmsKeyInfo.KeyManager key) "CUSTOMER").
    + intros Hmac.
      destruct (String.eqb_spec (KmsKeyInfo.Arn key) arn); [| done].
      destruct (String.eqb_spec (KmsKeyInfo.KeyManager key) "CUSTOMER"); [| done].
      destruct (String.eqb_spec (KmsKeyInfo.KeySpec key) "SYMMETRIC_DEFAULT"); [done |].
      by rewrite Hmac.
    + intros Hmac Henc.
      destruct (String.eqb_spec (KmsKeyInfo.Arn key) arn); [| done].
      destruct (String.eqb_spec (KmsKeyInfo.KeyManager key) "CUSTOMER"); [| done].
      destruct (String.eqb_spec (KmsKeyInfo.KeySpec key) "SYMMETRIC_DEFAULT"); [done |].
      destruct (String.eqb_spec (KmsKeyInfo.KeyUsage key) "GENERATE_VERIFY_MAC"); [done |].
      by destruct (String.eqb_spec (KmsKeyInfo.KeyUsage key) "ENCRYPT_DECRYPT").
    + intros Henc.
      destruct (String.eqb_spec (KmsKeyInfo.Arn key) arn); [| done].
      destruct (String.eqb_spec (KmsKeyInfo.KeyManager key) "CUSTOMER"); [| done].
      destruct (String.eqb_spec (KmsKeyInfo.KeySpec key) "SYMMETRIC_DEFAULT"); [done |].
      by rewrite Henc.
    + intros Harn Hman Hspec.
      destruct (String.eqb_spec (KmsKeyInfo.Arn key) arn); [| done].
      destruct (String.eqb_spec (KmsKeyInfo.KeyManager key) "CUSTOMER"); [| done].
      by destruct (String.eqb_spec (KmsKeyInfo.KeySpec key) "SYMMETRIC_DEFAULT").
  - intros key_id. eexists _, _, _. repeat split.
    destruct (kms_messages_distinct key_id) as (m & u & s & Hm & Hu & Hs & H1 & H2 & H3).
    by exists m, u, s.
Qed.

Lemma aws_check_kms_key_spec_witness :
  aws_check_kms_key mac_key_inventory
    (Some (Some "arn:aws:kms:us-west-2:111122223333:key/1234abcd"))
  = Raise (kms_mac_usage "1234abcd").
Proof.
  destruct (proj1 (proj2 (proj2 (proj2 (aws_check_kms_key_spec mac_key_inventory
              "arn:aws:kms:us-west-2:111122223333:key/1234abcd")))) "1234abcd"
              eq_refl) as (key & Hkey & _ & _ & Hspec & _).
  injection Hkey as <-.
  apply Hspec; [reflexivity | reflexivity | discriminate | reflexivity].
Defined.

(** ** C8: Azure resource group name *)

Lemma in_class_spec (isalnum : N → bool) (c : N) :
  in_class isalnum c = true
  ↔ isalnum c = true ∨ c ∈ [95; 45; 46; 40; 41]%N.
Proof.
  unfold in_class, is_word. rewrite !orb_true_iff, !N.eqb_eq. split.
  - intros [[[[[? | ->] | ->] | ->] | ->] | ->]; [by left | right ..];
      by repeat constructor.
  - intros [? | Hin]; [tauto |].
    repeat (apply elem_of_cons in Hin as [-> | Hin]; [tauto |]).
    by apply elem_of_nil in Hin.
Qed.

(** What the rest of a match is: characters of the class, then nothing or
    one final newline. *)
Lemma class_run_spec (isalnum : N → bool) (l : list N) :
  class_run isalnum l = true ↔
  ∃ w, (l = w ∨ l = (w ++ [10%N])%list)
       ∧ Forall (fun c => in_class isalnum c = true) w.
Proof.
  induction l as [| c l IH]; simpl.
  - split; [| done]. intros _. exists []. split; [by left | constructor].
  - destruct (in_class isalnum c) eqn:Hc.
    + rewrite IH. split.
      * intros (w & Hw & Hall). exists (c :: w). split.
        -- destruct Hw as [-> | ->]; [by left | by right].
        -- by constructor.
      * intros (w & Hw & Hall). destruct w as [| c' w].
        -- destruct Hw as [Hw | Hw]; [done |]. simpl in Hw.
           injection Hw as -> ->. exists []. split; [by left | constructor].
        -- inversion Hall; subst. exists w. split; [| done].
           destruct Hw as [Hw | Hw]; injection Hw as -> ->; [by left | by right].
    + split.
      * intros Hnl. apply andb_true_iff in Hnl as [Hnl Hl].
        apply N.eqb_eq in Hnl as ->. destruct l; [| done].
        exists []. split; [by right | constructor].
      * intros (w & Hw & Hall). destruct w as [| c' w].
        -- destruct Hw as [Hw | Hw]; [done |]. simpl in Hw. by injection Hw as -> ->.
        -- inversion Hall; subst.
           destruct Hw as [Hw | Hw]; injection Hw as -> ->; congruence.
Qed.

(** What [re.match] accepts: one or more characters that are alphanumeric
    or one of underscore, hyphen, period and the two parentheses, then
    nothing or one final newline. *)
Lemma re_match_resource_group_name_spec (isalnum : N → bool) (value : string) :
  re_match_resource_group_name isalnum value = true
  ↔ ∃ w, w ≠ []
         ∧ (code_points value = w ∨ code_points value = (w ++ [10%N])%list)
         ∧ Forall (fun c => isalnum c = true ∨ c ∈ [95; 45; 46; 40; 41]%N) w.
Proof.
  unfold re_match_resource_group_name.
  destruct (code_points value) as [| c l].
  - split; [done |]. intros (w & Hne & [Hw | Hw] & _); [congruence |].
    by destruct w.
  - rewrite andb_true_iff, class_run_spec. split.
    + intros (Hc & w & Hw & Hall). exists (c :: w). split; [done |]. split.
      * destruct Hw as [-> | ->]; [by left | by right].
      * constructor; [by apply in_class_spec |].
        eapply Forall_impl; [exact Hall |]. intros x. by apply in_class_spec.
    + intros (w & Hne & Hw & Hall). destruct w as [| c' w]; [done |].
      inversion Hall as [| ? ? Hc' Hall']; subst.
      assert (c' = c ∧ (l = w ∨ l = (w ++ [10%N])%list)) as [-> Hl].
      { destruct Hw as [Hw | Hw]; injection Hw as -> ->; (split; [done |]);
          [by left | by right]. }
      split; [by apply in_class_spec |]. exists w. split; [done |].
      eapply Forall_impl; [exact Hall' |]. intros x. by apply in_class_spec.
Qed.

Lemma validate_resource_group_name_Ok (isalnum : N → bool) (suffix name : string) :
  _validate_resource_group_name isalnum suffix (Some name) = Ok (Some name)
  ↔ (1 ≤ py_len name + py_len suffix ≤ 90)%nat
    ∧ re_match_resource_group_name isalnum name = true
    ∧ last (code_points name) ≠ Some 46%N.
Proof.
  unfold _validate_resource_group_name.
  destruct (Z.ltb_spec (Z.of_nat (py_len name) + Z.of_nat (py_len suffix)) 1)
    as [Hlt | Hge]; simpl; [split; [done | lia] |].
  rewrite Z.gtb_ltb.
  destruct (Z.ltb_spec 90 (Z.of_nat (py_len name) + Z.of_nat (py_len suffix)))
    as [Hgt | Hle]; simpl; [split; [done | lia] |].
  destruct (re_match_resource_group_name isalnum name) eqn:Hre; simpl;
    [| split; [done | by intros (_ & ? & _)]].
  destruct (last (code_points name)) as [c |] eqn:Hlast.
  - destruct (N.eqb_spec c 46) as [-> | Hne].
    + split; [done | by intros (_ & _ & ?)].
    + split; [| done]. intros _. split_and!; try lia; try done; congruence.
  - exfalso. unfold re_match_resource_group_name in Hre.
    destruct (code_points name); [done |]. by apply last_None in Hlast.
Qed.

(** C8. A supplied name is accepted, and returned as it is, exactly when
    the number of its characters plus that of the suffix is between 1 and
    90, it matches [^[\w\-\.\(\)]+$] (one or more characters that are
    alphanumeric or one of underscore, hyphen, period and the two
    parentheses, then the end of the name or one newline that ends it), and
    its last character is not a period.  With a suffix of 1 to 79
    characters: ninety letters a fail the length check, any name ending in
    a period fails, any name containing an exclamation mark fails, and
    my-rg_1.0() passes. *)
Theorem validate_resource_group_name_spec :
  ∀ (isalnum : N → bool) (suffix : string),
    (∀ c, (c < 128)%N → isalnum c = ascii_isalnum c) →
    (1 ≤ py_len suffix ≤ 79)%nat →
    (∀ name,
       _validate_resource_group_name isalnum suffix (Some name) = Ok (Some name)
       ↔ (1 ≤ py_len name + py_len suffix ≤ 90)%nat
         ∧ (∃ w, w ≠ []
                 ∧ (code_points name = w ∨ code_points name = (w ++ [10%N])%list)
                 ∧ Forall (fun c => isalnum c = true
                                    ∨ c ∈ [95; 45; 46; 40; 41]%N) w)
         ∧ last (code_points name) ≠ Some 46%N)
    ∧ (∀ name,
         is_ok (_validate_resource_group_name isalnum suffix (Some name)) = true →
         _validate_resource_group_name isalnum suffix (Some name) = Ok (Some name))
    ∧ _validate_resource_group_name isalnum suffix
        (Some (string_of_list_ascii (repeat "a"%char 90)))
      = Raise (resource_group_length_error suffix)
    ∧ (∀ name, last (code_points name) = Some 46%N →
       is_ok (_validate_resource_group_name isalnum suffix (Some name)) = false)
    ∧ (∀ name, 33%N ∈ code_points name →
       is_ok (_validate_resource_group_name isalnum suffix (Some name)) = false)
    ∧ _validate_resource_group_name isalnum suffix (Some "my-rg_1.0()")
      = Ok (Some "my-rg_1.0()").
Proof.
  intros isalnum suffix Hascii Hsuffix.
  assert (Hchar : ∀ name,
    _validate_resource_group_name isalnum suffix (Some name) = Ok (Some name)
    ↔ (1 ≤ py_len name + py_len suffix ≤ 90)%nat
      ∧ (∃ w, w ≠ []
              ∧ (code_points name = w ∨ code_points name = (w ++ [10%N])%list)
              ∧ Forall (fun c => isalnum c = true
                                 ∨ c ∈ [95; 45; 46; 40; 41]%N) w)
      ∧ last (code_points name) ≠ Some 46%N).
  { intros name. rewrite validate_resource_group_name_Ok.
    by rewrite re_match_resource_group_name_spec. }
  assert (Hok : ∀ name,
    is_ok (_validate_resource_group_name isalnum suffix (Some name)) = true →
    _validate_resource_group_name isalnum suffix (Some name) = Ok (Some name)).
  { intros name. unfold _validate_resource_group_name.
    repeat (case_match; simpl; try done). }
  split; [exact Hchar |]. split; [exact Hok |]. split; [| split; [| split]].
  - unfold _validate_resource_group_name.
    replace (py_len (string_of_list_ascii (repeat "a"%char 90))) with 90%nat
      by (vm_compute; reflexivity).
    destruct (Z.ltb_spec (Z.of_nat 90 + Z.of_nat (py_len suffix)) 1);
      simpl; [done |].
    rewrite Z.gtb_ltb.
    destruct (Z.ltb_spec 90 (Z.of_nat 90 + Z.of_nat (py_len suffix)));
      simpl; [done | lia].
  - intros name Hlast.
    destruct (is_ok (_validate_resource_group_name isalnum suffix (Some name)))
      eqn:Hres; [| done].
    apply Hok, Hchar in Hres as (_ & _ & Hne). done.
  - intros name Hbang.
    destruct (is_ok (_validate_resource_group_name isalnum suffix (Some name)))
      eqn:Hres; [| done].
    apply Hok, Hchar in Hres as (_ & (w & _ & Hw & Hall) & _).
    assert (Hin : 33%N ∈ w).
    { destruct Hw as [Hw | Hw]; rewrite Hw in Hbang; [done |].
      apply elem_of_app in Hbang as [? | Hnl]; [done |].
      by apply list_elem_of_singleton in Hnl. }
    apply (proj1 (Forall_forall _ _) Hall) in Hin as [Halnum | Hin].
    + rewrite Hascii in Halnum by done. done.
    + repeat (apply elem_of_cons in Hin as [? | Hin]; [done |]).
      by apply elem_of_nil in Hin.
  - apply Hchar. split; [| split].
    + replace (py_len "my-rg_1.0()") with 11%nat by (vm_compute; reflexivity). lia.
    + exists (code_points "my-rg_1.0()"). split; [done |]. split; [by left |].
      vm_compute code_points.
      repeat (constructor;
              [first [ by (right; repeat constructor)
                     | left; rewrite Hascii by done; reflexivity ] |]).
      constructor.
    + by vm_compute.
Qed.

Lemma validate_resource_group_name_spec_witness :
  _validate_resource_group_name sample_isalnum "-node-resource-group" (Some "café")
  = Ok (Some "café").
Proof.
  refine (proj2 (proj1 (validate_resource_group_name_spec sample_isalnum
                          "-node-resource-group" _ _) "café") _).
  - intros c Hc. unfold sample_isalnum.
    destruct (N.eqb_spec c 233); [lia | by rewrite orb_false_r].
  - vm_compute. lia.
  - split; [| split].
    + vm_compute. lia.
    + exists [99; 97; 102; 233]%N. split; [done |]. split; [by left |].
      repeat (constructor; [by left |]). constructor.
    + by vm_compute.
Defined.

(** ** C9: node selectors *)




(** ** C10: AWS node groups are never CUSTOM *)

Lemma aws_node_group_input_vars_Ok (item : string * AWSNodeGroup.t) :
  is_Some (NodeGroup.taints (AWSNodeGroup.base item.2)) →
  ∃ v, aws_node_group_input_vars item = Ok v
       ∧ AWSNodeGroupInputVars.name v = item.1
       ∧ AWSNodeGroupInputVars.gpu v = AWSNodeGroup.gpu item.2.
Proof.
  destruct item as [name ng]. intros [x Hx]. unfold aws_node_group_input_vars.
  simpl in *. rewrite Hx. destruct (AWSNodeGroup.gpu ng); simpl; by eexists.
Qed.

Lemma aws_node_group_input_vars_ami (item : string * AWSNodeGroup.t)
    (v : AWSNodeGroupInputVars.t) :
  aws_node_group_input_vars item = Ok v →
  AWSNodeGroupInputVars.launch_template v = None
  ∧ AWSNodeGroupInputVars.ami_type v
    = Some (if AWSNodeGroupInputVars.gpu v then AL2_x86_64_GPU else AL2_x86_64)
  ∧ AWSNodeGroupInputVars.ami_type v ≠ Some CUSTOM.
Proof.
  destruct item as [name ng]. unfold aws_node_group_input_vars.
  destruct (NodeGroup.taints (AWSNodeGroup.base ng)) as [x |];
    destruct (AWSNodeGroup.gpu ng) eqn:Hgpu; simpl; intros Heq; try done;
    injection Heq as <-; simpl; done.
Qed.

(** C10. The node groups of a validated AWS block compile, one variable
    record per pool in the order of the pools; each record has no launch
    template and the AMI type AL2_x86_64_GPU when the pool's gpu flag is set
    and AL2_x86_64 otherwise, never CUSTOM; whatever [input_vars] returns
    for AWS has such node groups; and a raw node group that has a
    [launch_template] key is rejected with a [ValueError]. *)
Theorem aws_node_groups_never_custom :
  (∀ (pools : list (string * AWSNodeGroup.t)),
     ∃ compiled,
       traverse aws_node_group_input_vars
         (set_missing_taints_to_default_taints pools) = Ok compiled
       ∧ Forall2
           (fun pool v =>
              AWSNodeGroupInputVars.name v = pool.1
              ∧ AWSNodeGroupInputVars.launch_template v = None
              ∧ AWSNodeGroupInputVars.ami_type v
                = Some (if AWSNodeGroup.gpu pool.2 then AL2_x86_64_GPU
                        else AL2_x86_64)
              ∧ AWSNodeGroupInputVars.ami_type v ≠ Some CUSTOM)
           (set_missing_taints_to_default_taints pools) compiled
       ∧ Forall2 (fun before after =>
                    after.1 = before.1
                    ∧ AWSNodeGroup.gpu after.2 = AWSNodeGroup.gpu before.2)
           pools (set_missing_taints_to_default_taints pools))
  ∧ (∀ kubeconfig_filename construct_azure_resource_group_name suffix config v,
       input_vars kubeconfig_filename construct_azure_resource_group_name suffix
         config = Ok (AWSVars v) →
       Forall
         (fun ng =>
            AWSNodeGroupInputVars.launch_template ng = None
            ∧ AWSNodeGroupInputVars.ami_type ng
              = Some (if AWSNodeGroupInputVars.gpu ng then AL2_x86_64_GPU
                      else AL2_x86_64)
            ∧ AWSNodeGroupInputVars.ami_type ng ≠ Some CUSTOM)
         (AWSInputVars.node_groups v))
  ∧ (∀ (values : gmap string pyval),
       is_Some (values !! "launch_template") →
       ∃ msg, check_launch_template values = Raise (ValueError msg)).
Proof.
  split; [| split].
  - intros pools.
    destruct (traverse_Forall2 aws_node_group_input_vars
                (fun pool v =>
                   AWSNodeGroupInputVars.name v = pool.1
                   ∧ AWSNodeGroupInputVars.launch_template v = None
                   ∧ AWSNodeGroupInputVars.ami_type v
                     = Some (if AWSNodeGroup.gpu pool.2 then AL2_x86_64_GPU
                             else AL2_x86_64)
                   ∧ AWSNodeGroupInputVars.ami_type v ≠ Some CUSTOM)
                (set_missing_taints_to_default_taints pools))
      as (compiled & Hc & HF).
    { intros item Hin. apply elem_of_set_missing_taints in Hin.
      destruct (aws_node_group_input_vars_Ok item Hin) as (v & Hv & Hname & Hgpu).
      exists v. split; [done |]. split; [done |].
      destruct (aws_node_group_input_vars_ami item v Hv) as (Hlt & Hami & Hcustom).
      rewrite <- Hgpu. done. }
    exists compiled. split; [done |]. split; [done |].
    clear. unfold set_missing_taints_to_default_taints.
    induction pools as [| [name ng] l IH]; simpl; constructor; [| exact IH].
    simpl. split; [done |]. unfold default_taints_of.
    destruct (NodeGroup.taints (node_group ng)); [done |].
    by destruct (String.eqb name "general").
  - intros kf car suffix config v. unfold input_vars.
    destruct (Main.provider config); try (bind_cases; done).
    destruct (Main.amazon_web_services config) as [block |]; simpl; [| done].
    destruct (traverse aws_node_group_input_vars
                (AmazonWebServicesProvider.node_groups block)) as [ngs |] eqn:Hngs;
      simpl; [| done].
    destruct (AmazonWebServicesProvider.availability_zones block); simpl; [| done].
    destruct (AmazonWebServicesProvider.tags block); simpl; [| done].
    intros Heq. injection Heq as <-. simpl.
    eapply traverse_Ok_Forall; [| exact Hngs].
    intros item y. apply aws_node_group_input_vars_ami.
  - intros values [x Hx]. unfold check_launch_template. rewrite Hx. by eexists.
Qed.

Lemma aws_node_groups_never_custom_witness :
  ∃ msg,
    check_launch_template
      (<["launch_template" := VDict [("ami_id", VStr "ami-1")]]>
         {[ "instance" := VStr "m5.xlarge" ]})
    = Raise (ValueError msg).
Proof.
  apply (proj2 (proj2 aws_node_groups_never_custom)).
  rewrite lookup_insert_eq. by eexists.
Defined.

(** ** C2: Kubernetes version *)

(** C2, as stated, fails on AWS: with 1.29.3 the only version on offer, the
    value 1.29 is a prefix of an available version and the check raises. *)
Lemma aws_version_prefix_rejected :
  ¬ (is_ok (aws_check_kubernetes_version ["1.29.3"] (Some "1.29")) = true
     ↔ ∃ v, v ∈ ["1.29.3"] ∧ String.prefix "1.29" v = true).
Proof.
  intros [_ Hprefix]. cut (false = true); [discriminate |].
  apply Hprefix. exists "1.29.3". split; [by constructor | reflexivity].
Qed.

(** C2, amended.  GCP: the value is shown by [str] (so an unset value is the
    text None, and nothing is chosen for it) and the check passes exactly
    when some available version starts with that text; otherwise it raises
    the error that lists the available versions.  Azure and AWS: an unset
    value becomes the last entry of the list; a set value passes exactly
    when it is one of the available versions, as it is, and otherwise
    raises the error that lists them; AWS raises first when the list is
    empty. *)
Theorem kubernetes_version_checks :
  ∀ (available : list string),
    (∀ x, gcp_check_kubernetes_version available x = Ok tt
          ↔ ∃ v, v ∈ available ∧ String.prefix (py_str x) v = true)
    ∧ (∀ x, (¬ ∃ v, v ∈ available ∧ String.prefix (py_str x) v = true) →
            gcp_check_kubernetes_version available x
            = Raise (invalid_kubernetes_version (py_str x) available))
    ∧ py_str None = "None"
    ∧ (∀ v, last available = Some v →
            _validate_kubernetes_version available None = Ok v)
    ∧ (∀ v, _validate_kubernetes_version available (Some v) = Ok v ↔ v ∈ available)
    ∧ (∀ v, v ∉ available →
            _validate_kubernetes_version available (Some v)
            = Raise (invalid_kubernetes_version v available))
    ∧ (∀ v, last available = Some v →
            aws_check_kubernetes_version available None = Ok v)
    ∧ (∀ v, aws_check_kubernetes_version available (Some v) = Ok v ↔ v ∈ available)
    ∧ (∀ v, available ≠ [] → v ∉ available →
            aws_check_kubernetes_version available (Some v)
            = Raise (invalid_kubernetes_version v available))
    ∧ (∀ x, available = [] →
            aws_check_kubernetes_version available x
            = Raise (ValueError
                       [Lit "Request to AWS for available Kubernetes versions failed."])).
Proof.
  intros available.
  assert (Hgcp : ∀ x,
    existsb (fun v => String.prefix (py_str x) v) available = true
    ↔ ∃ v, v ∈ available ∧ String.prefix (py_str x) v = true).
  { intros x. rewrite existsb_exists. split; intros (v & Hv & Hp); exists v;
      (split; [by apply list_elem_of_In | done]). }
  split_and!.
  - intros x. unfold gcp_check_kubernetes_version. rewrite <- Hgcp.
    by destruct (existsb _ available).
  - intros x Hno. unfold gcp_check_kubernetes_version.
    destruct (existsb _ available) eqn:Hex; [| done].
    exfalso. apply Hno. by apply Hgcp.
  - reflexivity.
  - intros v Hlast. unfold _validate_kubernetes_version, last_item. by rewrite Hlast.
  - intros v. unfold _validate_kubernetes_version. rewrite <- str_in_spec.
    by destruct (str_in v available).
  - intros v Hno. unfold _validate_kubernetes_version. apply str_in_false in Hno.
    by rewrite Hno.
  - intros v Hlast. unfold aws_check_kubernetes_version, last_item.
    destruct available; [done |]. cbn [length Nat.eqb]. by rewrite Hlast.
  - intros v. unfold aws_check_kubernetes_version. rewrite <- str_in_spec.
    destruct available; [done |]. cbn [length Nat.eqb].
    by destruct (str_in v (s :: available)).
  - intros v Hne Hno. unfold aws_check_kubernetes_version.
    destruct available; [done |]. cbn [length Nat.eqb].
    apply str_in_false in Hno. by rewrite Hno.
  - intros x ->. reflexivity.
Qed.

Lemma kubernetes_version_checks_witness :
  _validate_kubernetes_version ["1.28.5"; "1.29.2"] None = Ok "1.29.2"
  ∧ gcp_check_kubernetes_version ["1.29.4-gke.1043002"] (Some "1.29") = Ok tt
  ∧ aws_check_kubernetes_version ["1.29"; "1.30"] (Some "1.31")
    = Raise (invalid_kubernetes_version "1.31" ["1.29"; "1.30"]).
Proof.
  split; [| split].
  - apply (kubernetes_version_checks ["1.28.5"; "1.29.2"]). reflexivity.
  - apply (kubernetes_version_checks ["1.29.4-gke.1043002"]).
    exists "1.29.4-gke.1043002". split; [by constructor | reflexivity].
  - apply (kubernetes_version_checks ["1.29"; "1.30"]); [done |].
    intros Hin. repeat (apply elem_of_cons in Hin as [? | Hin]; [done |]).
    by apply elem_of_nil in Hin.
Defined.

(** ** C1: provider selection when no kind is named *)

Lemma present_blocks_spec (data : gmap string pyval) (block : string) :
  block ∈ present_blocks data
  ↔ block ∈ ["local"; "existing"; "google_cloud_platform"; "amazon_web_services"; "azure"]
    ∧ is_Some (data !! block).
Proof.
  unfold present_blocks. rewrite list_elem_of_In, filter_In, <- list_elem_of_In.
  by rewrite bool_decide_eq_true.
Qed.

(** Several blocks and no kind: the error names the blocks that are there,
    all of them and no other. *)
Lemma check_provider_implicit_multiple (hasattr : string → bool)
    (data : gmap string pyval) :
  data !! "provider" = None →
  (1 < length (present_blocks data))%nat →
  check_provider hasattr data
  = Raise (ValueError [Lit "Multiple providers set: "; StrList (present_blocks data)]).
Proof.
  intros Hnone Hlen. unfold check_provider. rewrite Hnone.
  destruct (present_blocks data) as [| p [| q l]]; simpl in Hlen; [lia | lia | done].
Qed.

(** One block and no kind: the kind of that block is adopted. *)
Lemma check_provider_implicit_single (hasattr : string → bool)
    (data : gmap string pyval) (block : string) :
  data !! "provider" = None →
  present_blocks data = [block] →
  ∃ kind,
    (kind, block) ∈ schema.provider_enum_name_map
    ∧ check_provider hasattr data
      = Ok (<["provider" := VStr (schema.ProviderEnum_value kind)]> data, []).
Proof.
  intros Hnone Hone.
  assert (Hin : block ∈ present_blocks data) by (rewrite Hone; by constructor).
  apply present_blocks_spec in Hin as [Hin _].
  unfold check_provider. rewrite Hnone, Hone.
  repeat (apply elem_of_cons in Hin as [-> | Hin];
          [eexists; split; [| reflexivity]; by repeat constructor |]).
  by apply elem_of_nil in Hin.
Qed.

(** No block and no kind: the kind is local, and the document gets nothing
    else. *)
Lemma check_provider_implicit_none (hasattr : string → bool)
    (data : gmap string pyval) :
  data !! "provider" = None →
  present_blocks data = [] →
  check_provider hasattr data = Ok (<["provider" := VStr "local"]> data, []).
Proof.
  intros Hnone Hempty. unfold check_provider. by rewrite Hnone, Hempty.
Qed.

(** C1, at the empty document.  Selection returns the kind local and a
    document with no [local] block, where naming local in the document gets
    the block [LocalProvider()]; with no block, [input_vars] raises an
    [AttributeError]. *)
Theorem check_provider_empty_document :
  ∀ (hasattr : string → bool),
    check_provider hasattr ∅ = Ok (<["provider" := VStr "local"]> ∅, [])
    ∧ (<["provider" := VStr "local"]> (∅ : gmap string pyval)) !! "local" = None
    ∧ check_provider ProviderEnum_hasattr_members (<["provider" := VStr "local"]> ∅)
      = Ok (<["local" := VLocalProvider LocalProvider.default]>
              (<["provider" := VStr "local"]> ∅), [])
    ∧ input_vars "/tmp/NEBARI_KUBECONFIG" sample_construct_azure_resource_group_name
        "-node-resource-group" empty_document_config
      = Raise (AttributeError "'NoneType' object has no attribute 'kube_context'").
Proof.
  intros hasattr. split_and!.
  - by apply check_provider_implicit_none.
  - done.
  - unfold check_provider. rewrite lookup_insert_eq.
    replace (ProviderEnum_hasattr_members "local") with true by reflexivity.
    cbn [str_in existsb String.eqb Ascii.eqb Bool.eqb orb andb].
    rewrite lookup_insert_ne by done. rewrite lookup_empty.
    rewrite bool_decide_eq_false_2 by (intros [? ?]; done).
    cbn [negb]. vm_compute. reflexivity.
  - reflexivity.
Qed.

(** ** C7: provider selection when a kind is named *)

Lemma truthy_blocks_spec (data : gmap string pyval) (block : string) :
  block ∈ truthy_blocks data
  ↔ block ∈ ["local"; "existing"; "google_cloud_platform"; "amazon_web_services"; "azure"]
    ∧ ∃ v, data !! block = Some v ∧ truthy v = true.
Proof.
  unfold truthy_blocks. rewrite list_elem_of_In, filter_In, <- list_elem_of_In.
  apply and_iff_compat_l. destruct (data !! block) as [v |]; split.
  - intros Hv. by exists v.
  - by intros (v' & [= <-] & Hv).
  - done.
  - by intros (v' & [=] & _).
Qed.

Lemma other_blocks_spec (expected block : string) (l : list string) :
  block ∈ List.filter (fun p => negb (String.eqb p expected)) l
  ↔ block ∈ l ∧ block ≠ expected.
Proof.
  rewrite list_elem_of_In, filter_In, <- list_elem_of_In.
  apply and_iff_compat_l. by destruct (String.eqb_spec block expected).
Qed.

(** The first branch of [check_provider] for a name the enumeration has. *)
Lemma check_provider_explicit_ok (hasattr : string → bool)
    (data : gmap string pyval) (provider expected : string) :
  data !! "provider" = Some (VStr provider) →
  hasattr provider = true →
  provider_enum_name_map_get provider = Ok expected →
  let data' :=
    if str_in provider ["local"; "existing"]
       && negb (bool_decide (is_Some (data !! provider)))
    then <[provider := provider_enum_model_map_new provider]> data
    else data in
  let extra :=
    List.filter (fun p => negb (String.eqb p expected)) (truthy_blocks data') in
  check_provider hasattr data
  = Ok (data', match extra with
               | [] => []
               | _ => [extra_provider_warning provider extra]
               end).
Proof.
  intros Hprovider Hhas Hexpected data' extra. unfold check_provider.
  rewrite Hprovider, Hhas. fold data'. rewrite Hexpected. simpl.
  fold extra. by destruct extra.
Qed.

(** C7, as stated, fails: the document names aws and has a [local] block,
    which is empty, and no warning is emitted. *)
Lemma extra_empty_block_no_warning :
  ¬ (is_Some (aws_with_empty_local !! "local") →
     ∃ data' warning warnings,
       check_provider ProviderEnum_hasattr_members aws_with_empty_local
       = Ok (data', warning :: warnings)).
Proof.
  intros Hclaim. destruct Hclaim as (data' & warning & warnings & Hres).
  - unfold aws_with_empty_local. rewrite lookup_insert_eq. by eexists.
  - rewrite (check_provider_explicit_ok _ _ "aws" "amazon_web_services") in Hres;
      [| reflexivity | reflexivity | reflexivity].
    vm_compute in Hres. discriminate.
Qed.

(** C7, amended.  When the document names a kind: a name the enumeration
    has no attribute for is rejected with the error that lists local,
    existing, aws, gcp and azure; for a member name selection succeeds;
    the document it returns is the given one, with [LocalProvider()] or
    [ExistingProvider()] put in for local or existing when the document has
    no such key; and a warning is emitted exactly when some block of
    another kind is in that document with a true value (an empty or null
    block does not count), the warning naming those blocks. *)
Theorem check_provider_explicit :
  ∀ (hasattr : string → bool) (data : gmap string pyval) (provider : string),
    (∀ kind, hasattr (schema.ProviderEnum_value kind) = true) →
    data !! "provider" = Some (VStr provider) →
    (hasattr provider = false →
     check_provider hasattr data
     = Raise (ValueError
                [ Lit "'"; Str provider;
                  Lit "' is not a valid enumeration member; permitted: local, existing, aws, gcp, azure" ]))
    ∧ (∀ kind expected,
         provider = schema.ProviderEnum_value kind →
         (kind, expected) ∈ schema.provider_enum_name_map →
         ∃ data' extra,
           check_provider hasattr data
           = Ok (data', match extra with
                        | [] => []
                        | _ => [extra_provider_warning provider extra]
                        end)
           ∧ data'
             = match kind, data !! provider with
               | schema.local, None =>
                   <["local" := VLocalProvider LocalProvider.default]> data
               | schema.existing, None =>
                   <["existing" := VExistingProvider ExistingProvider.default]> data
               | _, _ => data
               end
           ∧ ∀ block,
               block ∈ extra
               ↔ block ∈ ["local"; "existing"; "google_cloud_platform";
                          "amazon_web_services"; "azure"]
                 ∧ block ≠ expected
                 ∧ ∃ v, data' !! block = Some v ∧ truthy v = true).
Proof.
  intros hasattr data provider Hmembers Hprovider. split.
  - intros Hhas. unfold check_provider. by rewrite Hprovider, Hhas.
  - intros kind expected -> Hin.
    assert (Hexpected :
      provider_enum_name_map_get (schema.ProviderEnum_value kind) = Ok expected).
    { repeat (apply elem_of_cons in Hin as [[= -> ->] | Hin]; [reflexivity |]).
      by apply elem_of_nil in Hin. }
    pose proof (check_provider_explicit_ok hasattr data _ expected Hprovider
                  (Hmembers kind) Hexpected) as Hok.
    cbv zeta in Hok. eexists _, _. split; [exact Hok |]. split.
    + destruct kind; simpl; try reflexivity.
      * destruct (data !! "local") as [v |] eqn:Hv.
        -- rewrite bool_decide_eq_true_2 by by eexists. reflexivity.
        -- rewrite bool_decide_eq_false_2 by (intros [? ?]; done). reflexivity.
      * destruct (data !! "existing") as [v |] eqn:Hv.
        -- rewrite bool_decide_eq_true_2 by by eexists. reflexivity.
        -- rewrite bool_decide_eq_false_2 by (intros [? ?]; done). reflexivity.
    + intros block. rewrite other_blocks_spec, truthy_blocks_spec. tauto.
Qed.

Lemma check_provider_explicit_witness :
  check_provider ProviderEnum_hasattr_members {[ "provider" := VStr "digitalocean" ]}
  = Raise (ValueError
             [ Lit "'"; Str "digitalocean";
               Lit "' is not a valid enumeration member; permitted: local, existing, aws, gcp, azure" ]).
Proof.
  apply (check_provider_explicit ProviderEnum_hasattr_members
           {[ "provider" := VStr "digitalocean" ]} "digitalocean").
  - intros kind. by destruct kind.
  - apply lookup_singleton_eq.
  - reflexivity.
Defined.

(** ** C6: compilation of validated input *)

Lemma gcp_node_group_input_vars_Ok (item : string * GCPNodeGroup.t) :
  is_Some (NodeGroup.taints (GCPNodeGroup.base item.2)) →
  ∃ v, gcp_node_group_input_vars item = Ok v ∧ GCPNodeGroupInputVars.name v = item.1.
Proof.
  destruct item as [name ng]. intros [x Hx]. unfold gcp_node_group_input_vars.
  simpl in *. rewrite Hx. simpl. by eexists.
Qed.

Lemma azure_node_group_input_vars_Ok (item : string * AzureNodeGroup.t) :
  is_Some (NodeGroup.taints (AzureNodeGroup.base item.2)) →
  ∃ v, azure_node_group_input_vars item = Ok v ∧ v.1 = item.1.
Proof.
  destruct item as [name ng]. intros [x Hx]. unfold azure_node_group_input_vars.
  simpl in *. rewrite Hx. simpl. by eexists.
Qed.

(** C6, as stated, fails: the block validation makes for a document that
    names existing and nothing else has no [kube_context], and the variable
    record of that kind requires one. *)
Lemma existing_without_kube_context_raises :
  ¬ (check_provider ProviderEnum_hasattr_members {[ "provider" := VStr "existing" ]}
     = Ok (<["existing" := VExistingProvider ExistingProvider.default]>
             {[ "provider" := VStr "existing" ]}, []) →
     is_ok (input_vars "/tmp/NEBARI_KUBECONFIG"
              sample_construct_azure_resource_group_name "-node-resource-group"
              existing_default_config) = true).
Proof.
  intros Hclaim. cut (false = true); [discriminate |].
  apply Hclaim. clear Hclaim.
  rewrite (check_provider_explicit_ok _ _ "existing" "existing");
    [| reflexivity | reflexivity | reflexivity].
  vm_compute. reflexivity.
Qed.

(** C6, amended.  On a validated configuration whose block is there,
    [input_vars] returns the variable record of the kind: for local always;
    for existing when [kube_context] is set, and with a validation error
    when it is not; for gcp when [availability_zones] and [tags] are not
    [None] and [ip_allocation_policy] and
    [master_authorized_networks_config] are; for azure when
    [authorized_ip_ranges], [kubernetes_version] and [tags] are not [None];
    for aws when [availability_zones] and [tags] are not [None]; for the
    three clouds the node groups being those the defaulting of taints
    returns. *)
Theorem input_vars_returns :
  ∀ (kubeconfig_filename : string)
    (construct_azure_resource_group_name :
       string → string → option string → option string → string)
    (suffix : string) (config : Main.t),
    let compiled :=
      input_vars kubeconfig_filename construct_azure_resource_group_name suffix
        config in
    (Main.provider config = schema.local →
     ∀ block, Main.local config = Some block →
       compiled
       = Ok (LocalVars
               {| LocalInputVars.kubeconfig_filename := kubeconfig_filename;
                  LocalInputVars.kube_context := LocalProvider.kube_context block |}))
    ∧ (Main.provider config = schema.existing →
       ∀ block, Main.existing config = Some block →
         (∀ context, ExistingProvider.kube_context block = Some context →
            compiled
            = Ok (ExistingVars {| ExistingInputVars.kube_context := context |}))
         ∧ (ExistingProvider.kube_context block = None →
            compiled = Raise (ValidationError "ExistingInputVars" "kube_context")))
    ∧ (Main.provider config = schema.gcp →
       ∀ block pools,
         Main.google_cloud_platform config = Some block →
         GoogleCloudPlatformProvider.node_groups block
         = set_missing_taints_to_default_taints pools →
         is_Some (GoogleCloudPlatformProvider.availability_zones block) →
         is_Some (GoogleCloudPlatformProvider.tags block) →
         GoogleCloudPlatformProvider.ip_allocation_policy block = None →
         GoogleCloudPlatformProvider.master_authorized_networks_config block = None →
         ∃ v, compiled = Ok (GCPVars v)
              ∧ map GCPNodeGroupInputVars.name (GCPInputVars.node_groups v)
                = dict_keys pools)
    ∧ (Main.provider config = schema.azure →
       ∀ block pools,
         Main.azure config = Some block →
         AzureProvider.node_groups block
         = set_missing_taints_to_default_taints pools →
         is_Some (AzureProvider.authorized_ip_ranges block) →
         is_Some (AzureProvider.kubernetes_version block) →
         is_Some (AzureProvider.tags block) →
         ∃ v, compiled = Ok (AzureVars v)
              ∧ dict_keys (AzureInputVars.node_groups v) = dict_keys pools)
    ∧ (Main.provider config = schema.aws →
       ∀ block pools,
         Main.amazon_web_services config = Some block →
         AmazonWebServicesProvider.node_groups block
         = set_missing_taints_to_default_taints pools →
         is_Some (AmazonWebServicesProvider.availability_zones block) →
         is_Some (AmazonWebServicesProvider.tags block) →
         ∃ v, compiled = Ok (AWSVars v)
              ∧ map AWSNodeGroupInputVars.name (AWSInputVars.node_groups v)
                = dict_keys pools).
Proof.
  intros kf car suffix config compiled. subst compiled. unfold input_vars.
  assert (Hkeys : ∀ A (H : NodeGroupLike A) (pools : list (string * A)),
    dict_keys (set_missing_taints_to_default_taints pools) = dict_keys pools).
  { intros A H pools. unfold dict_keys, set_missing_taints_to_default_taints.
    rewrite map_map. by apply map_ext. }
  assert (Hnames : ∀ A B (name : B → string) (l : list (string * A)) (ys : list B),
    Forall2 (fun item y => name y = item.1) l ys → map name ys = dict_keys l).
  { intros A B name l ys HF. unfold dict_keys.
    induction HF as [| item y l ys Hy _ IH]; simpl; [done | by rewrite Hy, IH]. }
  split_and!.
  - intros Hp block Hb. by rewrite Hp, Hb.
  - intros Hp block Hb. rewrite Hp, Hb. simpl. split.
    + intros context Hc. by rewrite Hc.
    + intros Hc. by rewrite Hc.
  - intros Hp block pools Hb Hng [zones Hz] [tags Ht] Hip Hmac.
    rewrite Hp, Hb. simpl. rewrite Hng.
    destruct (traverse_Forall2 gcp_node_group_input_vars
                (fun item v => GCPNodeGroupInputVars.name v = item.1)
                (set_missing_taints_to_default_taints pools)) as (ngs & Hngs & HF).
    { intros item Hin. apply gcp_node_group_input_vars_Ok.
      exact (elem_of_set_missing_taints item pools Hin). }
    rewrite Hngs, Hz, Ht, Hip, Hmac. simpl. eexists. split; [reflexivity |].
    simpl. rewrite <- (Hkeys _ _ pools). by apply Hnames.
  - intros Hp block pools Hb Hng [ranges Hr] [version Hv] [tags Ht].
    rewrite Hp, Hb. simpl. rewrite Hng.
    destruct (traverse_Forall2 azure_node_group_input_vars
                (fun item v => v.1 = item.1)
                (set_missing_taints_to_default_taints pools)) as (ngs & Hngs & HF).
    { intros item Hin. apply azure_node_group_input_vars_Ok.
      exact (elem_of_set_missing_taints item pools Hin). }
    rewrite Hngs, Hr, Hv, Ht. simpl. eexists. split; [reflexivity |].
    simpl. rewrite <- (Hkeys _ _ pools). by apply (Hnames _ _ fst).
  - intros Hp block pools Hb Hng [zones Hz] [tags Ht].
    rewrite Hp, Hb. simpl. rewrite Hng.
    destruct (traverse_Forall2 aws_node_group_input_vars
                (fun item v => AWSNodeGroupInputVars.name v = item.1)
                (set_missing_taints_to_default_taints pools)) as (ngs & Hngs & HF).
    { intros item Hin.
      destruct (aws_node_group_input_vars_Ok item) as (v & Hv & Hname & _).
      - exact (elem_of_set_missing_taints item pools Hin).
      - by exists v. }
    rewrite Hngs, Hz, Ht. simpl. eexists. split; [reflexivity |].
    simpl. rewrite <- (Hkeys _ _ pools). by apply Hnames.
Qed.

Lemma input_vars_returns_witness :
  ∃ v,
    input_vars "/tmp/NEBARI_KUBECONFIG" sample_construct_azure_resource_group_name
      "-node-resource-group" sample_aws_config = Ok (AWSVars v)
    ∧ map AWSNodeGroupInputVars.name (AWSInputVars.node_groups v)
      = ["general"; "user"; "worker"].
Proof.
  refine (proj2 (proj2 (proj2 (proj2
            (input_vars_returns "/tmp/NEBARI_KUBECONFIG"
               sample_construct_azure_resource_group_name "-node-resource-group"
               sample_aws_config))))
            eq_refl _ DEFAULT_AWS_NODE_GROUPS eq_refl eq_refl _ _);
    by eexists.
Defined.

(** * Further properties of the stage *)

(** ** Taints *)

Lemma default_taints_of_fixed `{NodeGroupLike A} (name : string) (ng : A) :
  default_taints_of name (default_taints_of name ng) = default_taints_of name ng.
Proof.
  destruct (default_taints_of_is_Some name ng) as [x Hx].
  unfold default_taints_of at 1. by rewrite Hx.
Qed.

(** X1. Defaulting the taints a second time changes nothing. *)
Theorem set_missing_taints_idempotent :
  ∀ (A : Type) (H : NodeGroupLike A) (node_groups : list (string * A)),
    set_missing_taints_to_default_taints
      (set_missing_taints_to_default_taints node_groups)
    = set_missing_taints_to_default_taints node_groups.
Proof.
  intros A H node_groups. unfold set_missing_taints_to_default_taints.
  rewrite map_map. apply map_ext. intros [name ng]. simpl.
  by rewrite default_taints_of_fixed.
Qed.

(** X2. After defaulting no group is left with unset taints, the names and
    their order are those given, and a group's instance and bounds are what
    they were. *)
Theorem set_missing_taints_leaves_none_unset :
  ∀ (A : Type) (H : NodeGroupLike A) (node_groups : list (string * A)),
    Forall (fun item => is_Some (NodeGroup.taints (node_group item.2)))
      (set_missing_taints_to_default_taints node_groups)
    ∧ dict_keys (set_missing_taints_to_default_taints node_groups)
      = dict_keys node_groups
    ∧ Forall2
        (fun before after =>
           NodeGroup.instance (node_group after.2)
           = NodeGroup.instance (node_group before.2)
           ∧ NodeGroup.min_nodes (node_group after.2)
             = NodeGroup.min_nodes (node_group before.2)
           ∧ NodeGroup.max_nodes (node_group after.2)
             = NodeGroup.max_nodes (node_group before.2))
        node_groups (set_missing_taints_to_default_taints node_groups).
Proof.
  intros A H node_groups. split_and!.
  - apply Forall_forall. intros item Hin.
    by apply (elem_of_set_missing_taints item node_groups).
  - unfold dict_keys, set_missing_taints_to_default_taints.
    rewrite map_map. by apply map_ext.
  - unfold set_missing_taints_to_default_taints.
    induction node_groups as [| [name ng] l IH]; simpl; constructor; [| exact IH].
    simpl. unfold default_taints_of.
    destruct (NodeGroup.taints (node_group ng)); [done |].
    destruct (String.eqb name "general"); by rewrite node_group_assign_taints.
Qed.

Lemma traverse_Raise {A B} (f : A → result B) (l : list A) (e : exn) :
  traverse f l = Raise e → ∃ x, x ∈ l ∧ f x = Raise e.
Proof.
  induction l as [| x l IH]; simpl; [done |].
  destruct (f x) as [y |] eqn:Hx; simpl.
  - destruct (traverse f l) as [ys |]; simpl; [done |].
    intros [= <-]. destruct IH as (z & Hz & Hfz); [done |].
    exists z. split; [by apply elem_of_cons; right | done].
  - intros [= <-]. exists x. split; [by apply elem_of_cons; left | done].
Qed.

Lemma traverse_Ok_Forall2 {A B} (f : A → result B) (l : list A) (ys : list B) :
  traverse f l = Ok ys → Forall2 (fun x y => f x = Ok y) l ys.
Proof.
  revert ys. induction l as [| x l IH]; simpl; intros ys.
  - intros [= <-]. constructor.
  - destruct (f x) as [y |] eqn:Hx; simpl; [| done].
    destruct (traverse f l) as [ys' |]; simpl; [| done].
    intros [= <-]. constructor; [done | by apply IH].
Qed.

Lemma traverse_is_ok {A B} (f : A → result B) (l : list A) :
  is_ok (traverse f l) = true ↔ ∀ x, x ∈ l → is_ok (f x) = true.
Proof.
  split.
  - destruct (traverse f l) as [ys |] eqn:Hys; [| done]. intros _ x Hx.
    apply traverse_Ok_Forall2 in Hys.
    apply list_elem_of_lookup in Hx as [i Hi].
    destruct (Forall2_lookup_l _ _ _ _ _ Hys Hi) as (y & _ & Hy). by rewrite Hy.
  - intros Hall. destruct (traverse f l) as [ys |] eqn:Hys; [done |].
    apply traverse_Raise in Hys as (x & Hx & Hfx). specialize (Hall x Hx).
    by rewrite Hfx in Hall.
Qed.

(** X3. [validate_taint_strings] lets an unset value through; of a list it
    keeps the length and the order, with each string replaced by what
    [Taint.from_string] makes of it and every other item kept as it is; and
    when it fails, it is with the exception of [Taint.from_string] on one of
    the strings of the list. *)
Theorem validate_taint_strings_spec :
  ∀ (Taint_from_string : string → result Taint.t) (taints : list pyval),
    validate_taint_strings Taint_from_string None = Ok None
    ∧ (∀ out, validate_taint_strings Taint_from_string (Some taints) = Ok out →
         ∃ items,
           out = Some items
           ∧ Forall2
               (fun raw item =>
                  match raw with
                  | VStr s => ∃ taint, Taint_from_string s = Ok taint
                                       ∧ item = ParsedTaint taint
                  | _ => item = OtherTaint raw
                  end)
               taints items)
    ∧ (∀ e, validate_taint_strings Taint_from_string (Some taints) = Raise e →
         ∃ s, VStr s ∈ taints ∧ Taint_from_string s = Raise e)
    ∧ ((∀ s, VStr s ∈ taints → is_ok (Taint_from_string s) = true) →
       is_ok (validate_taint_strings Taint_from_string (Some taints)) = true).
Proof.
  intros from_string taints. unfold validate_taint_strings. split_and!.
  - done.
  - intros out.
    destruct (traverse (validate_taint_item from_string) taints) as [items |] eqn:Ht;
      simpl; [| done].
    intros [= <-]. exists items. split; [done |].
    apply traverse_Ok_Forall2 in Ht.
    eapply Forall2_impl; [exact Ht |]. intros raw item. unfold validate_taint_item.
    destruct raw; try (by intros [= <-]).
    destruct (from_string s) as [taint |]; simpl; [| done].
    intros [= <-]. by exists taint.
  - intros e.
    destruct (traverse (validate_taint_item from_string) taints) as [items |] eqn:Ht;
      simpl; [done |].
    intros [= <-]. apply traverse_Raise in Ht as (raw & Hin & Hraw).
    unfold validate_taint_item in Hraw. destruct raw; try done.
    exists s. split; [done |].
    destruct (from_string s) as [taint | e'] eqn:Hs; simpl in Hraw; [done |].
    by injection Hraw as ->.
  - intros Hall.
    assert (Ht : is_ok (traverse (validate_taint_item from_string) taints) = true).
    { apply traverse_is_ok. intros raw Hin. unfold validate_taint_item.
      destruct raw; try done. specialize (Hall s Hin).
      by destruct (from_string s). }
    by destruct (traverse (validate_taint_item from_string) taints).
Qed.

Lemma validate_taint_strings_spec_witness :
  is_ok (validate_taint_strings
           (fun s => Ok {| Taint.key := s; Taint.value := "nebari";
                           Taint.effect := schema.NoSchedule |})
           (Some [VStr "dedicated"; VNone])) = true.
Proof.
  apply (validate_taint_strings_spec _ [VStr "dedicated"; VNone]).
  intros s _. reflexivity.
Defined.

(** X4. The taints of the GCP and AWS variables keep the number and the
    order of the pool's taints and lose nothing: two lists of taints with
    the same converted form are the same list.  An unset value is not
    converted; it raises a [TypeError], for Azure as well. *)
Theorem convert_taints_faithful :
  convert_taints None = Raise (TypeError "'NoneType' object is not iterable")
  ∧ azure_convert_taints None = Raise (TypeError "'NoneType' object is not iterable")
  ∧ (∀ l, ∃ out, convert_taints (Some l) = Ok out ∧ length out = length l)
  ∧ (∀ l, ∃ out, azure_convert_taints (Some l) = Ok out ∧ length out = length l)
  ∧ (∀ l1 l2, convert_taints (Some l1) = convert_taints (Some l2) → l1 = l2).
Proof.
  split_and!; try done.
  - intros l. eexists. split; [reflexivity |]. by rewrite length_map.
  - intros l. eexists. split; [reflexivity |]. by rewrite length_map.
  - intros l1 l2. unfold convert_taints. simpl. intros [= Heq].
    revert l2 Heq. induction l1 as [| t1 l1 IH]; intros [| t2 l2]; simpl; try done.
    intros [= Hk Hv He Hrest]. f_equal; [| by apply IH].
    destruct t1 as [k1 v1 e1], t2 as [k2 v2 e2]. simpl in *. subst.
    by destruct e1, e2.
Qed.

Lemma convert_taints_faithful_witness :
  DEFAULT_NODE_GROUP_TAINTS
  = [ {| Taint.key := "dedicated"; Taint.value := "nebari";
         Taint.effect := schema.NoSchedule |} ].
Proof.
  exact (proj2 (proj2 (proj2 (proj2 convert_taints_faithful)))
           DEFAULT_NODE_GROUP_TAINTS
           [ {| Taint.key := "dedicated"; Taint.value := "nebari";
                Taint.effect := schema.NoSchedule |} ] eq_refl).
Defined.

(** ** Credentials of the kubernetes provider *)

Lemma credential_mapping_get (k name : string) :
  dict_get k credential_mapping = Some name ↔ (k, name) ∈ credential_mapping.
Proof.
  unfold credential_mapping. cbn [dict_get]. split.
  - repeat match goal with
           | |- context [String.eqb k ?s] =>
               destruct (String.eqb_spec k s) as [-> | ?];
               [simpl; intros [= <-]; by repeat constructor |]
           end.
    done.
  - intros Hin.
    repeat (apply elem_of_cons in Hin as [[= -> ->] | Hin]; [reflexivity |]).
    by apply elem_of_nil in Hin.
Qed.

Lemma credential_mapping_inj (k1 k2 name : string) :
  dict_get k1 credential_mapping = Some name →
  dict_get k2 credential_mapping = Some name → k1 = k2.
Proof.
  rewrite !credential_mapping_get. unfold credential_mapping. intros H1 H2.
  repeat (apply elem_of_cons in H1 as [[= -> ->] | H1];
          [repeat (apply elem_of_cons in H2 as [Heq | H2];
                   [by simplify_eq |]);
           by apply elem_of_nil in H2 |]).
  by apply elem_of_nil in H1.
Qed.

Lemma kubernetes_provider_credentials_elem
    (kubernetes_credentials : list (string * option string))
    (credentials : list (string * string)) :
  kubernetes_provider_credentials kubernetes_credentials = Ok credentials →
  ∀ name v,
    (name, v) ∈ credentials
    ↔ ∃ k, (k, Some v) ∈ kubernetes_credentials
           ∧ dict_get k credential_mapping = Some name.
Proof.
  revert credentials.
  induction kubernetes_credentials as [| [k [v0 |]] rest IH];
    cbn [kubernetes_provider_credentials]; intros credentials Hres name v.
  - injection Hres as <-. split.
    + intros Hin. by apply elem_of_nil in Hin.
    + intros (k & Hin & _). by apply elem_of_nil in Hin.
  - destruct (dict_get k credential_mapping) as [name0 |] eqn:Hk; simpl in Hres;
      [| done].
    destruct (kubernetes_provider_credentials rest) as [creds |] eqn:Hrest;
      simpl in Hres; [| done].
    injection Hres as <-. rewrite elem_of_cons, (IH creds eq_refl). split.
    + intros [[= -> ->] | (k' & Hin & Hk')].
      * exists k. split; [by apply elem_of_cons; left | done].
      * exists k'. split; [by apply elem_of_cons; right | done].
    + intros (k' & Hin & Hk'). apply elem_of_cons in Hin as [[= -> ->] | Hin].
      * left. congruence.
      * right. by exists k'.
  - rewrite (IH credentials Hres). split.
    + intros (k' & Hin & Hk'). exists k'. split; [by apply elem_of_cons; right | done].
    + intros (k' & Hin & Hk'). apply elem_of_cons in Hin as [[=] | Hin]. by exists k'.
Qed.

Lemma kubernetes_provider_credentials_names
    (kubernetes_credentials : list (string * option string))
    (credentials : list (string * string)) :
  kubernetes_provider_credentials kubernetes_credentials = Ok credentials →
  NoDup (dict_keys kubernetes_credentials) → NoDup (dict_keys credentials).
Proof.
  revert credentials.
  induction kubernetes_credentials as [| [k [v0 |]] rest IH];
    cbn [kubernetes_provider_credentials]; intros credentials Hres Hnodup;
    cbn [dict_keys fmap list_fmap fst] in Hnodup.
  - injection Hres as <-. constructor.
  - destruct (dict_get k credential_mapping) as [name0 |] eqn:Hk; simpl in Hres;
      [| done].
    destruct (kubernetes_provider_credentials rest) as [creds |] eqn:Hrest;
      simpl in Hres; [| done].
    injection Hres as <-. apply NoDup_cons in Hnodup as [Hnotin Hnodup].
    simpl. apply NoDup_cons. split; [| by apply IH].
    intros Hin. apply Hnotin. unfold dict_keys in Hin.
    apply list_elem_of_fmap in Hin as ([name v] & Hname & Hin). simpl in Hname. subst.
    apply (kubernetes_provider_credentials_elem rest creds Hrest) in Hin
      as (k' & Hin & Hk').
    rewrite (credential_mapping_inj k k' name Hk Hk').
    unfold dict_keys. apply list_elem_of_fmap. by exists (k', Some v).
  - apply NoDup_cons in Hnodup as [_ Hnodup]. by apply IH.
Qed.

(** X5. The environment [kubernetes_provider_context] sets: an entry whose
    value is [None] sets nothing, every other entry sets the variable the
    mapping gives for its key, to its value, and nothing else is set;
    different keys set different variables; and the only failure is a
    [KeyError] for a key, with a value, that the mapping does not have. *)
Theorem kubernetes_provider_credentials_spec :
  ∀ (kubernetes_credentials : list (string * option string)),
    (∀ credentials,
       kubernetes_provider_credentials kubernetes_credentials = Ok credentials →
       (∀ name v,
          (name, v) ∈ credentials
          ↔ ∃ k, (k, Some v) ∈ kubernetes_credentials
                 ∧ (k, name) ∈ credential_mapping)
       ∧ (NoDup (dict_keys kubernetes_credentials) → NoDup (dict_keys credentials)))
    ∧ (∀ e, kubernetes_provider_credentials kubernetes_credentials = Raise e →
         ∃ k v, (k, Some v) ∈ kubernetes_credentials
                ∧ (k ∉ dict_keys credential_mapping) ∧ e = KeyError k)
    ∧ ((∀ k v, (k, Some v) ∈ kubernetes_credentials →
               k ∈ dict_keys credential_mapping) →
       is_ok (kubernetes_provider_credentials kubernetes_credentials) = true).
Proof.
  intros kubernetes_credentials.
  pose proof credential_mapping_get as Hget.
  assert (Hraise : ∀ e,
    kubernetes_provider_credentials kubernetes_credentials = Raise e →
    ∃ k v, (k, Some v) ∈ kubernetes_credentials
           ∧ (k ∉ dict_keys credential_mapping) ∧ e = KeyError k).
  { induction kubernetes_credentials as [| [k [v0 |]] rest IH];
      cbn [kubernetes_provider_credentials]; intros e Hres.
    - done.
    - destruct (dict_get k credential_mapping) as [name0 |] eqn:Hk; simpl in Hres.
      + destruct (kubernetes_provider_credentials rest) as [creds |] eqn:Hrest;
          simpl in Hres; [done |].
        injection Hres as <-. destruct (IH _ eq_refl) as (k' & v & Hin & Hno & He).
        exists k', v. split; [by apply elem_of_cons; right | done].
      + injection Hres as <-. exists k, v0. split; [by apply elem_of_cons; left |].
        split; [| done]. intros Hin.
        apply dict_get_of_key in Hin as [name Hname]. congruence.
    - destruct (IH _ Hres) as (k' & v & Hin & Hno & He).
      exists k', v. split; [by apply elem_of_cons; right | done]. }
  split_and!.
  - intros credentials Hres. split.
    + intros name v.
      rewrite (kubernetes_provider_credentials_elem _ _ Hres name v).
      split; intros (k & Hin & Hk); exists k; (split; [done | by apply Hget]).
    + by apply kubernetes_provider_credentials_names.
  - exact Hraise.
  - intros Hall.
    destruct (kubernetes_provider_credentials kubernetes_credentials) as [c | e] eqn:Hres;
      [done |].
    destruct (Hraise e eq_refl) as (k & v & Hin & Hno & _).
    exfalso. apply Hno. by apply (Hall k v).
Qed.

Lemma kubernetes_provider_credentials_spec_witness :
  is_ok (kubernetes_provider_credentials
           [ ("host", Some "https://10.0.0.1"); ("token", None);
             ("cluster_ca_certificate", Some "CERT") ]) = true.
Proof.
  apply (kubernetes_provider_credentials_spec
           [ ("host", Some "https://10.0.0.1"); ("token", None);
             ("cluster_ca_certificate", Some "CERT") ]).
  intros k v Hin.
  repeat (apply elem_of_cons in Hin as [Heq | Hin];
          [simplify_eq; unfold dict_keys; simpl; by repeat constructor |]).
  by apply elem_of_nil in Hin.
Defined.

(** ** Autoscaling groups *)

(** X6. Only AWS is asked for autoscaling groups: for every other kind the
    mapping is empty whatever the collaborator would answer, and no tag is
    set; for AWS the tags are set exactly when the mapping the collaborator
    returns is not empty, with that mapping and the region of the block;
    and AWS without its block raises. *)
Theorem post_deploy_spec :
  ∀ (aws_get_asg_node_group_mapping :
       string → string → string → result (list (string * string)))
    (config : Main.t),
    (Main.provider config ≠ schema.aws →
     _calculate_asg_node_group_map aws_get_asg_node_group_mapping config = Ok []
     ∧ post_deploy aws_get_asg_node_group_mapping config = Ok None)
    ∧ (Main.provider config = schema.aws →
       Main.amazon_web_services config = None →
       ∃ msg, post_deploy aws_get_asg_node_group_mapping config
              = Raise (AttributeError msg))
    ∧ (Main.provider config = schema.aws →
       ∀ block mapping,
         Main.amazon_web_services config = Some block →
         aws_get_asg_node_group_mapping (Main.project_name config)
           (Main.namespace config) (AmazonWebServicesProvider.region block)
         = Ok mapping →
         post_deploy aws_get_asg_node_group_mapping config
         = Ok (if decide (mapping = []) then None
               else Some (mapping, AmazonWebServicesProvider.region block))).
Proof.
  intros f config. unfold post_deploy, _calculate_asg_node_group_map. split_and!.
  - intros Hne. by destruct (Main.provider config).
  - intros -> ->. by eexists.
  - intros -> block mapping -> Hmap. simpl. rewrite Hmap. simpl.
    by destruct mapping.
Qed.

Lemma post_deploy_spec_witness :
  post_deploy (fun _ _ _ => Ok [("eks-general", "general")]) sample_existing_config
  = Ok None.
Proof.
  apply (post_deploy_spec (fun _ _ _ => Ok [("eks-general", "general")])
           sample_existing_config).
  discriminate.
Defined.

(** ** Provider selection *)

Lemma provider_enum_name_map_get_Ok (provider block : string) :
  provider_enum_name_map_get provider = Ok block
  ↔ ∃ kind, provider = schema.ProviderEnum_value kind
            ∧ (kind, block) ∈ schema.provider_enum_name_map.
Proof.
  unfold provider_enum_name_map_get, schema.provider_enum_name_map.
  cbn [List.find fst snd schema.ProviderEnum_value]. split.
  - repeat match goal with
           | |- context [String.eqb ?s provider] =>
               destruct (String.eqb_spec s provider) as [<- | ?];
               [simpl; intros [= <-]; eexists; split; [| by repeat constructor];
                reflexivity |]
           end.
    done.
  - intros (kind & -> & Hin).
    repeat (apply elem_of_cons in Hin as [[= -> ->] | Hin]; [reflexivity |]).
    by apply elem_of_nil in Hin.
Qed.

Lemma abbreviation_of_block (block : string) :
  block ∈ dict_keys provider_name_abbreviation_map →
  ∃ kind, dict_get block provider_name_abbreviation_map
          = Some (schema.ProviderEnum_value kind)
          ∧ provider_enum_name_map_get (schema.ProviderEnum_value kind) = Ok block
          ∧ (str_in (schema.ProviderEnum_value kind) ["local"; "existing"] = true →
             block = schema.ProviderEnum_value kind).
Proof.
  intros Hin.
  repeat (apply elem_of_cons in Hin as [-> | Hin];
          [eexists; split; [reflexivity |]; split; [reflexivity |]; by vm_compute |]).
  by apply elem_of_nil in Hin.
Qed.

Lemma block_names_not_provider (block : string) :
  block ∈ dict_keys provider_name_abbreviation_map → block ≠ "provider".
Proof.
  intros Hin ->.
  repeat (apply elem_of_cons in Hin as [[=] | Hin]).
  by apply elem_of_nil in Hin.
Qed.

(** X7. Which documents the selection of the provider accepts: those that
    name one of the five kinds, the enumeration having the attribute, and
    those that name none and have at most one block.  A value that is not
    a string, a name the enumeration lacks, a name that is an attribute but
    no member, and several blocks without a kind are all refused. *)
Theorem check_provider_accepts :
  ∀ (hasattr : string → bool) (data : gmap string pyval),
    is_ok (check_provider hasattr data) = true
    ↔ (∃ kind, data !! "provider" = Some (VStr (schema.ProviderEnum_value kind))
               ∧ hasattr (schema.ProviderEnum_value kind) = true)
      ∨ (data !! "provider" = None ∧ (length (present_blocks data) ≤ 1)%nat).
Proof.
  intros hasattr data. unfold check_provider.
  destruct (data !! "provider") as [v |] eqn:Hp.
  - destruct v as [| b | z | provider | l | d | m | m];
      try (split; [done | by intros [(kind & [=] & _) | [[=] _]]]).
    destruct (hasattr provider) eqn:Hhas.
    + destruct (provider_enum_name_map_get provider) as [block | e] eqn:Hget.
      * apply provider_enum_name_map_get_Ok in Hget as (kind & -> & _).
        split.
        -- intros _. left. by exists kind.
        -- intros _. simpl. by case_match.
      * split; [done |]. intros [(kind & [= ->] & _) | [[=] _]].
        destruct kind; discriminate Hget.
    + split; [done |]. intros [(kind & [= ->] & Hk) | [[=] _]]. congruence.
  - destruct (present_blocks data) as [| p [| q l]] eqn:Hblocks.
    + split; [| done]. intros _. right. split; [done | simpl; lia].
    + assert (Hin : p ∈ dict_keys provider_name_abbreviation_map).
      { assert (Hp' : p ∈ present_blocks data) by (rewrite Hblocks; by constructor).
        by apply present_blocks_spec in Hp' as [? _]. }
      apply abbreviation_of_block in Hin as (kind & -> & _).
      split; [| done]. intros _. right. split; [done | simpl; lia].
    + split; [done |]. intros [(kind & [=] & _) | [_ Hlen]]. simpl in Hlen. lia.
Qed.

Lemma check_provider_accepts_witness :
  is_ok (check_provider ProviderEnum_hasattr_members {[ "provider" := VStr "aws" ]})
  = true.
Proof.
  apply (check_provider_accepts ProviderEnum_hasattr_members
           {[ "provider" := VStr "aws" ]}).
  left. exists schema.aws. split; [apply lookup_singleton_eq | reflexivity].
Defined.

(** X8. What selection does to the document it accepts: the document it
    returns names one of the five kinds; every entry of the given document
    is still there with its value; and the only entries added are the kind,
    and the block [LocalProvider()] or [ExistingProvider()] for a document
    that names local or existing. *)
Theorem check_provider_keeps_document :
  ∀ (hasattr : string → bool) (data data' : gmap string pyval)
    (warnings : list message),
    check_provider hasattr data = Ok (data', warnings) →
    (∃ kind, data' !! "provider" = Some (VStr (schema.ProviderEnum_value kind)))
    ∧ (∀ k v, data !! k = Some v → data' !! k = Some v)
    ∧ (∀ k v, data !! k = None → data' !! k = Some v →
         k = "provider"
         ∨ (k = "local" ∧ v = VLocalProvider LocalProvider.default
            ∧ data !! "provider" = Some (VStr "local"))
         ∨ (k = "existing" ∧ v = VExistingProvider ExistingProvider.default
            ∧ data !! "provider" = Some (VStr "existing"))).
Proof.
  intros hasattr data data' warnings Hres.
  destruct (data !! "provider") as [v |] eqn:Hp.
  - destruct v as [| b | z | provider | l | d | m | m];
      try (unfold check_provider in Hres; rewrite Hp in Hres; done).
    destruct (hasattr provider) eqn:Hhas;
      [| unfold check_provider in Hres; rewrite Hp, Hhas in Hres; done].
    destruct (provider_enum_name_map_get provider) as [block | e] eqn:Hget;
      [| unfold check_provider in Hres; rewrite Hp, Hhas, Hget in Hres; done].
    rewrite (check_provider_explicit_ok hasattr data provider block Hp Hhas Hget)
      in Hres.
    cbv zeta in Hres. injection Hres as <- _.
    apply provider_enum_name_map_get_Ok in Hget as (kind & -> & _).
    destruct kind; simpl;
      try (split_and!; [by eexists | done | intros k v Hk Hk'; congruence]).
    + destruct (data !! "local") as [v |] eqn:Hv.
      * rewrite bool_decide_eq_true_2 by by eexists. simpl.
        split_and!; [by exists schema.local | done | intros; congruence].
      * rewrite bool_decide_eq_false_2 by (intros [? ?]; done). simpl. split_and!.
        -- exists schema.local. by rewrite lookup_insert_ne.
        -- intros k v Hk. rewrite lookup_insert_ne; [done | congruence].
        -- intros k v Hk. destruct (decide (k = "local")) as [-> | Hne].
           ++ rewrite lookup_insert_eq. intros [= <-]. right. by left.
           ++ rewrite lookup_insert_ne by done. congruence.
    + destruct (data !! "existing") as [v |] eqn:Hv.
      * rewrite bool_decide_eq_true_2 by by eexists. simpl.
        split_and!; [by exists schema.existing | done | intros; congruence].
      * rewrite bool_decide_eq_false_2 by (intros [? ?]; done). simpl. split_and!.
        -- exists schema.existing. by rewrite lookup_insert_ne.
        -- intros k v Hk. rewrite lookup_insert_ne; [done | congruence].
        -- intros k v Hk. destruct (decide (k = "existing")) as [-> | Hne].
           ++ rewrite lookup_insert_eq. intros [= <-]. right. by right.
           ++ rewrite lookup_insert_ne by done. congruence.
  - assert (Hshape : ∀ kind,
      (∃ kind', (<["provider" := VStr (schema.ProviderEnum_value kind)]> data)
                !! "provider" = Some (VStr (schema.ProviderEnum_value kind')))
      ∧ (∀ k v, data !! k = Some v →
           (<["provider" := VStr (schema.ProviderEnum_value kind)]> data) !! k = Some v)
      ∧ (∀ k v, data !! k = None →
           (<["provider" := VStr (schema.ProviderEnum_value kind)]> data) !! k = Some v →
           k = "provider"
           ∨ (k = "local" ∧ v = VLocalProvider LocalProvider.default
              ∧ None = Some (VStr "local"))
           ∨ (k = "existing" ∧ v = VExistingProvider ExistingProvider.default
              ∧ None = Some (VStr "existing")))).
    { intros kind. split_and!.
      - exists kind. by rewrite lookup_insert_eq.
      - intros k v Hk. rewrite lookup_insert_ne; [done | congruence].
      - intros k v Hk. destruct (decide (k = "provider")) as [-> | Hne]; [by left |].
        rewrite lookup_insert_ne by done. congruence. }
    unfold check_provider in Hres. rewrite Hp in Hres.
    destruct (present_blocks data) as [| p [| q l]] eqn:Hblocks; [| | done].
    + injection Hres as <- <-. apply (Hshape schema.local).
    + assert (Hin : p ∈ dict_keys provider_name_abbreviation_map).
      { assert (Hp' : p ∈ present_blocks data) by (rewrite Hblocks; by constructor).
        by apply present_blocks_spec in Hp' as [? _]. }
      apply abbreviation_of_block in Hin as (kind & Hab & _).
      rewrite Hab in Hres. simpl in Hres. injection Hres as <- <-. apply Hshape.
Qed.

Lemma check_provider_keeps_document_witness :
  ∃ kind,
    (<["local" := VLocalProvider LocalProvider.default]>
       ({[ "provider" := VStr "local" ]} : gmap string pyval)) !! "provider"
    = Some (VStr (schema.ProviderEnum_value kind)).
Proof.
  apply (check_provider_keeps_document ProviderEnum_hasattr_members
           {[ "provider" := VStr "local" ]}
           (<["local" := VLocalProvider LocalProvider.default]>
              {[ "provider" := VStr "local" ]}) []).
  unfold check_provider. rewrite lookup_singleton_eq.
  replace (ProviderEnum_hasattr_members "local") with true by reflexivity.
  cbn [str_in existsb String.eqb Ascii.eqb Bool.eqb orb andb].
  rewrite lookup_singleton_ne by done.
  rewrite bool_decide_eq_false_2 by (intros [? ?]; done).
  cbn [negb]. vm_compute. reflexivity.
Defined.

(** X9. Selection run again on the document it returned changes nothing
    and warns as before, whenever the given document named a kind or had a
    block; a document with neither gets the kind local on the first pass
    and the block [LocalProvider()] only on the second. *)
Theorem check_provider_idempotent :
  ∀ (hasattr : string → bool) (data data' : gmap string pyval)
    (warnings : list message),
    (∀ kind, hasattr (schema.ProviderEnum_value kind) = true) →
    check_provider hasattr data = Ok (data', warnings) →
    (is_Some (data !! "provider") ∨ present_blocks data ≠ [] →
     check_provider hasattr data' = Ok (data', warnings))
    ∧ (data !! "provider" = None → present_blocks data = [] →
       check_provider hasattr data'
       = Ok (<["local" := VLocalProvider LocalProvider.default]> data', [])).
Proof.
  intros hasattr data data' warnings Hmembers.
  assert (Hexplicit : ∀ (d : gmap string pyval) provider block,
    d !! "provider" = Some (VStr provider) →
    hasattr provider = true →
    provider_enum_name_map_get provider = Ok block →
    (str_in provider ["local"; "existing"] = true → is_Some (d !! provider)) →
    check_provider hasattr d
    = Ok (d, match List.filter (fun p => negb (String.eqb p block)) (truthy_blocks d) with
             | [] => []
             | _ => [extra_provider_warning provider
                       (List.filter (fun p => negb (String.eqb p block))
                          (truthy_blocks d))]
             end)).
  { intros d provider block Hd Hhas Hget Hblock.
    rewrite (check_provider_explicit_ok hasattr d provider block Hd Hhas Hget).
    cbv zeta.
    assert (Hsame :
      (if str_in provider ["local"; "existing"]
          && negb (bool_decide (is_Some (d !! provider)))
       then <[provider := provider_enum_model_map_new provider]> d else d) = d).
    { destruct (str_in provider ["local"; "existing"]); [| done].
      by rewrite bool_decide_eq_true_2 by by apply Hblock. }
    by rewrite Hsame. }
  intros Hres. split.
  - intros Hsome. destruct (data !! "provider") as [v |] eqn:Hp.
    + destruct v as [| b | z | provider | l | d | m | m];
        try (unfold check_provider in Hres; rewrite Hp in Hres; done).
      destruct (hasattr provider) eqn:Hhas;
        [| unfold check_provider in Hres; rewrite Hp, Hhas in Hres; done].
      destruct (provider_enum_name_map_get provider) as [block | e] eqn:Hget;
        [| unfold check_provider in Hres; rewrite Hp, Hhas, Hget in Hres; done].
      rewrite (check_provider_explicit_ok hasattr data provider block Hp Hhas Hget)
        in Hres.
      cbv zeta in Hres.
      remember (if str_in provider ["local"; "existing"]
                   && negb (bool_decide (is_Some (data !! provider)))
                then <[provider := provider_enum_model_map_new provider]> data
                else data) as data1 eqn:Hdata1.
      injection Hres as <- <-.
      assert (Hd1 : data1 !! "provider" = Some (VStr provider)).
      { subst data1. case_match eqn:Hc; [| done].
        apply andb_true_iff in Hc as [Hc _]. rewrite lookup_insert_ne; [done |].
        intros ->. by vm_compute in Hc. }
      assert (Hb1 : str_in provider ["local"; "existing"] = true →
                    is_Some (data1 !! provider)).
      { intros Hin. subst data1. rewrite Hin. simpl.
        destruct (data !! provider) as [v |] eqn:Hv.
        - rewrite bool_decide_eq_true_2 by by eexists. simpl. rewrite Hv. by eexists.
        - rewrite bool_decide_eq_false_2 by (intros [? ?]; done). simpl.
          rewrite lookup_insert_eq. by eexists. }
      by apply Hexplicit.
    + destruct Hsome as [[? [=]] | Hblocks].
      destruct (present_blocks data) as [| p [| q l]] eqn:Hpresent;
        [done | | unfold check_provider in Hres; rewrite Hp, Hpresent in Hres; done].
      assert (Hp' : p ∈ present_blocks data) by (rewrite Hpresent; by constructor).
      apply present_blocks_spec in Hp' as [Hin Hsome].
      pose proof (block_names_not_provider p Hin) as Hnp.
      apply abbreviation_of_block in Hin as (kind & Hab & Hget & Hself).
      unfold check_provider in Hres. rewrite Hp, Hpresent, Hab in Hres.
      simpl in Hres. injection Hres as <- <-.
      rewrite (Hexplicit _ (schema.ProviderEnum_value kind) p).
      * f_equal. f_equal.
        assert (Hnone : List.filter (fun q => negb (String.eqb q p))
                          (truthy_blocks
                             (<["provider" := VStr (schema.ProviderEnum_value kind)]> data))
                        = []).
        { apply elem_of_nil_inv. intros q Hq.
          apply other_blocks_spec in Hq as [Hq Hqp].
          apply truthy_blocks_spec in Hq as (Hq & v & Hv & _).
          pose proof (block_names_not_provider q Hq) as Hqn.
          rewrite lookup_insert_ne in Hv by done.
          assert (Hq' : q ∈ present_blocks data).
          { apply present_blocks_spec. split; [done | by eexists]. }
          rewrite Hpresent in Hq'. apply list_elem_of_singleton in Hq'. done. }
        by rewrite Hnone.
      * by rewrite lookup_insert_eq.
      * apply Hmembers.
      * exact Hget.
      * intros Hin. rewrite <- (Hself Hin). by rewrite lookup_insert_ne.
  - intros Hp Hpresent. unfold check_provider in Hres.
    rewrite Hp, Hpresent in Hres. injection Hres as <- <-.
    rewrite (check_provider_explicit_ok hasattr _ "local" "local");
      [| by rewrite lookup_insert_eq | apply (Hmembers schema.local) | reflexivity].
    cbv zeta.
    assert (Hlocal : data !! "local" = None).
    { destruct (data !! "local") as [v |] eqn:Hv; [| done].
      assert (Hin : "local" ∈ present_blocks data).
      { apply present_blocks_spec. split; [by repeat constructor | by eexists]. }
      rewrite Hpresent in Hin. by apply elem_of_nil in Hin. }
    cbn [str_in existsb String.eqb Ascii.eqb Bool.eqb orb andb].
    rewrite lookup_insert_ne by done. rewrite Hlocal.
    rewrite bool_decide_eq_false_2 by (intros [? ?]; done). cbn [negb].
    assert (Hnone : List.filter (fun q => negb (String.eqb q "local"))
                      (truthy_blocks
                         (<["local" := provider_enum_model_map_new "local"]>
                            (<["provider" := VStr (schema.ProviderEnum_value schema.local)]>
                               data)))
                    = []).
    { apply elem_of_nil_inv. intros q Hq.
      apply other_blocks_spec in Hq as [Hq Hqp].
      apply truthy_blocks_spec in Hq as (Hq & v & Hv & _).
      pose proof (block_names_not_provider q Hq) as Hqn.
      rewrite !lookup_insert_ne in Hv by done.
      assert (Hq' : q ∈ present_blocks data).
      { apply present_blocks_spec. split; [done | by eexists]. }
      rewrite Hpresent in Hq'. by apply elem_of_nil in Hq'. }
    cbn [schema.ProviderEnum_value] in Hnone. rewrite Hnone. reflexivity.
Qed.

Lemma check_provider_idempotent_witness :
  check_provider ProviderEnum_hasattr_members aws_with_empty_local
  = Ok (aws_with_empty_local, []).
Proof.
  apply (check_provider_idempotent ProviderEnum_hasattr_members
           aws_with_empty_local aws_with_empty_local []).
  - intros kind. by destruct kind.
  - rewrite (check_provider_explicit_ok _ _ "aws" "amazon_web_services");
      [| reflexivity | reflexivity | reflexivity].
    vm_compute. reflexivity.
  - left. by eexists.
Defined.

(** ** Compilation of the variables *)

(** Case analysis on the computations of a sequence that has returned. *)
Ltac bind_inv H :=
  repeat match type of H with
         | context [mbind _ ?c] => destruct c eqn:?; simpl in H; try discriminate H
         end.

Lemma gcp_node_group_input_vars_Raise (item : string * GCPNodeGroup.t) (e : exn) :
  gcp_node_group_input_vars item = Raise e
  ↔ NodeGroup.taints (GCPNodeGroup.base item.2) = None
    ∧ e = TypeError "'NoneType' object is not iterable".
Proof.
  destruct item as [name ng]. unfold gcp_node_group_input_vars. simpl.
  destruct (NodeGroup.taints (GCPNodeGroup.base ng)); simpl; split.
  - done.
  - by intros [? _].
  - by intros [= <-].
  - by intros [_ ->].
Qed.

Lemma azure_node_group_input_vars_Raise (item : string * AzureNodeGroup.t) (e : exn) :
  azure_node_group_input_vars item = Raise e
  ↔ NodeGroup.taints (AzureNodeGroup.base item.2) = None
    ∧ e = TypeError "'NoneType' object is not iterable".
Proof.
  destruct item as [name ng]. unfold azure_node_group_input_vars. simpl.
  destruct (NodeGroup.taints (AzureNodeGroup.base ng)); simpl; split.
  - done.
  - by intros [? _].
  - by intros [= <-].
  - by intros [_ ->].
Qed.

Lemma aws_node_group_input_vars_Raise (item : string * AWSNodeGroup.t) (e : exn) :
  aws_node_group_input_vars item = Raise e
  ↔ NodeGroup.taints (AWSNodeGroup.base item.2) = None
    ∧ e = TypeError "'NoneType' object is not iterable".
Proof.
  destruct item as [name ng]. unfold aws_node_group_input_vars. simpl.
  destruct (AWSNodeGroup.gpu ng); simpl;
    (destruct (NodeGroup.taints (AWSNodeGroup.base ng)); simpl; split;
     [done | by intros [? _] | by intros [= <-] | by intros [_ ->]]).
Qed.

Lemma traverse_Raise_first {A B} (f : A → result B) (l : list A) (x : A) (e : exn) :
  x ∈ l → f x = Raise e →
  (∀ y e', y ∈ l → f y = Raise e' → e' = e) →
  traverse f l = Raise e.
Proof.
  intros Hin Hx Hsame. induction l as [| y l IH]; [by apply elem_of_nil in Hin |].
  simpl. destruct (f y) as [b | e'] eqn:Hy; simpl.
  - apply elem_of_cons in Hin as [-> | Hin]; [congruence |].
    rewrite IH; [done | done |].
    intros z e' Hz. apply Hsame, elem_of_cons. by right.
  - rewrite (Hsame y e'); [done | by apply elem_of_cons; left | done].
Qed.

(** X10. The variables of a kind whose block is missing cannot be
    compiled: [input_vars] raises an [AttributeError] on the first attribute
    it reads from the block; and that is the only way it raises one. *)
Theorem input_vars_missing_block :
  ∀ (kubeconfig_filename : string)
    (construct_azure_resource_group_name :
       string → string → option string → option string → string)
    (suffix : string) (config : Main.t),
    (∃ msg, input_vars kubeconfig_filename construct_azure_resource_group_name
              suffix config = Raise (AttributeError msg))
    ↔ match Main.provider config with
      | schema.local => Main.local config = None
      | schema.existing => Main.existing config = None
      | schema.gcp => Main.google_cloud_platform config = None
      | schema.azure => Main.azure config = None
      | schema.aws => Main.amazon_web_services config = None
      end.
Proof.
  intros kf car suffix config. unfold input_vars.
  destruct (Main.provider config).
  - destruct (Main.local config); simpl; split;
      [by intros [? ?] | done | done | by eexists].
  - destruct (Main.existing config) as [block |]; simpl; split;
      [| done | done | by eexists].
    intros [msg Hres]. by destruct (ExistingProvider.kube_context block).
  - destruct (Main.google_cloud_platform config) as [block |]; simpl; split;
      [| done | done | by eexists].
    intros [msg Hres].
    destruct (traverse gcp_node_group_input_vars _) as [ngs | e] eqn:Hngs;
      simpl in Hres.
    + bind_inv Hres.
      all: repeat match goal with
                  | H : required _ _ ?x = Raise _ |- _ => destruct x; simplify_eq/=
                  | H : dict_field _ _ ?x = Raise _ |- _ => destruct x; simplify_eq/=
                  end.
    + injection Hres as ->. apply traverse_Raise in Hngs as (item & _ & Hitem).
      by apply gcp_node_group_input_vars_Raise in Hitem as [_ ?].
  - destruct (Main.amazon_web_services config) as [block |]; simpl; split;
      [| done | done | by eexists].
    intros [msg Hres].
    destruct (traverse aws_node_group_input_vars _) as [ngs | e] eqn:Hngs;
      simpl in Hres.
    + bind_inv Hres.
      all: repeat match goal with
                  | H : required _ _ ?x = Raise _ |- _ => destruct x; simplify_eq/=
                  end.
    + injection Hres as ->. apply traverse_Raise in Hngs as (item & _ & Hitem).
      by apply aws_node_group_input_vars_Raise in Hitem as [_ ?].
  - destruct (Main.azure config) as [block |]; simpl; split;
      [| done | done | by eexists].
    intros [msg Hres].
    destruct (traverse azure_node_group_input_vars _) as [ngs | e] eqn:Hngs;
      simpl in Hres.
    + bind_inv Hres.
      all: repeat match goal with
                  | H : required _ _ ?x = Raise _ |- _ => destruct x; simplify_eq/=
                  end.
    + injection Hres as ->. apply traverse_Raise in Hngs as (item & _ & Hitem).
      by apply azure_node_group_input_vars_Raise in Hitem as [_ ?].
Qed.

Lemma input_vars_missing_block_witness :
  ∃ msg, input_vars "/tmp/NEBARI_KUBECONFIG" sample_construct_azure_resource_group_name
           "-node-resource-group" empty_document_config = Raise (AttributeError msg).
Proof.
  apply (input_vars_missing_block "/tmp/NEBARI_KUBECONFIG"
           sample_construct_azure_resource_group_name "-node-resource-group"
           empty_document_config).
  reflexivity.
Defined.

(** X11. [input_vars] raises a [TypeError] exactly for a cloud whose block
    is there and has a node group with unset taints: the taints are
    iterated before any other field is validated. *)
Theorem input_vars_unset_taints :
  ∀ (kubeconfig_filename : string)
    (construct_azure_resource_group_name :
       string → string → option string → option string → string)
    (suffix : string) (config : Main.t),
    input_vars kubeconfig_filename construct_azure_resource_group_name suffix config
    = Raise (TypeError "'NoneType' object is not iterable")
    ↔ match Main.provider config with
      | schema.gcp =>
          ∃ block item,
            Main.google_cloud_platform config = Some block
            ∧ item ∈ GoogleCloudPlatformProvider.node_groups block
            ∧ NodeGroup.taints (GCPNodeGroup.base item.2) = None
      | schema.azure =>
          ∃ block item,
            Main.azure config = Some block
            ∧ item ∈ AzureProvider.node_groups block
            ∧ NodeGroup.taints (AzureNodeGroup.base item.2) = None
      | schema.aws =>
          ∃ block item,
            Main.amazon_web_services config = Some block
            ∧ item ∈ AmazonWebServicesProvider.node_groups block
            ∧ NodeGroup.taints (AWSNodeGroup.base item.2) = None
      | _ => False
      end.
Proof.
  intros kf car suffix config. unfold input_vars.
  destruct (Main.provider config).
  - by destruct (Main.local config).
  - destruct (Main.existing config) as [block |]; simpl; [| done].
    by destruct (ExistingProvider.kube_context block).
  - destruct (Main.google_cloud_platform config) as [block |]; simpl;
      [| split; [done | by intros (? & ? & ? & _)]].
    split.
    + intros Hres.
      destruct (traverse gcp_node_group_input_vars _) as [ngs | e] eqn:Hngs;
        simpl in Hres.
      * bind_inv Hres.
        all: repeat match goal with
                    | H : required _ _ ?x = Raise _ |- _ => destruct x; simplify_eq/=
                    | H : dict_field _ _ ?x = Raise _ |- _ => destruct x; simplify_eq/=
                    end.
      * apply traverse_Raise in Hngs as (item & Hin & Hitem).
        apply gcp_node_group_input_vars_Raise in Hitem as [Hnone _].
        by exists block, item.
    + intros (block' & item & [= <-] & Hin & Hnone).
      rewrite (traverse_Raise_first gcp_node_group_input_vars _ item
                 (TypeError "'NoneType' object is not iterable")); [done | done | |].
      * by apply gcp_node_group_input_vars_Raise.
      * intros y e' _ Hy. by apply gcp_node_group_input_vars_Raise in Hy as [_ ->].
  - destruct (Main.amazon_web_services config) as [block |]; simpl;
      [| split; [done | by intros (? & ? & ? & _)]].
    split.
    + intros Hres.
      destruct (traverse aws_node_group_input_vars _) as [ngs | e] eqn:Hngs;
        simpl in Hres.
      * bind_inv Hres.
        all: repeat match goal with
                    | H : required _ _ ?x = Raise _ |- _ => destruct x; simplify_eq/=
                    end.
      * apply traverse_Raise in Hngs as (item & Hin & Hitem).
        apply aws_node_group_input_vars_Raise in Hitem as [Hnone _].
        by exists block, item.
    + intros (block' & item & [= <-] & Hin & Hnone).
      rewrite (traverse_Raise_first aws_node_group_input_vars _ item
                 (TypeError "'NoneType' object is not iterable")); [done | done | |].
      * by apply aws_node_group_input_vars_Raise.
      * intros y e' _ Hy. by apply aws_node_group_input_vars_Raise in Hy as [_ ->].
  - destruct (Main.azure config) as [block |]; simpl;
      [| split; [done | by intros (? & ? & ? & _)]].
    split.
    + intros Hres.
      destruct (traverse azure_node_group_input_vars _) as [ngs | e] eqn:Hngs;
        simpl in Hres.
      * bind_inv Hres.
        all: repeat match goal with
                    | H : required _ _ ?x = Raise _ |- _ => destruct x; simplify_eq/=
                    end.
      * apply traverse_Raise in Hngs as (item & Hin & Hitem).
        apply azure_node_group_input_vars_Raise in Hitem as [Hnone _].
        by exists block, item.
    + intros (block' & item & [= <-] & Hin & Hnone).
      rewrite (traverse_Raise_first azure_node_group_input_vars _ item
                 (TypeError "'NoneType' object is not iterable")); [done | done | |].
      * by apply azure_node_group_input_vars_Raise.
      * intros y e' _ Hy. by apply azure_node_group_input_vars_Raise in Hy as [_ ->].
Qed.

Lemma input_vars_unset_taints_witness :
  input_vars "/tmp/NEBARI_KUBECONFIG" sample_construct_azure_resource_group_name
    "-node-resource-group" aws_unset_taints_config
  = Raise (TypeError "'NoneType' object is not iterable").
Proof.
  apply (input_vars_unset_taints "/tmp/NEBARI_KUBECONFIG"
           sample_construct_azure_resource_group_name "-node-resource-group"
           aws_unset_taints_config).
  eexists _, ("general", new_aws_node_group "m5.2xlarge" 1 1).
  split; [reflexivity |]. split; [by constructor | reflexivity].
Defined.

(** X12. The record [input_vars] returns is the one of the provider kind,
    never another; it carries the default kubeconfig filename; for a local
    or existing cluster the context of the block; for Azure the two
    resource group names built from the same base, without and with the
    suffix; the image type of GCP is UBUNTU_CONTAINERD exactly for cephfs
    storage and EFS is enabled on AWS exactly for efs storage. *)
Theorem input_vars_kind :
  ∀ (kubeconfig_filename : string)
    (construct_azure_resource_group_name :
       string → string → option string → option string → string)
    (suffix : string) (config : Main.t) (compiled : InputVars),
    input_vars kubeconfig_filename construct_azure_resource_group_name suffix config
    = Ok compiled →
    match compiled with
    | LocalVars v =>
        Main.provider config = schema.local
        ∧ LocalInputVars.kubeconfig_filename v = kubeconfig_filename
        ∧ ∃ block, Main.local config = Some block
                   ∧ LocalInputVars.kube_context v = LocalProvider.kube_context block
    | ExistingVars v =>
        Main.provider config = schema.existing
        ∧ ∃ block, Main.existing config = Some block
                   ∧ ExistingProvider.kube_context block
                     = Some (ExistingInputVars.kube_context v)
    | GCPVars v =>
        Main.provider config = schema.gcp
        ∧ GCPInputVars.kubeconfig_filename v = kubeconfig_filename
        ∧ GCPInputVars.name v = Main.escaped_project_name config
        ∧ GCPInputVars.environment v = Main.namespace config
        ∧ (GCPInputVars.node_group_image_type v = UBUNTU_CONTAINERD
           ↔ Main.storage_type config = cephfs)
    | AzureVars v =>
        Main.provider config = schema.azure
        ∧ AzureInputVars.kubeconfig_filename v = kubeconfig_filename
        ∧ AzureInputVars.name v = Main.escaped_project_name config
        ∧ AzureInputVars.environment v = Main.namespace config
        ∧ ∃ block,
            Main.azure config = Some block
            ∧ AzureInputVars.resource_group_name v
              = construct_azure_resource_group_name (Main.project_name config)
                  (Main.namespace config) (AzureProvider.resource_group_name block)
                  None
            ∧ AzureInputVars.node_resource_group_name v
              = construct_azure_resource_group_name (Main.project_name config)
                  (Main.namespace config) (AzureProvider.resource_group_name block)
                  (Some suffix)
    | AWSVars v =>
        Main.provider config = schema.aws
        ∧ AWSInputVars.kubeconfig_filename v = kubeconfig_filename
        ∧ AWSInputVars.name v = Main.escaped_project_name config
        ∧ AWSInputVars.environment v = Main.namespace config
        ∧ (AWSInputVars.efs_enabled v = true ↔ Main.storage_type config = efs)
    end.
Proof.
  intros kf car suffix config compiled Hres. unfold input_vars in Hres.
  destruct (Main.provider config) eqn:Hp.
  - destruct (Main.local config) as [block |] eqn:Hb; simpl in Hres; [| done].
    injection Hres as <-. split_and!; try done. by exists block.
  - destruct (Main.existing config) as [block |] eqn:Hb; simpl in Hres; [| done].
    destruct (ExistingProvider.kube_context block) as [context |] eqn:Hc;
      simpl in Hres; [| done].
    injection Hres as <-. split; [done |]. by exists block.
  - destruct (Main.google_cloud_platform config) as [block |] eqn:Hb;
      simpl in Hres; [| done].
    bind_inv Hres. injection Hres as <-. split_and!; try done. simpl.
    by destruct (Main.storage_type config).
  - destruct (Main.amazon_web_services config) as [block |] eqn:Hb;
      simpl in Hres; [| done].
    bind_inv Hres. injection Hres as <-. split_and!; try done. simpl.
    by destruct (Main.storage_type config).
  - destruct (Main.azure config) as [block |] eqn:Hb; simpl in Hres; [| done].
    bind_inv Hres. injection Hres as <-. split_and!; try done. by exists block.
Qed.

Lemma input_vars_kind_witness :
  Main.provider sample_existing_config = schema.existing
  ∧ ∃ block, Main.existing sample_existing_config = Some block
             ∧ ExistingProvider.kube_context block = Some "kind".
Proof.
  exact (input_vars_kind "/tmp/NEBARI_KUBECONFIG"
           sample_construct_azure_resource_group_name "-node-resource-group"
           sample_existing_config
           (ExistingVars {| ExistingInputVars.kube_context := "kind" |}) eq_refl).
Defined.

(** X13. The node groups of the compiled record are those of the block,
    one for one and in its order: each has the name, the instance and the
    bounds of its group and the converted form of its taints; on AWS the
    desired size is the minimum. *)
Theorem input_vars_node_groups :
  ∀ (kubeconfig_filename : string)
    (construct_azure_resource_group_name :
       string → string → option string → option string → string)
    (suffix : string) (config : Main.t),
    let compiled :=
      input_vars kubeconfig_filename construct_azure_resource_group_name suffix
        config in
    (∀ v, compiled = Ok (GCPVars v) →
       ∃ block,
         Main.google_cloud_platform config = Some block
         ∧ Forall2
             (fun item ng =>
                GCPNodeGroupInputVars.name ng = item.1
                ∧ GCPNodeGroupInputVars.instance_type ng
                  = NodeGroup.instance (GCPNodeGroup.base item.2)
                ∧ GCPNodeGroupInputVars.min_size ng
                  = NodeGroup.min_nodes (GCPNodeGroup.base item.2)
                ∧ GCPNodeGroupInputVars.max_size ng
                  = NodeGroup.max_nodes (GCPNodeGroup.base item.2)
                ∧ convert_taints (NodeGroup.taints (GCPNodeGroup.base item.2))
                  = Ok (GCPNodeGroupInputVars.node_taints ng))
             (GoogleCloudPlatformProvider.node_groups block)
             (GCPInputVars.node_groups v))
    ∧ (∀ v, compiled = Ok (AzureVars v) →
         ∃ block,
           Main.azure config = Some block
           ∧ Forall2
               (fun item ng =>
                  ng.1 = item.1
                  ∧ AzureNodeGroupInputVars.instance ng.2
                    = NodeGroup.instance (AzureNodeGroup.base item.2)
                  ∧ AzureNodeGroupInputVars.min_nodes ng.2
                    = NodeGroup.min_nodes (AzureNodeGroup.base item.2)
                  ∧ AzureNodeGroupInputVars.max_nodes ng.2
                    = NodeGroup.max_nodes (AzureNodeGroup.base item.2)
                  ∧ azure_convert_taints (NodeGroup.taints (AzureNodeGroup.base item.2))
                    = Ok (AzureNodeGroupInputVars.node_taints ng.2))
               (AzureProvider.node_groups block)
               (AzureInputVars.node_groups v))
    ∧ (∀ v, compiled = Ok (AWSVars v) →
         ∃ block,
           Main.amazon_web_services config = Some block
           ∧ Forall2
               (fun item ng =>
                  AWSNodeGroupInputVars.name ng = item.1
                  ∧ AWSNodeGroupInputVars.instance_type ng
                    = NodeGroup.instance (AWSNodeGroup.base item.2)
                  ∧ AWSNodeGroupInputVars.min_size ng
                    = NodeGroup.min_nodes (AWSNodeGroup.base item.2)
                  ∧ AWSNodeGroupInputVars.desired_size ng
                    = AWSNodeGroupInputVars.min_size ng
                  ∧ AWSNodeGroupInputVars.max_size ng
                    = NodeGroup.max_nodes (AWSNodeGroup.base item.2)
                  ∧ convert_taints (NodeGroup.taints (AWSNodeGroup.base item.2))
                    = Ok (AWSNodeGroupInputVars.node_taints ng))
               (AmazonWebServicesProvider.node_groups block)
               (AWSInputVars.node_groups v)).
Proof.
  intros kf car suffix config compiled. subst compiled. unfold input_vars.
  split_and!; intros v Hres.
  - destruct (Main.provider config);
      try (by destruct (Main.local config)); try (by bind_inv Hres).
    destruct (Main.google_cloud_platform config) as [block |]; simpl in Hres; [| done].
    destruct (traverse gcp_node_group_input_vars _) as [ngs |] eqn:Hngs;
      simpl in Hres; [| done].
    bind_inv Hres. injection Hres as <-. exists block. split; [done |]. simpl.
    apply traverse_Ok_Forall2 in Hngs.
    eapply Forall2_impl; [exact Hngs |]. intros [name ng] out.
    unfold gcp_node_group_input_vars. simpl.
    destruct (NodeGroup.taints (GCPNodeGroup.base ng)); simpl; [| done].
    by intros [= <-].
  - destruct (Main.provider config);
      try (by destruct (Main.local config)); try (by bind_inv Hres).
    destruct (Main.azure config) as [block |]; simpl in Hres; [| done].
    destruct (traverse azure_node_group_input_vars _) as [ngs |] eqn:Hngs;
      simpl in Hres; [| done].
    bind_inv Hres. injection Hres as <-. exists block. split; [done |]. simpl.
    apply traverse_Ok_Forall2 in Hngs.
    eapply Forall2_impl; [exact Hngs |]. intros [name ng] out.
    unfold azure_node_group_input_vars. simpl.
    destruct (NodeGroup.taints (AzureNodeGroup.base ng)); simpl; [| done].
    by intros [= <-].
  - destruct (Main.provider config);
      try (by destruct (Main.local config)); try (by bind_inv Hres).
    destruct (Main.amazon_web_services config) as [block |]; simpl in Hres; [| done].
    destruct (traverse aws_node_group_input_vars _) as [ngs |] eqn:Hngs;
      simpl in Hres; [| done].
    bind_inv Hres. injection Hres as <-. exists block. split; [done |]. simpl.
    apply traverse_Ok_Forall2 in Hngs.
    eapply Forall2_impl; [exact Hngs |]. intros [name ng] out.
    unfold aws_node_group_input_vars. simpl.
    destruct (AWSNodeGroup.gpu ng); simpl;
      (destruct (NodeGroup.taints (AWSNodeGroup.base ng)); simpl; [| done];
       by intros [= <-]).
Qed.

Lemma input_vars_node_groups_witness :
  ∃ v,
    input_vars "/tmp/NEBARI_KUBECONFIG" sample_construct_azure_resource_group_name
      "-node-resource-group" sample_aws_config = Ok (AWSVars v)
    ∧ ∃ block,
        Main.amazon_web_services sample_aws_config = Some block
        ∧ Forall2
            (fun item ng =>
               AWSNodeGroupInputVars.name ng = item.1
               ∧ AWSNodeGroupInputVars.instance_type ng
                 = NodeGroup.instance (AWSNodeGroup.base item.2)
               ∧ AWSNodeGroupInputVars.min_size ng
                 = NodeGroup.min_nodes (AWSNodeGroup.base item.2)
               ∧ AWSNodeGroupInputVars.desired_size ng
                 = AWSNodeGroupInputVars.min_size ng
               ∧ AWSNodeGroupInputVars.max_size ng
                 = NodeGroup.max_nodes (AWSNodeGroup.base item.2)
               ∧ convert_taints (NodeGroup.taints (AWSNodeGroup.base item.2))
                 = Ok (AWSNodeGroupInputVars.node_taints ng))
            (AmazonWebServicesProvider.node_groups block)
            (AWSInputVars.node_groups v).
Proof.
  eexists. split; [reflexivity |].
  apply (input_vars_node_groups "/tmp/NEBARI_KUBECONFIG"
           sample_construct_azure_resource_group_name "-node-resource-group"
           sample_aws_config).
  reflexivity.
Defined.

(** ** Validation of the GCP block *)





(** ** Validation of the AWS block *)

Lemma String_compare_le_trans (a b c : string) :
  String.compare a b ≠ Gt → String.compare b c ≠ Gt → String.compare a c ≠ Gt.
Proof.
  revert b c. induction a as [| x a IH]; intros [| y b] [| z c]; simpl; try done.
  unfold Ascii.compare.
  destruct (N.compare_spec (N_of_ascii x) (N_of_ascii y)) as [Hxy | Hxy | Hxy];
    destruct (N.compare_spec (N_of_ascii y) (N_of_ascii z)) as [Hyz | Hyz | Hyz];
    destruct (N.compare_spec (N_of_ascii x) (N_of_ascii z)) as [Hxz | Hxz | Hxz];
    try done; try lia.
  apply IH.
Qed.

Lemma String_leb_trans (a b c : string) :
  String.leb a b = true → String.leb b c = true → String.leb a c = true.
Proof.
  unfold String.leb. intros Hab Hbc.
  pose proof (String_compare_le_trans a b c) as Htrans.
  destruct (String.compare a b), (String.compare b c), (String.compare a c);
    try done; exfalso; by apply Htrans.
Qed.

Lemma insert_sorted_Permutation (x : string) (l : list string) :
  insert_sorted x l ≡ₚ x :: l.
Proof.
  induction l as [| y l IH]; simpl; [done |].
  destruct (String.leb x y); [done |]. rewrite IH. apply Permutation_swap.
Qed.

Lemma sorted_Permutation (l : list string) : sorted l ≡ₚ l.
Proof.
  unfold sorted. induction l as [| x l IH]; simpl; [done |].
  by rewrite insert_sorted_Permutation, IH.
Qed.

Lemma insert_sorted_StronglySorted (x : string) (l : list string) :
  StronglySorted (fun a b => String.leb a b = true) l →
  StronglySorted (fun a b => String.leb a b = true) (insert_sorted x l).
Proof.
  induction 1 as [| y l Hl IH Hy]; simpl.
  - repeat constructor.
  - destruct (String.leb x y) eqn:Hxy.
    + constructor; [by constructor |]. constructor; [done |].
      eapply Forall_impl; [exact Hy |]. intros z Hz. simpl in Hz.
      by apply (String_leb_trans x y z).
    + constructor; [done |].
      rewrite insert_sorted_Permutation. constructor; [| done].
      destruct (String.leb_total x y) as [? | ?]; [congruence | done].
Qed.

Lemma sorted_StronglySorted (l : list string) :
  StronglySorted (fun a b => String.leb a b = true) (sorted l).
Proof.
  unfold sorted. induction l as [| x l IH]; simpl; [constructor |].
  by apply insert_sorted_StronglySorted.
Qed.

(** X15. The zones chosen for an AWS block that has no
    [availability_zones] key: the first two of the region's zones in
    ascending order, or all of them if there are fewer; every other zone of
    the region comes after them. *)
Theorem aws_default_availability_zones :
  ∀ (available_zones : list string),
  ∃ zones rest,
    aws_check_availability_zones available_zones None = Ok zones
    ∧ length zones = Nat.min 2 (length available_zones)
    ∧ zones ++ rest ≡ₚ available_zones
    ∧ StronglySorted (fun a b => String.leb a b = true) (zones ++ rest).
Proof.
  intros available_zones.
  exists (take 2 (sorted available_zones)), (drop 2 (sorted available_zones)).
  split_and!.
  - reflexivity.
  - rewrite length_take. by rewrite (Permutation_length (sorted_Permutation _)).
  - rewrite take_drop. apply sorted_Permutation.
  - rewrite take_drop. apply sorted_StronglySorted.
Qed.

Lemma aws_check_availability_zones_Ok (available : list string)
    (given : option (option (list string))) (zones : list string) :
  aws_check_availability_zones available given = Ok zones →
  (∀ zone, zone ∈ zones → zone ∈ available)
  ∧ (∀ zs, given = Some (Some zs) → zones = zs)
  ∧ aws_check_availability_zones available (Some (Some zones)) = Ok zones.
Proof.
  assert (Hmembers : ∀ zs : list string,
    (∀ zone, zone ∈ zs → zone ∈ available) →
    aws_check_availability_zones available (Some (Some zs)) = Ok zs).
  { intros zs Hall. unfold aws_check_availability_zones.
    pose proof (traverse_is_ok
                  (fun zone => if negb (str_in zone available)
                               then Raise (aws_zone_error zone available)
                               else Ok tt) zs) as Ht.
    destruct (traverse _ zs) as [units | e]; simpl; [done |].
    assert (false = true); [| done]. apply Ht. intros zone Hin.
    apply Hall, str_in_spec in Hin. by rewrite Hin. }
  unfold aws_check_availability_zones at 1.
  destruct given as [[zs |] |]; [| done |].
  - pose proof (traverse_is_ok
                  (fun zone => if negb (str_in zone available)
                               then Raise (aws_zone_error zone available)
                               else Ok tt) zs) as Ht.
    destruct (traverse _ zs) as [units | e]; simpl; [| done].
    intros [= <-].
    assert (Hall : ∀ zone, zone ∈ zs → zone ∈ available).
    { intros zone Hin. apply str_in_spec.
      assert (Hok := proj1 Ht eq_refl zone Hin). simpl in Hok.
      by destruct (str_in zone available). }
    split_and!; [done | by intros ? [= <-] | by apply Hmembers].
  - intros [= <-].
    assert (Hall : ∀ zone, zone ∈ take 2 (sorted available) → zone ∈ available).
    { intros zone Hin. rewrite <- (sorted_Permutation available).
      by apply (subseteq_take 2 (sorted available)). }
    split_and!; [done | done | by apply Hmembers].
Qed.

Lemma aws_check_kubernetes_version_Ok (available : list string)
    (given : option string) (version : string) :
  aws_check_kubernetes_version available given = Ok version →
  version ∈ available
  ∧ (∀ v, given = Some v → version = v)
  ∧ aws_check_kubernetes_version available (Some version) = Ok version.
Proof.
  assert (Hmember : ∀ v, v ∈ available →
    aws_check_kubernetes_version available (Some v) = Ok v).
  { intros v Hv. unfold aws_check_kubernetes_version.
    destruct available as [| a l]; [by apply elem_of_nil in Hv |].
    cbn [length Nat.eqb]. apply str_in_spec in Hv. by rewrite Hv. }
  unfold aws_check_kubernetes_version at 1.
  destruct available as [| a l]; [done |]. cbn [length Nat.eqb].
  destruct given as [v |].
  - destruct (str_in v (a :: l)) eqn:Hv; simpl; [| done].
    intros [= <-]. apply str_in_spec in Hv.
    split_and!; [done | by intros ? [= <-] | by apply Hmember].
  - unfold last_item. destruct (last (a :: l)) as [v |] eqn:Hlast; [| done].
    intros [= <-].
    assert (Hv : v ∈ a :: l).
    { apply last_Some in Hlast as [l' ->]. apply elem_of_app. right. by constructor. }
    split_and!; [done | done | by apply Hmember].
Qed.

(** X16. What validation of the AWS block settles: on success the
    credentials check has passed, the region is one the inventory lists,
    the block has a version that is on offer and zones that are all zones
    of the region (those given, if any were, and the same for the version),
    and region, node groups and key are as given. *)
Theorem aws_check_input_settles :
  ∀ (inventory : amazon_web_services.t) (data data' : aws_data.t),
    aws_check_input inventory data = Ok data' →
    amazon_web_services.check_credentials inventory = Ok tt
    ∧ ∃ region version zones,
        aws_data.region data = Some region
        ∧ region ∈ amazon_web_services.regions inventory region
        ∧ aws_data.kubernetes_version data' = Some (Some version)
        ∧ version ∈ amazon_web_services.kubernetes_versions inventory region
        ∧ (∀ v, aws_data.kubernetes_version data = Some (Some v) → version = v)
        ∧ aws_data.availability_zones data' = Some (Some zones)
        ∧ (∀ zone, zone ∈ zones → zone ∈ amazon_web_services.zones inventory region)
        ∧ (∀ zs, aws_data.availability_zones data = Some (Some zs) → zones = zs)
        ∧ aws_data.region data' = aws_data.region data
        ∧ aws_data.node_groups data' = aws_data.node_groups data
        ∧ aws_data.eks_kms_arn data' = aws_data.eks_kms_arn data.
Proof.
  intros inventory data data'. unfold aws_check_input.
  destruct (amazon_web_services.check_credentials inventory) as [[] | e]; simpl;
    [| done].
  destruct (aws_data.region data) as [region |]; simpl; [| done].
  destruct (str_in region (amazon_web_services.regions inventory region)) eqn:Hregion;
    simpl; [| done].
  destruct (length (amazon_web_services.kubernetes_versions inventory region) =? 0)%nat;
    [done |].
  destruct (aws_data.kubernetes_version data) as [given |]; simpl; [| done].
  destruct (aws_check_kubernetes_version _ given) as [version | e] eqn:Hversion;
    simpl; [| done].
  destruct (aws_check_availability_zones _ _) as [zones | e] eqn:Hzones;
    simpl; [| done].
  destruct (match aws_data.node_groups data with
            | Some node_groups => traverse _ node_groups
            | None => Ok []
            end) as [units | e]; simpl; [| done].
  destruct (aws_check_kms_key _ _) as [[] | e]; simpl; [| done].
  intros [= <-]. split; [done |]. exists region, version, zones. simpl.
  apply aws_check_kubernetes_version_Ok in Hversion as (Hv & Hgiven & _).
  apply aws_check_availability_zones_Ok in Hzones as (Hz & Hzs & _).
  split_and!; try done.
  - by apply str_in_spec.
  - intros v [= ->]. by apply Hgiven.
Qed.

Lemma aws_check_input_settles_witness :
  amazon_web_services.check_credentials
    {| amazon_web_services.check_credentials := Ok tt;
       amazon_web_services.regions := fun _ => ["us-west-2"];
       amazon_web_services.kubernetes_versions := fun _ => ["1.29"; "1.30"];
       amazon_web_services.zones := fun _ => ["us-west-2c"; "us-west-2a"; "us-west-2b"];
       amazon_web_services.instances := fun _ => ["m5.xlarge"];
       amazon_web_services.kms_key_arns := fun _ => [] |}
  = Ok tt.
Proof.
  apply (aws_check_input_settles
           {| amazon_web_services.check_credentials := Ok tt;
              amazon_web_services.regions := fun _ => ["us-west-2"];
              amazon_web_services.kubernetes_versions := fun _ => ["1.29"; "1.30"];
              amazon_web_services.zones :=
                fun _ => ["us-west-2c"; "us-west-2a"; "us-west-2b"];
              amazon_web_services.instances := fun _ => ["m5.xlarge"];
              amazon_web_services.kms_key_arns := fun _ => [] |}
           {| aws_data.region := Some "us-west-2";
              aws_data.kubernetes_version := Some None;
              aws_data.availability_zones := None;
              aws_data.node_groups := Some [("general", RawMapping (Some "m5.xlarge"))];
              aws_data.eks_kms_arn := None |}
           {| aws_data.region := Some "us-west-2";
              aws_data.kubernetes_version := Some (Some "1.30");
              aws_data.availability_zones := Some (Some ["us-west-2a"; "us-west-2b"]);
              aws_data.node_groups := Some [("general", RawMapping (Some "m5.xlarge"))];
              aws_data.eks_kms_arn := None |}).
  vm_compute. reflexivity.
Defined.

(** X17. Validation of the AWS block is a fixed point on what it returns:
    the block it has settled passes again and comes back the same. *)
Theorem aws_check_input_fixed_point :
  ∀ (inventory : amazon_web_services.t) (data data' : aws_data.t),
    aws_check_input inventory data = Ok data' →
    aws_check_input inventory data' = Ok data'.
Proof.
  intros inventory data data'. unfold aws_check_input.
  destruct (amazon_web_services.check_credentials inventory) as [[] | e]; simpl;
    [| done].
  destruct (aws_data.region data) as [region |] eqn:Hr; simpl; [| done].
  destruct (str_in region (amazon_web_services.regions inventory region)) eqn:Hregion;
    simpl; [| done].
  destruct (length (amazon_web_services.kubernetes_versions inventory region) =? 0)%nat
    eqn:Hlen; [done |].
  destruct (aws_data.kubernetes_version data) as [given |]; simpl; [| done].
  destruct (aws_check_kubernetes_version _ given) as [version | e] eqn:Hversion;
    simpl; [| done].
  destruct (aws_check_availability_zones _ _) as [zones | e] eqn:Hzones;
    simpl; [| done].
  destruct (match aws_data.node_groups data with
            | Some node_groups => traverse _ node_groups
            | None => Ok []
            end) as [units | e] eqn:Hgroups; simpl; [| done].
  destruct (aws_check_kms_key _ _) as [[] | e] eqn:Hkms; simpl; [| done].
  apply aws_check_kubernetes_version_Ok in Hversion as (_ & _ & Hversion).
  apply aws_check_availability_zones_Ok in Hzones as (_ & _ & Hzones).
  intros [= <-].
  cbn -[aws_check_kubernetes_version aws_check_availability_zones aws_check_kms_key].
  rewrite Hregion.
  cbn -[aws_check_kubernetes_version aws_check_availability_zones aws_check_kms_key].
  rewrite Hlen, Hversion.
  cbn -[aws_check_kubernetes_version aws_check_availability_zones aws_check_kms_key].
  rewrite Hzones.
  cbn -[aws_check_kubernetes_version aws_check_availability_zones aws_check_kms_key].
  rewrite Hgroups.
  cbn -[aws_check_kubernetes_version aws_check_availability_zones aws_check_kms_key].
  by rewrite Hkms.
Qed.

Lemma aws_check_input_fixed_point_witness :
  aws_check_input
    {| amazon_web_services.check_credentials := Ok tt;
       amazon_web_services.regions := fun _ => ["us-west-2"];
       amazon_web_services.kubernetes_versions := fun _ => ["1.29"; "1.30"];
       amazon_web_services.zones := fun _ => ["us-west-2c"; "us-west-2a"; "us-west-2b"];
       amazon_web_services.instances := fun _ => ["m5.xlarge"];
       amazon_web_services.kms_key_arns := fun _ => [] |}
    {| aws_data.region := Some "us-west-2";
       aws_data.kubernetes_version := Some (Some "1.30");
       aws_data.availability_zones := Some (Some ["us-west-2a"; "us-west-2b"]);
       aws_data.node_groups := Some [("general", RawMapping (Some "m5.xlarge"))];
       aws_data.eks_kms_arn := None |}
  = Ok {| aws_data.region := Some "us-west-2";
          aws_data.kubernetes_version := Some (Some "1.30");
          aws_data.availability_zones := Some (Some ["us-west-2a"; "us-west-2b"]);
          aws_data.node_groups := Some [("general", RawMapping (Some "m5.xlarge"))];
          aws_data.eks_kms_arn := None |}.
Proof.
  apply (aws_check_input_fixed_point
           {| amazon_web_services.check_credentials := Ok tt;
              amazon_web_services.regions := fun _ => ["us-west-2"];
              amazon_web_services.kubernetes_versions := fun _ => ["1.29"; "1.30"];
              amazon_web_services.zones :=
                fun _ => ["us-west-2c"; "us-west-2a"; "us-west-2b"];
              amazon_web_services.instances := fun _ => ["m5.xlarge"];
              amazon_web_services.kms_key_arns := fun _ => [] |}
           {| aws_data.region := Some "us-west-2";
              aws_data.kubernetes_version := Some None;
              aws_data.availability_zones := None;
              aws_data.node_groups := Some [("general", RawMapping (Some "m5.xlarge"))];
              aws_data.eks_kms_arn := None |}).
  vm_compute. reflexivity.
Defined.

(** X18. A node group of a raw AWS block that is a mapping never gets the
    error that names its instance: when the credentials are good and every
    node group is a mapping, whatever validation raises is not that
    [ValueError]; and on a block that passes without its node groups, a
    mapping with an instance the region does not offer raises an
    [AttributeError] instead. *)
Theorem aws_check_input_instance_error :
  ∀ (inventory : amazon_web_services.t) (data : aws_data.t)
    (node_groups : list (string * raw_node_group)),
    amazon_web_services.check_credentials inventory = Ok tt →
    aws_data.node_groups data = Some node_groups →
    Forall (fun item => ∃ instance, item.2 = RawMapping (Some instance)) node_groups →
    (∀ instance available,
       aws_check_input inventory data
       ≠ Raise (ValueError
                  [ Lit "Amazon Web Services instance "; Str instance;
                    Lit " not one of available instance types=";
                    StrList available ]))
    ∧ (∀ region name instance,
         is_ok (aws_check_input inventory
                  {| aws_data.region := aws_data.region data;
                     aws_data.kubernetes_version := aws_data.kubernetes_version data;
                     aws_data.availability_zones := aws_data.availability_zones data;
                     aws_data.node_groups := None;
                     aws_data.eks_kms_arn := aws_data.eks_kms_arn data |}) = true →
         aws_data.region data = Some region →
         (name, RawMapping (Some instance)) ∈ node_groups →
         instance ∉ amazon_web_services.instances inventory region →
         aws_check_input inventory data
         = Raise (AttributeError "'dict' object has no attribute 'instance'")).
Proof.
  intros inventory data node_groups Hcred Hgroups Hmappings.
  assert (Hitem : ∀ available item e,
    item ∈ node_groups → aws_check_instance available item = Raise e →
    e = AttributeError "'dict' object has no attribute 'instance'").
  { intros available item e Hin Hres.
    apply (proj1 (Forall_forall _ _) Hmappings) in Hin as [instance Hinstance].
    unfold aws_check_instance in Hres. rewrite Hinstance in Hres. simpl in Hres.
    destruct (str_in instance available); simpl in Hres; [done |].
    by injection Hres as <-. }
  split.
  - intros instance available. unfold aws_check_input. rewrite Hcred, Hgroups. simpl.
    destruct (aws_data.region data) as [region |]; simpl; [| done].
    destruct (str_in region _); simpl; [| done].
    destruct (length (amazon_web_services.kubernetes_versions inventory region) =? 0)%nat
      eqn:Hlen; [done |].
    destruct (aws_data.kubernetes_version data) as [given |]; simpl; [| done].
    destruct (aws_check_kubernetes_version _ given) as [version | e] eqn:Hversion;
      simpl.
    2: { unfold aws_check_kubernetes_version in Hversion. rewrite Hlen in Hversion.
         destruct given as [v |].
         - destruct (str_in v _); simpl in Hversion; [done |].
           by injection Hversion as <-.
         - unfold last_item in Hversion. destruct (last _); [done |].
           by injection Hversion as <-. }
    destruct (aws_check_availability_zones _ _) as [zones | e] eqn:Hzones; simpl.
    2: { unfold aws_check_availability_zones in Hzones.
         destruct (aws_data.availability_zones data) as [[zs |] |]; [| | done].
         - destruct (traverse _ zs) as [units | e'] eqn:Ht; simpl in Hzones; [done |].
           injection Hzones as <-. apply traverse_Raise in Ht as (zone & _ & Hzone).
           destruct (str_in zone _); simpl in Hzone; [done |].
           by injection Hzone as <-.
         - by injection Hzones as <-. }
    destruct (traverse _ node_groups) as [units | e] eqn:Ht; simpl.
    2: { apply traverse_Raise in Ht as (item & Hin & Hres).
         by rewrite (Hitem _ item e Hin Hres). }
    destruct (aws_check_kms_key _ _) as [[] | e] eqn:Hkms; simpl; [done |].
    unfold aws_check_kms_key in Hkms.
    repeat (case_match; simplify_eq/=; try done).
    destruct (dict_get _ _) as [key |]; simpl in Hkms; [| by injection Hkms as <-].
    repeat (case_match; simplify_eq/=; try done).
  - intros region name instance Hrest Hregion Hin Hno. revert Hrest.
    unfold aws_check_input. rewrite Hcred, Hgroups, Hregion. simpl.
    destruct (str_in region _); simpl; [| done].
    destruct (length (amazon_web_services.kubernetes_versions inventory region) =? 0)%nat;
      [done |].
    destruct (aws_data.kubernetes_version data) as [given |]; simpl; [| done].
    destruct (aws_check_kubernetes_version _ given) as [version | e]; simpl; [| done].
    destruct (aws_check_availability_zones _ _) as [zones | e]; simpl; [| done].
    intros _.
    rewrite (traverse_Raise_first _ node_groups (name, RawMapping (Some instance))
               (AttributeError "'dict' object has no attribute 'instance'")); try done.
    + unfold aws_check_instance. simpl. apply str_in_false in Hno. by rewrite Hno.
    + intros item e Hitem' Hres. by eapply Hitem.
Qed.

Lemma aws_check_input_instance_error_witness :
  aws_check_input
    {| amazon_web_services.check_credentials := Ok tt;
       amazon_web_services.regions := fun _ => ["us-west-2"];
       amazon_web_services.kubernetes_versions := fun _ => ["1.29"; "1.30"];
       amazon_web_services.zones := fun _ => ["us-west-2c"; "us-west-2a"; "us-west-2b"];
       amazon_web_services.instances := fun _ => ["m5.xlarge"];
       amazon_web_services.kms_key_arns := fun _ => [] |}
    {| aws_data.region := Some "us-west-2";
       aws_data.kubernetes_version := Some None;
       aws_data.availability_zones := None;
       aws_data.node_groups := Some [("general", RawMapping (Some "m5.2xlarge"))];
       aws_data.eks_kms_arn := None |}
  = Raise (AttributeError "'dict' object has no attribute 'instance'").
Proof.
  refine (proj2 (aws_check_input_instance_error
            {| amazon_web_services.check_credentials := Ok tt;
               amazon_web_services.regions := fun _ => ["us-west-2"];
               amazon_web_services.kubernetes_versions := fun _ => ["1.29"; "1.30"];
               amazon_web_services.zones :=
                 fun _ => ["us-west-2c"; "us-west-2a"; "us-west-2b"];
               amazon_web_services.instances := fun _ => ["m5.xlarge"];
               amazon_web_services.kms_key_arns := fun _ => [] |}
            {| aws_data.region := Some "us-west-2";
               aws_data.kubernetes_version := Some None;
               aws_data.availability_zones := None;
               aws_data.node_groups :=
                 Some [("general", RawMapping (Some "m5.2xlarge"))];
               aws_data.eks_kms_arn := None |}
            [("general", RawMapping (Some "m5.2xlarge"))] eq_refl eq_refl _)
            "us-west-2" "general" "m5.2xlarge" eq_refl eq_refl _ _).
  - repeat constructor. by eexists.
  - by constructor.
  - simpl. intros Hin. apply list_elem_of_singleton in Hin. discriminate.
Defined.

(** ** Azure: version and resource group *)

(** X19. The version the Azure check returns is always one of the
    versions on offer, the given one if one was given, and the check is a
    fixed point on it; with nothing on offer nothing passes, and an unset
    version then raises an [IndexError]. *)
Theorem validate_kubernetes_version_settles :
  ∀ (available : list string),
    (∀ value version,
       _validate_kubernetes_version available value = Ok version →
       version ∈ available
       ∧ (∀ v, value = Some v → version = v)
       ∧ _validate_kubernetes_version available (Some version) = Ok version)
    ∧ (available = [] →
       _validate_kubernetes_version available None
       = Raise (IndexError "list index out of range")
       ∧ ∀ value, is_ok (_validate_kubernetes_version available value) = false).
Proof.
  intros available. split.
  - intros value version. unfold _validate_kubernetes_version at 1.
    destruct value as [v |].
    + destruct (str_in v available) eqn:Hv; simpl; [| done].
      intros [= <-]. split_and!.
      * by apply str_in_spec.
      * by intros ? [= <-].
      * unfold _validate_kubernetes_version. by rewrite Hv.
    + unfold last_item. destruct (last available) as [v |] eqn:Hlast; [| done].
      intros [= <-].
      assert (Hv : v ∈ available).
      { apply last_Some in Hlast as [l' ->]. apply elem_of_app. right. by constructor. }
      split_and!; [done | done |].
      unfold _validate_kubernetes_version. apply str_in_spec in Hv. by rewrite Hv.
  - intros ->. split; [done |]. by intros [v |].
Qed.

Lemma validate_kubernetes_version_settles_witness :
  "1.29.2" ∈ ["1.28.5"; "1.29.2"]
  ∧ (∀ v, None = Some v → "1.29.2" = v)
  ∧ _validate_kubernetes_version ["1.28.5"; "1.29.2"] (Some "1.29.2") = Ok "1.29.2".
Proof.
  exact (proj1 (validate_kubernetes_version_settles ["1.28.5"; "1.29.2"])
           None "1.29.2" eq_refl).
Defined.

(** X20. The resource group check at its edges: an unset name passes; a
    name that passes comes back unchanged; the failures are the three
    [ValueError]s and nothing else; and a name of allowed characters with
    one newline after it passes, whatever its last character, a period
    included. *)
Theorem validate_resource_group_name_edges :
  ∀ (isalnum : N → bool) (suffix : string),
    _validate_resource_group_name isalnum suffix None = Ok None
    ∧ (∀ value out,
         _validate_resource_group_name isalnum suffix value = Ok out → out = value)
    ∧ (∀ value e,
         _validate_resource_group_name isalnum suffix value = Raise e →
         e = resource_group_length_error suffix
         ∨ e = resource_group_characters_error
         ∨ e = resource_group_period_error)
    ∧ (∀ name w,
         code_points name = (w ++ [10%N])%list →
         w ≠ [] →
         Forall (fun c => isalnum c = true ∨ c ∈ [95; 45; 46; 40; 41]%N) w →
         (length w + 1 + py_len suffix ≤ 90)%nat →
         _validate_resource_group_name isalnum suffix (Some name) = Ok (Some name)).
Proof.
  intros isalnum suffix. split_and!.
  - done.
  - intros [v |] out; unfold _validate_resource_group_name; [| by intros [= <-]].
    repeat (case_match; try done). by intros [= <-].
  - intros [v |] e; unfold _validate_resource_group_name; [| done].
    destruct (_ || _); [intros [= <-]; by left |].
    destruct (re_match_resource_group_name isalnum v) eqn:Hre; simpl;
      [| intros [= <-]; right; by left].
    destruct (last (code_points v)) as [c |] eqn:Hlast.
    + destruct (c =? 46)%N; [| done]. intros [= <-]. right. by right.
    + unfold re_match_resource_group_name in Hre.
      destruct (code_points v); [done |]. by apply last_None in Hlast.
  - intros name w Hname Hne Hall Hlen. apply validate_resource_group_name_Ok.
    assert (Hpy : py_len name = (length w + 1)%nat).
    { unfold py_len. by rewrite Hname, length_app. }
    split; [| split].
    + lia.
    + apply re_match_resource_group_name_spec. exists w. split; [done |].
      split; [by right | done].
    + rewrite Hname, last_snoc. done.
Qed.

Lemma validate_resource_group_name_edges_witness :
  _validate_resource_group_name sample_isalnum "-node-resource-group"
    (Some ("my-rg." +:+ String "010" ""))
  = Ok (Some ("my-rg." +:+ String "010" "")).
Proof.
  apply (proj2 (proj2 (proj2 (validate_resource_group_name_edges sample_isalnum
                                "-node-resource-group")))
           _ [109; 121; 45; 114; 103; 46]%N).
  - reflexivity.
  - done.
  - repeat (constructor;
            [first [ by (right; repeat constructor) | by left ] |]).
    constructor.
  - vm_compute. lia.
Defined.

(** ** State imports and backend objects *)

(** X21. Only Azure with a resource group name of its own imports state:
    the one resource group, under the subscription of the environment, and
    by the very name the compiled variables carry.  Without the
    subscription in the environment that is a [KeyError]; Azure without a
    name imports nothing and does not read the environment; every other
    kind returns [None], not a list. *)
Theorem state_imports_spec :
  ∀ (kubeconfig_filename : string)
    (construct_azure_resource_group_name :
       string → string → option string → option string → string)
    (suffix : string) (environ : gmap string string) (config : Main.t),
    (Main.provider config ≠ schema.azure →
     state_imports construct_azure_resource_group_name environ config = Ok None)
    ∧ (∀ block,
         Main.provider config = schema.azure →
         Main.azure config = Some block →
         match AzureProvider.resource_group_name block with
         | None =>
             state_imports construct_azure_resource_group_name environ config
             = Ok (Some [])
         | Some _ =>
             match environ !! "ARM_SUBSCRIPTION_ID" with
             | None =>
                 state_imports construct_azure_resource_group_name environ config
                 = Raise (KeyError "ARM_SUBSCRIPTION_ID")
             | Some subscription_id =>
                 ∀ v,
                   input_vars kubeconfig_filename construct_azure_resource_group_name
                     suffix config = Ok (AzureVars v) →
                   state_imports construct_azure_resource_group_name environ config
                   = Ok (Some [ ("azurerm_resource_group.resource_group",
                                 "/subscriptions/" +:+ subscription_id
                                 +:+ "/resourceGroups/"
                                 +:+ AzureInputVars.resource_group_name v) ])
             end
         end).
Proof.
  intros kf car suffix environ config. split.
  - intros Hne. unfold state_imports. by destruct (Main.provider config).
  - intros block Hp Hb. unfold state_imports, input_vars. rewrite Hp, Hb. simpl.
    destruct (AzureProvider.resource_group_name block) as [name |] eqn:Hname; [| done].
    destruct (environ !! "ARM_SUBSCRIPTION_ID") as [subscription_id |]; simpl; [| done].
    intros v Hres. bind_inv Hres. by injection Hres as <-.
Qed.

Lemma state_imports_spec_witness :
  state_imports sample_construct_azure_resource_group_name
    {[ "ARM_SUBSCRIPTION_ID" := "0000" ]} sample_existing_config
  = Ok None.
Proof.
  apply (state_imports_spec "/tmp/NEBARI_KUBECONFIG"
           sample_construct_azure_resource_group_name "-node-resource-group"
           {[ "ARM_SUBSCRIPTION_ID" := "0000" ]} sample_existing_config).
  discriminate.
Defined.

(** X22. Whenever the variables compile, so do the backend objects, and
    they agree: nothing for a local or existing cluster; for a cloud the
    state of this stage, last, and before it for GCP and AWS the provider
    set to the project and the region of the compiled variables. *)
Theorem tf_objects_agree_with_input_vars :
  ∀ (kubeconfig_filename : string)
    (construct_azure_resource_group_name :
       string → string → option string → option string → string)
    (suffix : string) (config : Main.t) (compiled : InputVars),
    input_vars kubeconfig_filename construct_azure_resource_group_name suffix config
    = Ok compiled →
    tf_objects config
    = Ok match compiled with
         | LocalVars _ | ExistingVars _ => []
         | GCPVars v =>
             [ Provider "google"
                 [ ("project", GCPInputVars.project_id v);
                   ("region", GCPInputVars.region v) ];
               NebariTerraformState "02-infrastructure" config ]
         | AzureVars _ => [ NebariTerraformState "02-infrastructure" config ]
         | AWSVars v =>
             [ Provider "aws" [ ("region", AWSInputVars.region v) ];
               NebariTerraformState "02-infrastructure" config ]
         end.
Proof.
  intros kf car suffix config compiled. unfold input_vars, tf_objects.
  destruct (Main.provider config).
  - destruct (Main.local config); simpl; [| done]. by intros [= <-].
  - destruct (Main.existing config); simpl; [| done].
    intros Hres. bind_inv Hres. by injection Hres as <-.
  - destruct (Main.google_cloud_platform config); simpl; [| done].
    intros Hres. bind_inv Hres. by injection Hres as <-.
  - destruct (Main.amazon_web_services config); simpl; [| done].
    intros Hres. bind_inv Hres. by injection Hres as <-.
  - destruct (Main.azure config); simpl; [| done].
    intros Hres. bind_inv Hres. by injection Hres as <-.
Qed.

Lemma tf_objects_agree_with_input_vars_witness :
  tf_objects sample_existing_config = Ok [].
Proof.
  exact (tf_objects_agree_with_input_vars "/tmp/NEBARI_KUBECONFIG"
           sample_construct_azure_resource_group_name "-node-resource-group"
           sample_existing_config
           (ExistingVars {| ExistingInputVars.kube_context := "kind" |}) eq_refl).
Defined.
